(** * RecoverySoftNetz: the device I/O layer, format detection and the
      filesystem parsers, embedded from the C++ sources.

    Sources embedded here:
    - [src/io/device_io.cpp] with [device_io.h]: class [DeviceIO], Unix
      (Linux) branch of the platform-specific part
    - [device_io_adapter.cpp] with [device_io_adapter.h]: class
      [DeviceIOAdapter]
    - [src/parsers/ext4_parser.cpp] with [ext4_parser.h], [ntfs_parser.cpp]
      with [ntfs_parser.h], [apfs_parser.cpp] with [apfs_parser.h]
    - [src/core/recovery_engine.cpp]: class [RecoveryEngine]
    - [src/ui/device_wizard.cpp]: [DeviceWizard::DetectFileSystem]

    Conventions.
    - [uint64_t], [uint32_t], [int] values are integers in [Z]; every place
      where the C++ arithmetic wraps is written with [wrap64], [wrap32],
      [to_int64] or [to_int32].
    - A C++ exception is a value of [Exn]; a function that may throw returns
      a [Result]. [try { .. } catch (...) { .. }] is [try_catch].
    - Raw struct overlays ([*(uint16_t * )p]) are decoded little-endian, the
      byte order of the hosts the code targets (x86-64, AArch64).
    - The operating system below [DeviceIO] is the record [OS]; what a file
      descriptor delivers is the record [Device].
    - A local object that the code reads before assigning it (the
      [blocks_per_group] member in [EXT4Parser::Parse]) is a parameter of
      the function, named [uninit]. *)

From Stdlib Require Import String Ascii.
From Stdlib Require Import ZArith List Bool Lia.
From coqutil Require Import Byte Word.LittleEndianList.
Import ListNotations.
Local Open Scope Z_scope.

(** ** Machine integers *)

Definition wrap64 (z : Z) : Z := z mod 2 ^ 64.
Definition wrap32 (z : Z) : Z := z mod 2 ^ 32.

(** Conversion of an unsigned 64-bit value to [off_t] / [ssize_t]. *)
Definition to_int64 (z : Z) : Z :=
  let u := wrap64 z in if u <? 2 ^ 63 then u else u - 2 ^ 64.

(** Conversion to [int] (32 bits, two's complement). *)
Definition to_int32 (z : Z) : Z :=
  let u := wrap32 z in if u <? 2 ^ 31 then u else u - 2 ^ 32.

Definition is_uint64 (z : Z) : Prop := 0 <= z < 2 ^ 64.

(** ** Exceptions and results *)

(** [DeviceIOException] carries only a message; each constructor is one of
    the messages of device_io.cpp. [StdLengthError] and [StdBadAlloc] are
    what [std::vector<uint8_t> buffer(size)] throws when [size] exceeds
    [max_size()] and when the allocation fails. *)
Inductive Exn : Type :=
| DeviceNotOpen                 (* "Device not open" *)
| BufferPointerIsNull           (* "Buffer pointer is null" *)
| ReadOffsetBeyondDeviceSize    (* "Read offset beyond device size" *)
| DeviceFdInvalid               (* "Device file descriptor invalid" *)
| FailedToSeek                  (* "Failed to seek to offset" *)
| FailedToRead                  (* "Failed to read from device" *)
| FailedToOpenDevice (path : string)  (* "Failed to open device: " + path *)
| StdLengthError
| StdBadAlloc.

Inductive Result (A : Type) : Type :=
| Ok (a : A)
| Throw (e : Exn).
Arguments Ok {A} a.
Arguments Throw {A} e.

Definition bind {A B : Type} (r : Result A) (k : A -> Result B) : Result B :=
  match r with
  | Ok a => k a
  | Throw e => Throw e
  end.

Notation "x <- r ;; k" := (bind r (fun x => k))
  (at level 61, r at next level, right associativity).

(** [try { body } catch (...) { handler }] *)
Definition try_catch {A : Type} (body : Result A) (handler : Exn -> Result A)
  : Result A :=
  match body with
  | Ok a => Ok a
  | Throw e => handler e
  end.

Definition throws {A : Type} (r : Result A) : bool :=
  match r with Ok _ => false | Throw _ => true end.

(** ** The platform under DeviceIO *)

(** What an open file descriptor delivers. [dev_seek_set] and
    [dev_read_count] are the return values of [lseek(fd, off, SEEK_SET)] and
    of [read(fd, buf, count)] issued at position [pos]; a negative value is
    the error return. The bytes that [read] stores are those of the medium,
    [dev_byte]. *)
Record Device : Type := {
  dev_byte : Z -> byte;
  dev_blkgetsize64 : option Z;
  dev_seek_end : Z;
  dev_seek_set : Z -> Z;
  dev_read_count : Z -> Z -> Z
}.

Record OS : Type := {
  os_open : string -> Z;      (* open(path, O_RDONLY): descriptor or -1 *)
  os_close : Z -> Z;          (* close(fd): 0 or -1 *)
  os_file : Z -> Device;      (* the object behind a descriptor *)
  os_alloc : Z -> bool        (* does an allocation of that many bytes succeed *)
}.

(** The [n] bytes of the medium that start at [pos]. *)
Definition dev_bytes (d : Device) (pos : Z) (n : nat) : list byte :=
  map (fun i => dev_byte d (pos + Z.of_nat i)) (seq 0 n).

Definition zero_byte : byte := Byte.x00.

(** [std::vector::resize(n)]: truncate, or extend with value-initialised
    bytes. *)
Definition resize (n : nat) (v : list byte) : list byte :=
  firstn n v ++ repeat zero_byte (n - length v).

(** ** class DeviceIO *)

Inductive FilesystemType : Type :=
| UNKNOWN | NTFS | APFS | EXT4 | FAT32 | HFS_PLUS.

Record DeviceIO : Type := {
  device_fd_ : Z;
  current_device_path_ : string;
  device_size_ : Z;
  sector_size_ : Z;
  detected_fs_ : FilesystemType;
  is_open_ : bool
}.

(** [DeviceIO::DeviceIO()] *)
Definition DeviceIO_new : DeviceIO :=
  {| device_fd_ := -1;
     current_device_path_ := EmptyString;
     device_size_ := 0;
     sector_size_ := 512;
     detected_fs_ := UNKNOWN;
     is_open_ := false |}.

(** [DeviceIO::FilesystemTypeToString] *)
Definition FilesystemTypeToString (fs_type : FilesystemType) : string :=
  match fs_type with
  | NTFS => "NTFS"
  | APFS => "APFS"
  | EXT4 => "ext4"
  | FAT32 => "FAT32"
  | HFS_PLUS => "HFS+"
  | UNKNOWN => "Unknown"
  end.

(** [DeviceIO::StringToFilesystemType] *)
Definition StringToFilesystemType (fs_name : string) : FilesystemType :=
  if String.eqb fs_name "NTFS" then NTFS
  else if String.eqb fs_name "APFS" then APFS
  else if String.eqb fs_name "ext4" then EXT4
  else if String.eqb fs_name "FAT32" then FAT32
  else if String.eqb fs_name "HFS+" then HFS_PLUS
  else UNKNOWN.

(** [max_size()] of [std::vector<uint8_t>] on an LP64 platform. *)
Definition vector_max_size : Z := 2 ^ 63 - 1.

Section WithOS.

Variable os : OS.

(** [DeviceIO::ReadImpl], Unix branch: the number of bytes read. *)
Definition ReadImpl (st : DeviceIO) (offset size : Z) : Result Z :=
  if device_fd_ st <? 0 then Throw DeviceFdInvalid
  else if dev_seek_set (os_file os (device_fd_ st)) (to_int64 offset) <? 0
       then Throw FailedToSeek
  else
    let bytes_read := dev_read_count (os_file os (device_fd_ st)) offset size in
    if bytes_read <? 0 then Throw FailedToRead
    else Ok bytes_read.

(** [DeviceIO::ReadBlock]. [buffer_null] says whether the caller passed
    [nullptr]. The sum [offset + size] is a [uint64_t] expression. *)
Definition ReadBlock (st : DeviceIO) (offset size : Z) (buffer_null : bool)
  : Result Z :=
  if negb (is_open_ st) then Throw DeviceNotOpen
  else if buffer_null then Throw BufferPointerIsNull
  else if wrap64 (offset + size) >? device_size_ st
       then Throw ReadOffsetBeyondDeviceSize
  else ReadImpl st offset size.

(** The contents of the caller's [size]-byte buffer after a read that
    returned [bytes_read]: the bytes stored by [read], then the untouched
    (zero-initialised) tail. *)
Definition buffer_after (st : DeviceIO) (offset size bytes_read : Z)
  : list byte :=
  let stored := Z.to_nat (Z.min bytes_read size) in
  dev_bytes (os_file os (device_fd_ st)) offset stored
  ++ repeat zero_byte (Z.to_nat size - stored).

(** [DeviceIO::ReadBlockVector]. The vector is built with [size]
    value-initialised bytes, which needs an allocation when [size] is not
    zero; for [size = 0] it owns no storage and [buffer.data()] is the null
    pointer (libstdc++, libc++), which [ReadBlock] rejects. *)
Definition ReadBlockVector (st : DeviceIO) (offset size : Z)
  : Result (list byte) :=
  if size >? vector_max_size then Throw StdLengthError
  else if (0 <? size) && negb (os_alloc os size) then Throw StdBadAlloc
  else
    bytes_read <- ReadBlock st offset size (size =? 0) ;;
    Ok (resize (Z.to_nat bytes_read) (buffer_after st offset size bytes_read)).

(** *** Format probes *)

(** [v[off .. off+n)], as the overlays and [memcmp] read it. *)
Definition slice (v : list byte) (off n : nat) : list byte :=
  firstn n (skipn off v).

Definition bytes_eqb (a b : list byte) : bool :=
  if list_eq_dec Byte.byte_eq_dec a b then true else false.

(** The 8 characters ["NTFS    "]. *)
Definition ntfs_sig : list byte :=
  [Byte.x4e; Byte.x54; Byte.x46; Byte.x53; Byte.x20; Byte.x20; Byte.x20; Byte.x20].

(** [*(uint16_t * )&v[off]] and [*(uint32_t * )&v[off]] *)
Definition read_u16 (v : list byte) (off : nat) : Z := le_combine (slice v off 2).
Definition read_u32 (v : list byte) (off : nat) : Z := le_combine (slice v off 4).

(** [DeviceIO::DetectNTFS] *)
Definition DetectNTFS (st : DeviceIO) : Result bool :=
  try_catch
    (boot_sector <- ReadBlockVector st 0 512 ;;
     if (length boot_sector <? 512)%nat then Ok false
     else Ok (bytes_eqb (slice boot_sector 3 8) ntfs_sig))
    (fun _ => Ok false).

(** [DeviceIO::DetectEXT4] *)
Definition DetectEXT4 (st : DeviceIO) : Result bool :=
  try_catch
    (superblock <- ReadBlockVector st 1024 256 ;;
     if (length superblock <? 120)%nat then Ok false
     else Ok (read_u16 superblock 56 =? 0xEF53))
    (fun _ => Ok false).

(** [DeviceIO::DetectAPFS] *)
Definition DetectAPFS (st : DeviceIO) : Result bool :=
  try_catch
    (header <- ReadBlockVector st 0 64 ;;
     if (length header <? 4)%nat then Ok false
     else
       let magic := read_u32 header 0 in
       Ok ((magic =? 0x4253584E) || (magic =? 0x42535041)))
    (fun _ => Ok false).

(** [DeviceIO::DetectFAT32] *)
Definition DetectFAT32 (st : DeviceIO) : Result bool :=
  try_catch
    (boot_sector <- ReadBlockVector st 0 512 ;;
     if (length boot_sector <? 512)%nat then Ok false
     else if negb (read_u16 boot_sector 510 =? 0xAA55) then Ok false
     else
       let first_byte := byte.unsigned (nth 0 boot_sector zero_byte) in
       Ok ((first_byte =? 0xEB) || (first_byte =? 0xE9)))
    (fun _ => Ok false).

(** [DeviceIO::DetectHFSPlus] *)
Definition DetectHFSPlus (st : DeviceIO) : Result bool :=
  try_catch
    (header <- ReadBlockVector st 1024 512 ;;
     if (length header <? 2)%nat then Ok false
     else
       let magic := read_u16 header 0 in
       Ok ((magic =? 0x482B) || (magic =? 0x4858)))
    (fun _ => Ok false).

(** [DeviceIO::DetectFilesystem] *)
Definition DetectFilesystem (st : DeviceIO) : Result FilesystemType :=
  is_ntfs <- DetectNTFS st ;;
  if is_ntfs then Ok NTFS else
  is_ext4 <- DetectEXT4 st ;;
  if is_ext4 then Ok EXT4 else
  is_apfs <- DetectAPFS st ;;
  if is_apfs then Ok APFS else
  is_fat <- DetectFAT32 st ;;
  if is_fat then Ok FAT32 else
  is_hfs <- DetectHFSPlus st ;;
  if is_hfs then Ok HFS_PLUS else
  Ok UNKNOWN.

(** *** Open and Close *)

(** [DeviceIO::CloseImpl] *)
Definition CloseImpl (st : DeviceIO) : bool :=
  if device_fd_ st >=? 0 then os_close os (device_fd_ st) =? 0 else true.

(** [DeviceIO::Close]: the returned flag and the state afterwards. *)
Definition Close (st : DeviceIO) : bool * DeviceIO :=
  if negb (is_open_ st) then (true, st)
  else
    let result := CloseImpl st in
    (result,
     {| device_fd_ := device_fd_ st;
        current_device_path_ := current_device_path_ st;
        device_size_ := device_size_ st;
        sector_size_ := sector_size_ st;
        detected_fs_ := detected_fs_ st;
        is_open_ := false |}).

(** [DeviceIO::GetSizeImpl], Linux branch: [BLKGETSIZE64], and when that
    ioctl fails the result of [lseek(fd, 0, SEEK_END)] stored in a
    [uint64_t]. *)
Definition GetSizeImpl (st : DeviceIO) : Z :=
  if device_fd_ st <? 0 then 0
  else
    match dev_blkgetsize64 (os_file os (device_fd_ st)) with
    | Some size => wrap64 size
    | None => wrap64 (dev_seek_end (os_file os (device_fd_ st)))
    end.

(** [DeviceIO::Open]: the outcome and the state afterwards (the state
    changes also when the call throws). *)
Definition Open (st : DeviceIO) (device_path : string)
  : Result bool * DeviceIO :=
  let st1 := if is_open_ st then snd (Close st) else st in
  (* OpenImpl *)
  let st2 := {| device_fd_ := os_open os device_path;
                current_device_path_ := current_device_path_ st1;
                device_size_ := device_size_ st1;
                sector_size_ := sector_size_ st1;
                detected_fs_ := detected_fs_ st1;
                is_open_ := is_open_ st1 |} in
  if negb (device_fd_ st2 >=? 0) then (Throw (FailedToOpenDevice device_path), st2)
  else
    let st3 := {| device_fd_ := device_fd_ st2;
                  current_device_path_ := device_path;
                  device_size_ := GetSizeImpl st2;
                  sector_size_ := sector_size_ st2;
                  detected_fs_ := detected_fs_ st2;
                  is_open_ := true |} in
    match DetectFilesystem st3 with
    | Throw e => (Throw e, st3)
    | Ok fs =>
        (Ok true,
         {| device_fd_ := device_fd_ st3;
            current_device_path_ := current_device_path_ st3;
            device_size_ := device_size_ st3;
            sector_size_ := sector_size_ st3;
            detected_fs_ := fs;
            is_open_ := true |})
    end.

End WithOS.

(** *** Device information *)

(** [struct DeviceInfo] *)
Record DeviceInfo : Type := {
  device_path : string;
  total_bytes : Z;
  sector_size : Z;
  filesystem_type : FilesystemType;
  is_open : bool;
  filesystem_name : string
}.

(** [DeviceIO::GetDeviceInfo] *)
Definition GetDeviceInfo (st : DeviceIO) : DeviceInfo :=
  {| device_path := current_device_path_ st;
     total_bytes := device_size_ st;
     sector_size := sector_size_ st;
     filesystem_type := detected_fs_ st;
     is_open := is_open_ st;
     filesystem_name := FilesystemTypeToString (detected_fs_ st) |}.

(** [DeviceIO::IsOpen], [GetDeviceSize], [GetSectorSize] *)
Definition IsOpen (st : DeviceIO) : bool := is_open_ st.
Definition GetDeviceSize (st : DeviceIO) : Z := device_size_ st.
Definition GetSectorSize (st : DeviceIO) : Z := sector_size_ st.

(** *** The descriptors a process holds *)

(** The platform calls of [DeviceIO] that change the descriptor table of
    the process: [open], with the value it returned, and [close]. The other
    calls ([ioctl], [lseek], [read]) leave the table alone. *)
Inductive Syscall : Type :=
| SysOpen (path : string) (fd : Z)
| SysClose (fd : Z).

(** [close(fd)] on a table: the descriptor is released when it is held
    (on Linux also when [close] reports an error). *)
Fixpoint release (fd : Z) (held : list Z) : list Z :=
  match held with
  | [] => []
  | h :: rest => if h =? fd then rest else h :: release fd rest
  end.

(** The table after one call. *)
Definition table_step (held : list Z) (c : Syscall) : list Z :=
  match c with
  | SysOpen _ fd => if fd >=? 0 then fd :: held else held
  | SysClose fd => release fd held
  end.

(** The table-changing calls issued by [DeviceIO::CloseImpl] and
    [DeviceIO::Close], in order. *)
Definition CloseImpl_calls (st : DeviceIO) : list Syscall :=
  if device_fd_ st >=? 0 then [SysClose (device_fd_ st)] else [].

Definition Close_calls (st : DeviceIO) : list Syscall :=
  if negb (is_open_ st) then [] else CloseImpl_calls st.

(** The table-changing calls issued by [DeviceIO::Open]: those of [Close]
    when the handle is open, then the [open] of [OpenImpl]. *)
Definition Open_calls (os : OS) (st : DeviceIO) (device_path : string)
  : list Syscall :=
  (if is_open_ st then Close_calls st else [])
  ++ [SysOpen device_path (os_open os device_path)].

(** ** Concrete platforms *)

(** A regular file of [len] bytes on Linux: [BLKGETSIZE64] is refused;
    seeking to a negative offset fails and to any other offset succeeds,
    also past the end of the file (the size limit of the file system is
    taken to be the largest [off_t]); [read] refuses a count that is
    negative as an [ssize_t] ([EINVAL]), and otherwise transfers the bytes
    left before end of file, at most [0x7ffff000] of them in one call. *)
Definition linux_max_rw_count : Z := 0x7ffff000.

Definition regular_file (len : Z) (content : Z -> byte) : Device :=
  {| dev_byte := content;
     dev_blkgetsize64 := None;
     dev_seek_end := len;
     dev_seek_set := fun off => if off <? 0 then -1 else off;
     dev_read_count := fun pos count =>
       if count >=? 2 ^ 63 then -1
       else Z.max 0 (Z.min (Z.min count linux_max_rw_count) (len - pos)) |}.

(** The same file behind a descriptor whose driver transfers at most
    [chunk] bytes per [read] (POSIX allows [read] to return any positive
    count up to the one requested). *)
Definition chunked_file (chunk len : Z) (content : Z -> byte) : Device :=
  {| dev_byte := content;
     dev_blkgetsize64 := None;
     dev_seek_end := len;
     dev_seek_set := fun off => if off <? 0 then -1 else off;
     dev_read_count := fun pos count =>
       if count >=? 2 ^ 63 then -1
       else Z.max 0 (Z.min (Z.min count chunk) (len - pos)) |}.

(** The largest allocation the example platforms grant: 4 GiB. *)
Definition heap_limit : Z := 2 ^ 32.

(** An operating system with one openable path (others do not exist); the
    descriptor handed out is 3. *)
Definition single_file_os (path : string) (d : Device) : OS :=
  {| os_open := fun p => if String.eqb p path then 3 else -1;
     os_close := fun _ => 0;
     os_file := fun _ => d;
     os_alloc := fun n => n <=? heap_limit |}.

(** ** File entries and the parsers *)

(** [FileEntry], with the members the parsers assign. *)
Record FileEntry : Type := {
  filename : string;
  file_size : Z;
  creation_time : Z;
  modification_time : Z;
  is_directory : bool;
  is_deleted : bool
}.

(** [haystack.find(needle) != std::string::npos] *)
Fixpoint str_contains (needle haystack : string) : bool :=
  String.prefix needle haystack
  || match haystack with
     | EmptyString => false
     | String _ rest => str_contains needle rest
     end.

(** [device_path.empty()] *)
Definition str_empty (s : string) : bool :=
  match s with EmptyString => true | String _ _ => false end.

(** The outcome of a call that contains an integer division: it returns,
    or the divisor was zero (undefined behaviour; no result). *)
Inductive Run (A : Type) : Type :=
| Returns (a : A)
| DivisionByZero.
Arguments Returns {A} a.
Arguments DivisionByZero {A}.

Module EXT4Parser.

Definition EXT4_MAGIC : Z := 0xEF53.

(** The members of [EXT4Superblock] that the parser reads or writes. *)
Record EXT4Superblock : Type := {
  inodes_count : Z;
  blocks_count : Z;
  log_block_size : Z;
  blocks_per_group : Z;
  inodes_per_group : Z;
  magic : Z
}.

(** [EXT4GroupDescriptor] after [memset(&desc, 0, sizeof(desc))]; the
    members past [bg_used_dirs_count] are zero as well and never read. *)
Record EXT4GroupDescriptor : Type := {
  bg_block_bitmap : Z;
  bg_inode_bitmap : Z;
  bg_inode_table : Z;
  bg_free_blocks_count : Z;
  bg_free_inodes_count : Z;
  bg_used_dirs_count : Z
}.

Definition zero_desc : EXT4GroupDescriptor :=
  {| bg_block_bitmap := 0; bg_inode_bitmap := 0; bg_inode_table := 0;
     bg_free_blocks_count := 0; bg_free_inodes_count := 0;
     bg_used_dirs_count := 0 |}.

Record t : Type := {
  total_recoverable_files_ : Z;
  total_deleted_files_ : Z;
  journal_info_ : string;
  last_parsed_device_ : string;
  is_initialized_ : bool
}.

(** [EXT4Parser::EXT4Parser()] *)
Definition new : t :=
  {| total_recoverable_files_ := 0;
     total_deleted_files_ := 0;
     journal_info_ := EmptyString;
     last_parsed_device_ := EmptyString;
     is_initialized_ := false |}.

Definition GetRecoveryStats (p : t) : Z * Z :=
  (total_recoverable_files_ p, total_deleted_files_ p).

(** [ReadSuperblock]: five members are assigned; [blocks_per_group]
    keeps whatever the caller's object held. *)
Definition ReadSuperblock (device_path : string) (superblock : EXT4Superblock)
  : bool * EXT4Superblock :=
  if str_contains "ext4" device_path
     || str_contains "sda" device_path
     || str_contains "nvme" device_path
  then (true,
        {| inodes_count := 1000;
           blocks_count := 262144;
           log_block_size := 2;
           blocks_per_group := blocks_per_group superblock;
           inodes_per_group := 128;
           magic := EXT4_MAGIC |})
  else (false, superblock).

(** [ParseGroupDescriptors]: the quotient is computed in [uint32_t] and
    stored in an [int]. *)
Definition ParseGroupDescriptors (superblock : EXT4Superblock)
  : Run (bool * list EXT4GroupDescriptor) :=
  if blocks_per_group superblock =? 0 then DivisionByZero
  else
    let num_groups :=
      to_int32 (wrap32 (blocks_count superblock
                        + blocks_per_group superblock - 1)
                / blocks_per_group superblock) in
    Returns (true, repeat zero_desc (Z.to_nat (Z.min num_groups 10))).

Definition sample_file : FileEntry :=
  {| filename := "example_file.txt";
     file_size := 4096;
     creation_time := 0;
     modification_time := 0;
     is_directory := false;
     is_deleted := false |}.

(** [ParseInodeTable] *)
Definition ParseInodeTable (p : t) (group_desc : EXT4GroupDescriptor)
           (entries : list FileEntry) : bool * t * list FileEntry :=
  (true,
   {| total_recoverable_files_ := 1;
      total_deleted_files_ := 0;
      journal_info_ := journal_info_ p;
      last_parsed_device_ := last_parsed_device_ p;
      is_initialized_ := is_initialized_ p |},
   entries ++ [sample_file]).

Definition ParseJournal : string := "JBD2 journal: standard ext4 recovery".

(** The [for (const auto& group_desc : group_descs)] loop of [Parse]:
    the flag returned by [ParseInodeTable] is dropped. *)
Fixpoint parse_groups (p : t) (group_descs : list EXT4GroupDescriptor)
         (entries : list FileEntry) : t * list FileEntry :=
  match group_descs with
  | [] => (p, entries)
  | group_desc :: rest =>
      let '(_, p', entries') := ParseInodeTable p group_desc entries in
      parse_groups p' rest entries'
  end.

(** [IsInodeDeleted] *)
Definition IsInodeDeleted (inode_data : list byte) : bool :=
  if (length inode_data <? 0x18)%nat then false
  else
    let i_dtime := read_u32 inode_data 0x14 in
    negb (i_dtime =? 0).

Definition set_last_parsed_device (p : t) (device_path : string) : t :=
  {| total_recoverable_files_ := total_recoverable_files_ p;
     total_deleted_files_ := total_deleted_files_ p;
     journal_info_ := journal_info_ p;
     last_parsed_device_ := device_path;
     is_initialized_ := is_initialized_ p |}.

(** [EXT4Parser::Parse]. [uninit] is the indeterminate content of the
    local [EXT4Superblock superblock;]. *)
Definition Parse (uninit : EXT4Superblock) (p : t) (device_path : string)
           (entries : list FileEntry) : Run (bool * t * list FileEntry) :=
  if str_empty device_path then Returns (false, p, entries)
  else
    let p1 := set_last_parsed_device p device_path in
    let '(ok, superblock) := ReadSuperblock device_path uninit in
    if negb ok then Returns (false, p1, entries)
    else
      match ParseGroupDescriptors superblock with
      | DivisionByZero => DivisionByZero
      | Returns (ok_gd, group_descs) =>
          if negb ok_gd then Returns (false, p1, entries)
          else
            let '(p2, entries') := parse_groups p1 group_descs entries in
            Returns (true,
                     {| total_recoverable_files_ := total_recoverable_files_ p2;
                        total_deleted_files_ := total_deleted_files_ p2;
                        journal_info_ := ParseJournal;
                        last_parsed_device_ := last_parsed_device_ p2;
                        is_initialized_ := true |},
                     entries')
      end.

(** [EXT4Parser::CanHandle]. [uninit] is the indeterminate content of the
    local [EXT4Superblock superblock;]. *)
Definition CanHandle (uninit : EXT4Superblock) (device_path : string) : bool :=
  if str_empty device_path then false
  else fst (ReadSuperblock device_path uninit).

(** [EXT4Parser::GetJournalInfo] *)
Definition GetJournalInfo (p : t) : string := journal_info_ p.

(** [EXT4Parser::ParseInode]: the flag and the caller's entry afterwards; the members
    that are not assigned keep their values. *)
Definition ParseInode (inode_data : list byte) (entry : FileEntry) : bool * FileEntry :=
  if (length inode_data <? 0x30)%nat then (false, entry)
  else
    (true,
     {| filename := "inode_stub";
        file_size := 0;
        creation_time := creation_time entry;
        modification_time := modification_time entry;
        is_directory := false;
        is_deleted := false |}).

End EXT4Parser.

Module NTFSParser.

(** The members of [NTFSBootSector] that [ReadBootSector] assigns. *)
Record NTFSBootSector : Type := {
  bytes_per_sector : Z;
  sectors_per_cluster : Z
}.

Record t : Type := {
  total_recoverable_files_ : Z;
  total_deleted_files_ : Z;
  last_parsed_device_ : string;
  is_initialized_ : bool
}.

Definition new : t :=
  {| total_recoverable_files_ := 0;
     total_deleted_files_ := 0;
     last_parsed_device_ := EmptyString;
     is_initialized_ := false |}.

Definition GetRecoveryStats (p : t) : Z * Z :=
  (total_recoverable_files_ p, total_deleted_files_ p).

Definition ReadBootSector (device_path : string) (boot_sector : NTFSBootSector)
  : bool * NTFSBootSector :=
  if str_contains "NTFS" device_path || str_contains "C:" device_path
  then (true, {| bytes_per_sector := 512; sectors_per_cluster := 8 |})
  else (false, boot_sector).

Definition sample_file : FileEntry :=
  {| filename := "example_file.txt";
     file_size := 1024;
     creation_time := 0;
     modification_time := 0;
     is_directory := false;
     is_deleted := false |}.

(** [ParseMFT] *)
Definition ParseMFT (p : t) (boot_sector : NTFSBootSector)
           (entries : list FileEntry) : bool * t * list FileEntry :=
  (true,
   {| total_recoverable_files_ := 1;
      total_deleted_files_ := 0;
      last_parsed_device_ := last_parsed_device_ p;
      is_initialized_ := is_initialized_ p |},
   entries ++ [sample_file]).

(** [IsFileDeleted] *)
Definition IsFileDeleted (record_data : list byte) : bool :=
  if (length record_data <? 0x24)%nat then false
  else
    let flags := read_u16 record_data 0x22 in
    Z.land flags 0x0001 =? 0.

(** [NTFSParser::Parse] *)
Definition Parse (uninit : NTFSBootSector) (p : t) (device_path : string)
           (entries : list FileEntry) : bool * t * list FileEntry :=
  if str_empty device_path then (false, p, entries)
  else
    let p1 := {| total_recoverable_files_ := total_recoverable_files_ p;
                 total_deleted_files_ := total_deleted_files_ p;
                 last_parsed_device_ := device_path;
                 is_initialized_ := is_initialized_ p |} in
    let '(ok, boot_sector) := ReadBootSector device_path uninit in
    if negb ok then (false, p1, entries)
    else
      let '(ok_mft, p2, entries') := ParseMFT p1 boot_sector entries in
      if negb ok_mft then (false, p2, entries')
      else
        (true,
         {| total_recoverable_files_ := total_recoverable_files_ p2;
            total_deleted_files_ := total_deleted_files_ p2;
            last_parsed_device_ := last_parsed_device_ p2;
            is_initialized_ := true |},
         entries').

(** [NTFSParser::CanHandle] *)
Definition CanHandle (uninit : NTFSBootSector) (device_path : string) : bool :=
  if str_empty device_path then false
  else fst (ReadBootSector device_path uninit).

(** [NTFSParser::ParseFileRecord]: the flag and the caller's entry afterwards; the members
    that are not assigned keep their values. *)
Definition ParseFileRecord (record_data : list byte) (entry : FileEntry) : bool * FileEntry :=
  if (length record_data <? 0x30)%nat then (false, entry)
  else
    (true,
     {| filename := "file_stub";
        file_size := 0;
        creation_time := creation_time entry;
        modification_time := modification_time entry;
        is_directory := false;
        is_deleted := false |}).

End NTFSParser.

Module APFSParser.

Definition APFS_BLOCK_SIZE : Z := 4096.
Definition APFS_CONTAINER_SB_MAGIC : Z := 0x4253584E.
Definition APFS_VOLUME_SB_MAGIC : Z := 0x42535041.

(** The members of the two superblocks that the parser assigns. *)
Record APFSContainerSuperblock : Type := {
  magic : Z;
  block_size : Z;
  volume_count : Z
}.

Record APFSVolumeSuperblock : Type := {
  vol_magic : Z;
  vol_block_size : Z;
  inode_count : Z;
  deleted_count : Z;
  volume_name : string
}.

Record t : Type := {
  total_recoverable_files_ : Z;
  total_deleted_files_ : Z;
  available_snapshots_ : list string;
  last_parsed_device_ : string;
  is_initialized_ : bool
}.

Definition new : t :=
  {| total_recoverable_files_ := 0;
     total_deleted_files_ := 0;
     available_snapshots_ := [];
     last_parsed_device_ := EmptyString;
     is_initialized_ := false |}.

Definition GetRecoveryStats (p : t) : Z * Z :=
  (total_recoverable_files_ p, total_deleted_files_ p).

Definition ReadContainerSuperblock (device_path : string)
           (superblock : APFSContainerSuperblock)
  : bool * APFSContainerSuperblock :=
  if str_contains "APFS" device_path || str_contains "Data" device_path
  then (true, {| magic := APFS_CONTAINER_SB_MAGIC;
                 block_size := APFS_BLOCK_SIZE;
                 volume_count := 1 |})
  else (false, superblock).

Definition ParseVolumeSuperblock (container_sb : APFSContainerSuperblock)
  : bool * APFSVolumeSuperblock :=
  (true, {| vol_magic := APFS_VOLUME_SB_MAGIC;
            vol_block_size := APFS_BLOCK_SIZE;
            inode_count := 100;
            deleted_count := 10;
            volume_name := "Data" |}).

Definition sample_file : FileEntry :=
  {| filename := "example_document.txt";
     file_size := 2048;
     creation_time := 0;
     modification_time := 0;
     is_directory := false;
     is_deleted := false |}.

(** [ParseVolumeBTree] *)
Definition ParseVolumeBTree (p : t) (volume_sb : APFSVolumeSuperblock)
           (entries : list FileEntry) : bool * t * list FileEntry :=
  (true,
   {| total_recoverable_files_ := 1;
      total_deleted_files_ := 0;
      available_snapshots_ := available_snapshots_ p;
      last_parsed_device_ := last_parsed_device_ p;
      is_initialized_ := is_initialized_ p |},
   entries ++ [sample_file]).

Definition ParseSnapshots : list string :=
  ["com.apple.TimeMachine.2025-11-01-120000"%string;
   "com.apple.TimeMachine.2025-10-31-120000"%string].

(** [IsInodeDeleted] *)
Definition IsInodeDeleted (inode_data : list byte) : bool :=
  if (length inode_data <? 0x08)%nat then false
  else
    let flags := read_u16 inode_data 0x06 in
    Z.land flags 0x0001 =? 0x0001.

(** [APFSParser::Parse] *)
Definition Parse (uninit : APFSContainerSuperblock) (p : t)
           (device_path : string) (entries : list FileEntry)
  : bool * t * list FileEntry :=
  if str_empty device_path then (false, p, entries)
  else
    let p1 := {| total_recoverable_files_ := total_recoverable_files_ p;
                 total_deleted_files_ := total_deleted_files_ p;
                 available_snapshots_ := available_snapshots_ p;
                 last_parsed_device_ := device_path;
                 is_initialized_ := is_initialized_ p |} in
    let '(ok, container_sb) := ReadContainerSuperblock device_path uninit in
    if negb ok then (false, p1, entries)
    else
      let '(ok_vol, volume_sb) := ParseVolumeSuperblock container_sb in
      if negb ok_vol then (false, p1, entries)
      else
        let '(ok_bt, p2, entries') := ParseVolumeBTree p1 volume_sb entries in
        if negb ok_bt then (false, p2, entries')
        else
          (true,
           {| total_recoverable_files_ := total_recoverable_files_ p2;
              total_deleted_files_ := total_deleted_files_ p2;
              available_snapshots_ := ParseSnapshots;
              last_parsed_device_ := last_parsed_device_ p2;
              is_initialized_ := true |},
           entries').

(** [APFSParser::CanHandle] *)
Definition CanHandle (uninit : APFSContainerSuperblock) (device_path : string)
  : bool :=
  if str_empty device_path then false
  else fst (ReadContainerSuperblock device_path uninit).

(** [APFSParser::GetAvailableSnapshots] *)
Definition GetAvailableSnapshots (p : t) : list string := available_snapshots_ p.

(** [APFSParser::ParseInode]: the flag and the caller's entry afterwards; the members
    that are not assigned keep their values. *)
Definition ParseInode (inode_data : list byte) (entry : FileEntry) : bool * FileEntry :=
  if (length inode_data <? 0x30)%nat then (false, entry)
  else
    (true,
     {| filename := "inode_stub";
        file_size := 0;
        creation_time := creation_time entry;
        modification_time := modification_time entry;
        is_directory := false;
        is_deleted := false |}).

End APFSParser.

(** ** class DeviceIOAdapter *)

Module DeviceIOAdapter.

Record t : Type := {
  device_io_ : DeviceIO;
  ntfs_parser_ : option NTFSParser.t;
  apfs_parser_ : option APFSParser.t;
  ext4_parser_ : option EXT4Parser.t;
  last_total_files_ : Z;
  last_deleted_files_ : Z
}.

(** [DeviceIOAdapter::DeviceIOAdapter()] *)
Definition new : t :=
  {| device_io_ := DeviceIO_new;
     ntfs_parser_ := None;
     apfs_parser_ := None;
     ext4_parser_ := None;
     last_total_files_ := 0;
     last_deleted_files_ := 0 |}.

Definition GetRecoveryStats (a : t) : Z * Z :=
  (last_total_files_ a, last_deleted_files_ a).

Definition set_device_io (a : t) (d : DeviceIO) : t :=
  {| device_io_ := d;
     ntfs_parser_ := ntfs_parser_ a;
     apfs_parser_ := apfs_parser_ a;
     ext4_parser_ := ext4_parser_ a;
     last_total_files_ := last_total_files_ a;
     last_deleted_files_ := last_deleted_files_ a |}.

(** The indeterminate contents of the parsers' local root-block objects. *)
Record Uninit : Type := {
  uninit_ext4 : EXT4Parser.EXT4Superblock;
  uninit_ntfs : NTFSParser.NTFSBootSector;
  uninit_apfs : APFSParser.APFSContainerSuperblock
}.

(** The loop [for (const auto &entry : entries) if (entry.is_deleted)
    last_deleted_files_++;] started from 0. *)
Definition count_deleted (entries : list FileEntry) : Z :=
  fold_left (fun n entry => if is_deleted entry then n + 1 else n) entries 0.

Section WithOS.

Variable os : OS.

(** [OpenDevice]: [DeviceIOException] is caught and reported as [false]. *)
Definition OpenDevice (a : t) (device_path : string) : Result bool * t :=
  let '(r, d) := Open os (device_io_ a) device_path in
  (try_catch r (fun e =>
     match e with
     | StdLengthError | StdBadAlloc => Throw e
     | _ => Ok false
     end),
   set_device_io a d).

Definition CloseDevice (a : t) : bool * t :=
  let '(r, d) := Close os (device_io_ a) in (r, set_device_io a d).

(** [DeviceIOAdapter::DetectFilesystem]; the call in its body is
    [device_io_->DetectFilesystem()]. *)
Definition DetectFilesystem (a : t) : Result FilesystemType :=
  if negb (is_open_ (device_io_ a)) then Ok UNKNOWN
  else DetectFilesystem os (device_io_ a).

(** [InitializeParser] *)
Definition InitializeParser (a : t) (fs_type : FilesystemType) : bool * t :=
  match fs_type with
  | NTFS =>
      (true,
       {| device_io_ := device_io_ a;
          ntfs_parser_ := match ntfs_parser_ a with
                          | None => Some NTFSParser.new
                          | Some p => Some p
                          end;
          apfs_parser_ := apfs_parser_ a;
          ext4_parser_ := ext4_parser_ a;
          last_total_files_ := last_total_files_ a;
          last_deleted_files_ := last_deleted_files_ a |})
  | APFS =>
      (true,
       {| device_io_ := device_io_ a;
          ntfs_parser_ := ntfs_parser_ a;
          apfs_parser_ := match apfs_parser_ a with
                          | None => Some APFSParser.new
                          | Some p => Some p
                          end;
          ext4_parser_ := ext4_parser_ a;
          last_total_files_ := last_total_files_ a;
          last_deleted_files_ := last_deleted_files_ a |})
  | EXT4 =>
      (true,
       {| device_io_ := device_io_ a;
          ntfs_parser_ := ntfs_parser_ a;
          apfs_parser_ := apfs_parser_ a;
          ext4_parser_ := match ext4_parser_ a with
                          | None => Some EXT4Parser.new
                          | Some p => Some p
                          end;
          last_total_files_ := last_total_files_ a;
          last_deleted_files_ := last_deleted_files_ a |})
  | _ => (false, a)
  end.

(** [ParseNTFS], [ParseAPFS], [ParseEXT4]: the parser is driven with the
    path of the open device. *)
Definition ParseNTFS (u : Uninit) (a : t) (entries : list FileEntry)
  : bool * t * list FileEntry :=
  match ntfs_parser_ a with
  | None => (false, a, entries)
  | Some p =>
      let '(r, p', entries') :=
        NTFSParser.Parse (uninit_ntfs u) p
          (current_device_path_ (device_io_ a)) entries in
      (r,
       {| device_io_ := device_io_ a;
          ntfs_parser_ := Some p';
          apfs_parser_ := apfs_parser_ a;
          ext4_parser_ := ext4_parser_ a;
          last_total_files_ := last_total_files_ a;
          last_deleted_files_ := last_deleted_files_ a |},
       entries')
  end.

Definition ParseAPFS (u : Uninit) (a : t) (entries : list FileEntry)
  : bool * t * list FileEntry :=
  match apfs_parser_ a with
  | None => (false, a, entries)
  | Some p =>
      let '(r, p', entries') :=
        APFSParser.Parse (uninit_apfs u) p
          (current_device_path_ (device_io_ a)) entries in
      (r,
       {| device_io_ := device_io_ a;
          ntfs_parser_ := ntfs_parser_ a;
          apfs_parser_ := Some p';
          ext4_parser_ := ext4_parser_ a;
          last_total_files_ := last_total_files_ a;
          last_deleted_files_ := last_deleted_files_ a |},
       entries')
  end.

Definition ParseEXT4 (u : Uninit) (a : t) (entries : list FileEntry)
  : Run (bool * t * list FileEntry) :=
  match ext4_parser_ a with
  | None => Returns (false, a, entries)
  | Some p =>
      match EXT4Parser.Parse (uninit_ext4 u) p
              (current_device_path_ (device_io_ a)) entries with
      | DivisionByZero => DivisionByZero
      | Returns (r, p', entries') =>
          Returns
            (r,
             {| device_io_ := device_io_ a;
                ntfs_parser_ := ntfs_parser_ a;
                apfs_parser_ := apfs_parser_ a;
                ext4_parser_ := Some p';
                last_total_files_ := last_total_files_ a;
                last_deleted_files_ := last_deleted_files_ a |},
             entries')
      end
  end.

(** The "Collect statistics" block of [ParseDevice]. *)
Definition collect_statistics (result : bool) (a : t)
           (entries : list FileEntry) : t :=
  if result then
    {| device_io_ := device_io_ a;
       ntfs_parser_ := ntfs_parser_ a;
       apfs_parser_ := apfs_parser_ a;
       ext4_parser_ := ext4_parser_ a;
       last_total_files_ := to_int32 (Z.of_nat (length entries));
       last_deleted_files_ := count_deleted entries |}
  else a.

(** [DeviceIOAdapter::ParseDevice] *)
Definition ParseDevice (u : Uninit) (a : t) (entries : list FileEntry)
  : Result (Run (bool * t * list FileEntry)) :=
  if negb (is_open_ (device_io_ a)) then Ok (Returns (false, a, entries))
  else
    fs_type <- DetectFilesystem a ;;
    match fs_type with
    | UNKNOWN => Ok (Returns (false, a, entries))
    | _ =>
        let '(ok, a1) := InitializeParser a fs_type in
        if negb ok then Ok (Returns (false, a1, entries))
        else
          match fs_type with
          | NTFS =>
              let '(result, a2, entries') := ParseNTFS u a1 entries in
              Ok (Returns (result, collect_statistics result a2 entries', entries'))
          | APFS =>
              let '(result, a2, entries') := ParseAPFS u a1 entries in
              Ok (Returns (result, collect_statistics result a2 entries', entries'))
          | EXT4 =>
              match ParseEXT4 u a1 entries with
              | DivisionByZero => Ok DivisionByZero
              | Returns (result, a2, entries') =>
                  Ok (Returns (result, collect_statistics result a2 entries',
                               entries'))
              end
          | _ => Ok (Returns (false, a1, entries))
          end
    end.

End WithOS.

(** [GetDeviceIO], [GetDeviceInfo], [IsDeviceOpen]. The member [device_io_]
    is set by the constructor and never reset, so the branches for a null
    [device_io_] are not taken. *)
Definition GetDeviceIO (a : t) : DeviceIO := device_io_ a.

Definition GetDeviceInfo (a : t) : DeviceInfo := GetDeviceInfo (device_io_ a).

Definition IsDeviceOpen (a : t) : bool := IsOpen (device_io_ a).

End DeviceIOAdapter.

(** ** class RecoveryEngine *)

Module RecoveryEngine.

Record t : Type := {
  current_device_ : string;
  is_scanning_ : bool;
  progress_ : Z;
  recovered_files_ : Z
}.

(** [RecoveryEngine::RecoveryEngine()] *)
Definition new : t :=
  {| current_device_ := EmptyString;
     is_scanning_ := false;
     progress_ := 0;
     recovered_files_ := 0 |}.

(** [StartScan]: the returned flag and the engine afterwards. *)
Definition StartScan (e : t) (device_path : string) : bool * t :=
  if is_scanning_ e then (false, e)
  else
    (true,
     {| current_device_ := device_path;
        is_scanning_ := true;
        progress_ := 0;
        recovered_files_ := 0 |}).

(** [StopScan] *)
Definition StopScan (e : t) : bool * t :=
  if negb (is_scanning_ e) then (false, e)
  else
    (true,
     {| current_device_ := current_device_ e;
        is_scanning_ := false;
        progress_ := progress_ e;
        recovered_files_ := recovered_files_ e |}).

Definition GetProgress (e : t) : Z := progress_ e.

Definition GetRecoveredFileCount (e : t) : Z := recovered_files_ e.

End RecoveryEngine.

(** ** class DeviceWizard: the filesystem announced for a path *)

Module DeviceWizard.

(** [DeviceWizard::DetectFileSystem]; [QString::contains] compares case
    sensitively. *)
Definition DetectFileSystem (device_path : string) : string :=
  if str_contains "sda" device_path || str_contains "sdb" device_path
  then "ext4"
  else if str_contains "nvme" device_path then "ext4"
  else if str_contains "Disk0" device_path then "APFS"
  else "Unknown".

(** [DeviceWizard::GetDeviceCapacity], the next function of the file, is
    not embedded: its documentation comment ends inside the words
    [/sys/block/*/size], so the text that follows is not a function body
    that a compiler accepts. *)

End DeviceWizard.

(** ** Example devices *)

(** A descriptor on which neither the size ioctl nor any seek works (a
    FIFO): [lseek] returns -1. *)
Definition fifo_device : Device :=
  {| dev_byte := fun _ => zero_byte;
     dev_blkgetsize64 := None;
     dev_seek_end := -1;
     dev_seek_set := fun _ => -1;
     dev_read_count := fun _ _ => 0 |}.

(** An operating system with two openable paths. *)
Definition two_file_os (path_a : string) (dev_a : Device)
           (path_b : string) (dev_b : Device) : OS :=
  {| os_open := fun p => if String.eqb p path_a then 3
                         else if String.eqb p path_b then 4 else -1;
     os_close := fun _ => 0;
     os_file := fun fd => if fd =? 3 then dev_a else dev_b;
     os_alloc := fun n => n <=? heap_limit |}.

(** *** Media *)

(** A medium given by the bytes that differ from zero. *)
Fixpoint sparse_image (cells : list (Z * byte)) (pos : Z) : byte :=
  match cells with
  | [] => zero_byte
  | (p, b) :: rest => if pos =? p then b else sparse_image rest pos
  end.

Definition MiB : Z := 1048576.

(** All zero except the value [0xEF53] stored little-endian at 1080. *)
Definition ext_magic_image : Z -> byte :=
  sparse_image [(1080, Byte.x53); (1081, Byte.xef)].

(** ["NXSB"] at offset 0. *)
Definition nxsb_cells : list (Z * byte) :=
  [(0, Byte.x4e); (1, Byte.x58); (2, Byte.x53); (3, Byte.x42)].

(** ["NXSB"] at offset 0 together with the EXT magic at 1080. *)
Definition apfs_ext_image : Z -> byte :=
  sparse_image (nxsb_cells ++ [(1080, Byte.x53); (1081, Byte.xef)]).

(** ["NTFS    "] at offset 3. *)
Definition ntfs_sig_cells : list (Z * byte) :=
  [(3, Byte.x4e); (4, Byte.x54); (5, Byte.x46); (6, Byte.x53);
   (7, Byte.x20); (8, Byte.x20); (9, Byte.x20); (10, Byte.x20)].

(** An NTFS boot signature and, at offset 4096, one record that starts
    with the record magic ["FILE"] and has its in-use flag (record offset
    0x22, bit 0) set. *)
Definition ntfs_image_good : Z -> byte :=
  sparse_image (ntfs_sig_cells
                ++ [(4096, Byte.x46); (4097, Byte.x49); (4098, Byte.x4c);
                    (4099, Byte.x45); (4130, Byte.x01)]).


(** The image of [ntfs_image_good] with the flags of the record cleared:
    the record is not in use, that is, deleted. *)
Definition ntfs_image_deleted : Z -> byte :=
  sparse_image (ntfs_sig_cells
                ++ [(4096, Byte.x46); (4097, Byte.x49); (4098, Byte.x4c);
                    (4099, Byte.x45)]).

(** *** Metadata records *)

(** An EXT inode whose [i_dtime] (bytes 0x14..0x17) is [0x00002a00]. *)
Definition ext_deleted_inode : list byte :=
  repeat zero_byte 0x14 ++ [Byte.x00; Byte.x2a; Byte.x00; Byte.x00]
  ++ repeat zero_byte 0x68.

(** An NTFS file record whose flags (bytes 0x22..0x23) are [0x0002]: a
    directory that is not in use. *)
Definition ntfs_unused_record : list byte :=
  repeat zero_byte 0x22 ++ [Byte.x02; Byte.x00] ++ repeat zero_byte 0x0c.

(** An APFS inode record whose flags (bytes 0x06..0x07) are [0x0001]. *)
Definition apfs_flagged_inode : list byte :=
  repeat zero_byte 0x06 ++ [Byte.x01; Byte.x00] ++ repeat zero_byte 0x28.

(** *** Platforms and opened handles *)

Definition open_device (os : OS) (path : string) : DeviceIO :=
  snd (Open os DeviceIO_new path).

(** An adapter with [path] open. *)
Definition opened_adapter (os : OS) (path : string) : DeviceIOAdapter.t :=
  snd (DeviceIOAdapter.OpenDevice os DeviceIOAdapter.new path).

(** A 100-byte image that starts with ["NXSB"]. *)
Definition small_apfs_os : OS :=
  single_file_os "/dev/small" (regular_file 100 (sparse_image nxsb_cells)).
Definition small_apfs_dev : DeviceIO := open_device small_apfs_os "/dev/small".

(** A 1 MiB image that starts with ["NXSB"]. *)
Definition apfs_os : OS :=
  single_file_os "/dev/disk2" (regular_file MiB (sparse_image nxsb_cells)).
Definition apfs_dev : DeviceIO := open_device apfs_os "/dev/disk2".

(** A 1 MiB image with ["NXSB"] at 0 and the EXT magic at 1080. *)
Definition apfs_ext_os : OS :=
  single_file_os "/dev/disk3" (regular_file MiB apfs_ext_image).
Definition apfs_ext_dev : DeviceIO := open_device apfs_ext_os "/dev/disk3".

(** The 1 MiB image with only the EXT magic, as a regular file under an
    arbitrary path. *)
Definition ext_image_os (path : string) : OS :=
  single_file_os path (regular_file MiB ext_magic_image).

(** The same image under the name used by the I/O tests, under a
    block-device name and under an image name. *)
Definition ext_os : OS := ext_image_os "/tmp/test_device.bin".
Definition ext_dev : DeviceIO := open_device ext_os "/tmp/test_device.bin".
Definition sda_os : OS := ext_image_os "/dev/sda1".
Definition ext4_img_os : OS := ext_image_os "/tmp/ext4.img".

(** The same image behind a descriptor that delivers 100 bytes per call. *)
Definition chunked_os : OS :=
  single_file_os "/tmp/test_device.bin" (chunked_file 100 MiB ext_magic_image).
Definition chunked_dev : DeviceIO := open_device chunked_os "/tmp/test_device.bin".

(** A zero-filled regular file of 4 GiB. *)
Definition big_os : OS :=
  single_file_os "/tmp/big.img" (regular_file (4096 * MiB) (fun _ => zero_byte)).
Definition big_dev : DeviceIO := open_device big_os "/tmp/big.img".

(** A FIFO. *)
Definition fifo_os : OS := single_file_os "/tmp/fifo" fifo_device.
Definition fifo_dev : DeviceIO := open_device fifo_os "/tmp/fifo".

(** Two block devices: an EXT image and an image with the NTFS signature. *)
Definition two_os : OS :=
  two_file_os "/dev/sda1" (regular_file MiB ext_magic_image)
              "/dev/sdb1" (regular_file MiB (sparse_image ntfs_sig_cells)).
Definition first_session : DeviceIO := open_device two_os "/dev/sda1".

(** The NTFS images at a path that the NTFS parser accepts. *)
Definition ntfs_good_os : OS :=
  single_file_os "/mnt/NTFS.img" (regular_file MiB ntfs_image_good).
Definition ntfs_deleted_os : OS :=
  single_file_os "/mnt/NTFS.img" (regular_file MiB ntfs_image_deleted).

(** The local objects of the parsers as a zero-filled stack would leave
    them, except that [blocks_per_group] holds [bpg]. *)
Definition uninit_with_bpg (bpg : Z) : DeviceIOAdapter.Uninit :=
  {| DeviceIOAdapter.uninit_ext4 :=
       {| EXT4Parser.inodes_count := 0; EXT4Parser.blocks_count := 0;
          EXT4Parser.log_block_size := 0; EXT4Parser.blocks_per_group := bpg;
          EXT4Parser.inodes_per_group := 0; EXT4Parser.magic := 0 |};
     DeviceIOAdapter.uninit_ntfs :=
       {| NTFSParser.bytes_per_sector := 0; NTFSParser.sectors_per_cluster := 0 |};
     DeviceIOAdapter.uninit_apfs :=
       {| APFSParser.magic := 0; APFSParser.block_size := 0;
          APFSParser.volume_count := 0 |} |}.

(** Open [path] through a fresh adapter and parse into an empty vector. *)
Definition open_and_parse (os : OS) (u : DeviceIOAdapter.Uninit) (path : string)
  : Result (Run (bool * DeviceIOAdapter.t * list FileEntry)) :=
  let '(_, a) := DeviceIOAdapter.OpenDevice os DeviceIOAdapter.new path in
  DeviceIOAdapter.ParseDevice os u a [].

(** *** Images for the FAT32 and HFS+ probes *)

(** A boot sector with the jump opcode [0xEB] at 0 and the bytes [0x55],
    [0xAA] at 510 and 511. *)
Definition fat_boot_cells : list (Z * byte) :=
  [(0, Byte.xeb); (510, Byte.x55); (511, Byte.xaa)].

Definition fat_os : OS :=
  single_file_os "/dev/sdc1" (regular_file MiB (sparse_image fat_boot_cells)).
Definition fat_dev : DeviceIO := open_device fat_os "/dev/sdc1".

(** The NTFS signature in a boot sector that also carries the jump opcode
    and the [0x55], [0xAA] trailer. *)
Definition ntfs_boot_os : OS :=
  single_file_os "/dev/sdd1"
    (regular_file MiB (sparse_image (ntfs_sig_cells ++ fat_boot_cells))).
Definition ntfs_boot_dev : DeviceIO := open_device ntfs_boot_os "/dev/sdd1".

(** The bytes [0x2B], [0x48] at 1024 and 1025. *)
Definition hfs_os : OS :=
  single_file_os "/dev/disk4"
    (regular_file MiB (sparse_image [(1024, Byte.x2b); (1025, Byte.x48)])).
Definition hfs_dev : DeviceIO := open_device hfs_os "/dev/disk4".

(** The bytes [0x48], [0x2B] (the characters ["H+"]) at 1024 and 1025. *)
Definition hplus_os : OS :=
  single_file_os "/dev/disk5"
    (regular_file MiB (sparse_image [(1024, Byte.x48); (1025, Byte.x2b)])).
Definition hplus_dev : DeviceIO := open_device hplus_os "/dev/disk5".

(** An operating system on which no path can be opened. *)
Definition no_file_os : OS :=
  {| os_open := fun _ => -1;
     os_close := fun _ => 0;
     os_file := fun _ => fifo_device;
     os_alloc := fun n => n <=? heap_limit |}.

(** ** Reference definitions used in the statements *)

(** The first matching probe, in the order of [DetectFilesystem]. *)
Definition first_match (ntfs ext4 apfs fat hfs : bool) : FilesystemType :=
  if ntfs then NTFS
  else if ext4 then EXT4
  else if apfs then APFS
  else if fat then FAT32
  else if hfs then HFS_PLUS
  else UNKNOWN.

(** The value of the byte at index [i] of a record. *)
Definition byte_at (data : list byte) (i : nat) : Z :=
  byte.unsigned (nth i data zero_byte).

(** The little-endian fields of the on-disk formats, byte by byte. *)
Definition field_u16 (data : list byte) (off : nat) : Z :=
  byte_at data off + 2 ^ 8 * byte_at data (off + 1).

Definition field_u32 (data : list byte) (off : nat) : Z :=
  byte_at data off + 2 ^ 8 * byte_at data (off + 1)
  + 2 ^ 16 * byte_at data (off + 2) + 2 ^ 24 * byte_at data (off + 3).


(** The paths for which each parser's root-block check answers yes. *)
Definition root_accepted (fs : FilesystemType) (path : string) : bool :=
  match fs with
  | NTFS => str_contains "NTFS" path || str_contains "C:" path
  | APFS => str_contains "APFS" path || str_contains "Data" path
  | EXT4 => str_contains "ext4" path || str_contains "sda" path
            || str_contains "nvme" path
  | _ => false
  end.

(** The number of block groups the EXT4 parser walks when the
    [blocks_per_group] member holds [bpg]. *)
Definition mock_group_count (bpg : Z) : nat :=
  Z.to_nat (Z.min (to_int32 (wrap32 (262144 + bpg - 1) / bpg)) 10).

(** The sample entry each parser emits. *)
Definition sample_of (fs : FilesystemType) : FileEntry :=
  match fs with
  | NTFS => NTFSParser.sample_file
  | APFS => APFSParser.sample_file
  | _ => EXT4Parser.sample_file
  end.

(** The byte strings that the probes compare with, in the order in which
    they lie on the medium. *)
Definition nxsb_bytes : list byte := [Byte.x4e; Byte.x58; Byte.x53; Byte.x42].
Definition apsb_bytes : list byte := [Byte.x41; Byte.x50; Byte.x53; Byte.x42].
Definition ext_magic_bytes : list byte := [Byte.x53; Byte.xef].
Definition boot_trailer_bytes : list byte := [Byte.x55; Byte.xaa].
Definition hfs_plus_bytes : list byte := [Byte.x2b; Byte.x48].
Definition hfsx_bytes : list byte := [Byte.x58; Byte.x48].

(** The vector read of [size] bytes at [offset] succeeds and returns at
    least [n] bytes. *)
Definition reads_at_least (os : OS) (st : DeviceIO) (offset size : Z) (n : nat)
  : bool :=
  match ReadBlockVector os st offset size with
  | Ok v => (n <=? length v)%nat
  | Throw _ => false
  end.

(** A [DeviceInfo] with the open flag cleared. *)
Definition closed_info (info : DeviceInfo) : DeviceInfo :=
  {| device_path := device_path info;
     total_bytes := total_bytes info;
     sector_size := sector_size info;
     filesystem_type := filesystem_type info;
     is_open := false;
     filesystem_name := filesystem_name info |}.

(** The size that [Open] records for the object behind a descriptor. *)
Definition recorded_size (d : Device) : Z :=
  match dev_blkgetsize64 d with
  | Some size => wrap64 size
  | None => wrap64 (dev_seek_end d)
  end.

(** *** Clients of a device handle *)

Inductive DeviceCall : Type :=
| CallOpen (device_path : string)
| CallClose.

(** The handle after one call; an exception thrown by [Open] is caught by
    the client, which keeps using the handle. *)
Definition device_call (os : OS) (st : DeviceIO) (c : DeviceCall) : DeviceIO :=
  match c with
  | CallOpen path => snd (Open os st path)
  | CallClose => snd (Close os st)
  end.

Fixpoint run_device_calls (os : OS) (st : DeviceIO) (calls : list DeviceCall)
  : DeviceIO :=
  match calls with
  | [] => st
  | c :: rest => run_device_calls os (device_call os st c) rest
  end.

(** The table-changing platform calls of one call of the client, and of
    a sequence of them. *)
Definition device_call_syscalls (os : OS) (st : DeviceIO) (c : DeviceCall)
  : list Syscall :=
  match c with
  | CallOpen path => Open_calls os st path
  | CallClose => Close_calls st
  end.

Fixpoint run_device_syscalls (os : OS) (st : DeviceIO) (calls : list DeviceCall)
  : list Syscall :=
  match calls with
  | [] => []
  | c :: rest =>
      device_call_syscalls os st c
      ++ run_device_syscalls os (device_call os st c) rest
  end.

(** The descriptor table after a trace of platform calls, and after each
    call of the trace. *)
Definition held_after (held : list Z) (trace : list Syscall) : list Z :=
  fold_left table_step trace held.

Fixpoint held_history (held : list Z) (trace : list Syscall) : list (list Z) :=
  match trace with
  | [] => []
  | c :: rest => table_step held c :: held_history (table_step held c) rest
  end.

(** *** Clients of the recovery engine *)

Inductive EngineCall : Type :=
| CallStartScan (device_path : string)
| CallStopScan.

Definition engine_call (e : RecoveryEngine.t) (c : EngineCall)
  : bool * RecoveryEngine.t :=
  match c with
  | CallStartScan path => RecoveryEngine.StartScan e path
  | CallStopScan => RecoveryEngine.StopScan e
  end.

(** The engine after a client has issued [calls] in order. *)
Fixpoint run_calls (e : RecoveryEngine.t) (calls : list EngineCall)
  : RecoveryEngine.t :=
  match calls with
  | [] => e
  | c :: rest => run_calls (snd (engine_call e c)) rest
  end.

(** The calls of the sequence that returned [true]. *)
Fixpoint accepted_calls (e : RecoveryEngine.t) (calls : list EngineCall)
  : list EngineCall :=
  match calls with
  | [] => []
  | c :: rest =>
      let '(r, e1) := engine_call e c in
      if r then c :: accepted_calls e1 rest else accepted_calls e1 rest
  end.

(** Starts and stops alternate; [start_next] says which one comes first. *)
Fixpoint alternates (start_next : bool) (calls : list EngineCall) : bool :=
  match calls with
  | [] => true
  | CallStartScan _ :: rest => start_next && alternates false rest
  | CallStopScan :: rest => negb start_next && alternates true rest
  end.

(** The path of the last start in [calls], [current] when there is none. *)
Fixpoint last_started (current : string) (calls : list EngineCall) : string :=
  match calls with
  | [] => current
  | CallStartScan path :: rest => last_started path rest
  | CallStopScan :: rest => last_started current rest
  end.

(** Whether the last call of [calls] is a start, [current] when there is
    none. *)
Fixpoint ends_with_start (current : bool) (calls : list EngineCall) : bool :=
  match calls with
  | [] => current
  | CallStartScan _ :: rest => ends_with_start true rest
  | CallStopScan :: rest => ends_with_start false rest
  end.


(** * Properties *)

(** ** Format detection never throws *)

Section DetectionTotal.

Variable os : OS.
Variable st : DeviceIO.

(** A probe is a [try]/[catch (...)] whose handler returns "no match": a
    read that throws makes the probe answer [false]. *)
Lemma try_catch_failed_read (A : Type) (read : Result A)
      (body : A -> Result bool) :
  throws read = true ->
  try_catch (x <- read ;; body x) (fun _ => Ok false) = Ok false.
Proof. destruct read; simpl; [discriminate | reflexivity]. Qed.

Ltac probe_total :=
  match goal with
  | |- exists b, ?probe os st = Ok b =>
      unfold probe, try_catch, bind;
      repeat match goal with
             | |- context [match ?r with Ok _ => _ | Throw _ => _ end] =>
                 destruct r
             | |- context [if ?c then _ else _] => destruct c
             end;
      eexists; reflexivity
  end.

Lemma DetectNTFS_total : exists b, DetectNTFS os st = Ok b.
Proof. probe_total. Qed.

Lemma DetectEXT4_total : exists b, DetectEXT4 os st = Ok b.
Proof. probe_total. Qed.

Lemma DetectAPFS_total : exists b, DetectAPFS os st = Ok b.
Proof. probe_total. Qed.

Lemma DetectFAT32_total : exists b, DetectFAT32 os st = Ok b.
Proof. probe_total. Qed.

Lemma DetectHFSPlus_total : exists b, DetectHFSPlus os st = Ok b.
Proof. probe_total. Qed.

Lemma DetectFilesystem_first_match :
  exists ntfs ext4 apfs fat hfs,
    DetectNTFS os st = Ok ntfs
    /\ DetectEXT4 os st = Ok ext4
    /\ DetectAPFS os st = Ok apfs
    /\ DetectFAT32 os st = Ok fat
    /\ DetectHFSPlus os st = Ok hfs
    /\ DetectFilesystem os st = Ok (first_match ntfs ext4 apfs fat hfs).
Proof.
  destruct DetectNTFS_total as [n Hn], DetectEXT4_total as [e He],
    DetectAPFS_total as [a Ha], DetectFAT32_total as [f Hf],
    DetectHFSPlus_total as [h Hh].
  exists n, e, a, f, h. repeat split; try assumption.
  unfold DetectFilesystem. rewrite Hn, He, Ha, Hf, Hh. simpl.
  destruct n, e, a, f, h; reflexivity.
Qed.

Lemma DetectFilesystem_total : exists fs, DetectFilesystem os st = Ok fs.
Proof.
  destruct DetectFilesystem_first_match
    as (n & e & a & f & h & _ & _ & _ & _ & _ & H).
  eexists; exact H.
Qed.

End DetectionTotal.

(** ** What a vector read contains *)

Lemma length_dev_bytes d pos n : length (dev_bytes d pos n) = n.
Proof. unfold dev_bytes. now rewrite length_map, length_seq. Qed.

Lemma nth_dev_bytes d pos n i :
  (i < n)%nat ->
  nth i (dev_bytes d pos n) zero_byte = dev_byte d (pos + Z.of_nat i).
Proof.
  intros Hi. unfold dev_bytes.
  rewrite (nth_indep _ zero_byte (dev_byte d (pos + Z.of_nat 0)))
    by now rewrite length_map, length_seq.
  rewrite (map_nth (fun k => dev_byte d (pos + Z.of_nat k))).
  now rewrite seq_nth.
Qed.

Lemma length_resize n v : length (resize n v) = n.
Proof.
  unfold resize. rewrite length_app, length_firstn, repeat_length. lia.
Qed.

Lemma nth_resize n v i :
  (i < n)%nat -> (i < length v)%nat ->
  nth i (resize n v) zero_byte = nth i v zero_byte.
Proof.
  intros Hn Hv. unfold resize.
  rewrite app_nth1 by (rewrite length_firstn; lia).
  rewrite nth_firstn. destruct (Nat.ltb_spec i n); [reflexivity | lia].
Qed.

Lemma nth_slice v off n j :
  (j < n)%nat -> nth j (slice v off n) zero_byte = nth (off + j) v zero_byte.
Proof.
  intros Hj. unfold slice. rewrite nth_firstn.
  destruct (Nat.ltb_spec j n); [| lia]. now rewrite nth_skipn.
Qed.

Lemma length_slice v off n :
  (off + n <= length v)%nat -> length (slice v off n) = n.
Proof. intros H. unfold slice. rewrite length_firstn, length_skipn. lia. Qed.

Section VectorReads.

Variable os : OS.
Variable st : DeviceIO.

(** A successful vector read holds exactly as many bytes as [ReadBlock]
    reported. *)
Lemma ReadBlockVector_inv offset size v :
  ReadBlockVector os st offset size = Ok v ->
  exists bytes_read,
    ReadBlock os st offset size (size =? 0) = Ok bytes_read
    /\ v = resize (Z.to_nat bytes_read)
                  (buffer_after os st offset size bytes_read)
    /\ length v = Z.to_nat bytes_read.
Proof.
  unfold ReadBlockVector. destruct (size >? vector_max_size); [discriminate |].
  destruct ((0 <? size) && negb (os_alloc os size)); [discriminate |].
  destruct (ReadBlock os st offset size (size =? 0)) as [n |]; simpl;
    [| discriminate].
  intros H. injection H as <-. exists n. repeat split.
  apply length_resize.
Qed.

(** Every byte of a successful vector read that lies inside the requested
    window is the byte of the medium at that position. *)
Lemma ReadBlockVector_nth offset size v i :
  ReadBlockVector os st offset size = Ok v ->
  (i < length v)%nat -> Z.of_nat i < size ->
  nth i v zero_byte
  = dev_byte (os_file os (device_fd_ st)) (offset + Z.of_nat i).
Proof.
  intros Hv Hi Hsize.
  destruct (ReadBlockVector_inv _ _ _ Hv) as (n & _ & -> & Hlen).
  rewrite length_resize in Hi.
  assert (Hstored : (i < Z.to_nat (Z.min n size))%nat) by lia.
  rewrite nth_resize; [| exact Hi |].
  - unfold buffer_after. rewrite app_nth1 by now rewrite length_dev_bytes.
    now apply nth_dev_bytes.
  - unfold buffer_after. rewrite length_app, length_dev_bytes. lia.
Qed.

End VectorReads.

(** ** The APFS magic excludes the NTFS signature *)

Lemma le_combine_4_inv (v : list byte) (b0 b1 b2 b3 : byte) :
  (4 <= length v)%nat ->
  read_u32 v 0 = le_combine [b0; b1; b2; b3] ->
  nth 3 v zero_byte = b3.
Proof.
  intros Hlen Hm. unfold read_u32 in Hm.
  apply le_combine_inj in Hm; [| now rewrite length_slice].
  change (nth 3 v zero_byte) with (nth (0 + 3) v zero_byte).
  rewrite <- (nth_slice v 0 4 3) by lia. now rewrite Hm.
Qed.

Lemma apfs_magic_byte3 (v : list byte) :
  (4 <= length v)%nat ->
  (read_u32 v 0 =? 0x4253584E) || (read_u32 v 0 =? 0x42535041) = true ->
  nth 3 v zero_byte = Byte.x42.
Proof.
  intros Hlen Hm. apply orb_true_iff in Hm as [Hm | Hm]; apply Z.eqb_eq in Hm.
  - apply (le_combine_4_inv v Byte.x4e Byte.x58 Byte.x53 Byte.x42 Hlen Hm).
  - apply (le_combine_4_inv v Byte.x41 Byte.x50 Byte.x53 Byte.x42 Hlen Hm).
Qed.

Lemma bytes_eqb_eq a b : bytes_eqb a b = true -> a = b.
Proof. unfold bytes_eqb. destruct (list_eq_dec _ a b); [auto | discriminate]. Qed.

Lemma DetectAPFS_excludes_NTFS os st :
  DetectAPFS os st = Ok true -> DetectNTFS os st = Ok false.
Proof.
  intros Ha. unfold DetectAPFS, try_catch, bind in Ha.
  destruct (ReadBlockVector os st 0 64) as [header |] eqn:Hh; [| discriminate].
  destruct (Nat.ltb_spec (length header) 4) as [| Hlen4]; [discriminate |].
  injection Ha as Ha.
  pose proof (apfs_magic_byte3 header Hlen4 Ha) as H3.
  rewrite (ReadBlockVector_nth os st 0 64 header 3 Hh) in H3 by lia.
  unfold DetectNTFS, try_catch, bind.
  destruct (ReadBlockVector os st 0 512) as [boot |] eqn:Hb; [| reflexivity].
  destruct (Nat.ltb_spec (length boot) 512) as [| Hlen]; [reflexivity |].
  f_equal. destruct (bytes_eqb (slice boot 3 8) ntfs_sig) eqn:Hsig; [| reflexivity].
  apply bytes_eqb_eq in Hsig.
  assert (Hn : nth 0 (slice boot 3 8) zero_byte = Byte.x4e) by now rewrite Hsig.
  rewrite nth_slice in Hn by lia. change (3 + 0)%nat with 3%nat in Hn.
  rewrite (ReadBlockVector_nth os st 0 512 boot 3 Hb) in Hn by lia.
  simpl in H3, Hn. congruence.
Qed.

(** ** Proof tactics *)

(** Split a conjunction, and nothing else. *)
Ltac split_conj := repeat match goal with |- _ /\ _ => split end.

(** Close a closed goal by evaluation. *)
Ltac by_eval :=
  vm_compute; split_conj;
  first [ reflexivity | discriminate | congruence | lia ].

(** ** Claims about format detection *)

Lemma short_device_read_throws os st offset size :
  0 <= offset -> 0 < size -> offset + size < 2 ^ 63 ->
  device_size_ st < offset + size ->
  throws (ReadBlockVector os st offset size) = true.
Proof.
  intros Ho Hs Hsum Hdev. unfold ReadBlockVector, ReadBlock, vector_max_size.
  destruct (Z.gtb_spec size (2 ^ 63 - 1)); [reflexivity |].
  destruct ((0 <? size) && negb (os_alloc os size)); [reflexivity |].
  destruct (is_open_ st); [| reflexivity]. simpl.
  destruct (Z.eqb_spec size 0); [reflexivity |].
  unfold wrap64. rewrite Z.mod_small by lia.
  destruct (Z.gtb_spec (offset + size) (device_size_ st)); [reflexivity | lia].
Qed.

(** C9. Format detection is total and degrades gracefully: on every
    [DeviceIO] state and every platform (open or not, whatever the reads do)
    each probe returns a flag and [DetectFilesystem] returns a type, namely
    the first probe that matched in the order NTFS, EXT4, APFS, FAT32, HFS+;
    a probe whose read throws, in particular because the device is smaller
    than the probe's window, answers "no match" without affecting the other
    probes; and when no probe matches the result is [UNKNOWN]. *)
Theorem detection_total_and_graceful (os : OS) (st : DeviceIO) :
  (exists fs, DetectFilesystem os st = Ok fs)
  /\ (exists ntfs ext4 apfs fat hfs,
         DetectNTFS os st = Ok ntfs
         /\ DetectEXT4 os st = Ok ext4
         /\ DetectAPFS os st = Ok apfs
         /\ DetectFAT32 os st = Ok fat
         /\ DetectHFSPlus os st = Ok hfs
         /\ DetectFilesystem os st = Ok (first_match ntfs ext4 apfs fat hfs))
  /\ (throws (ReadBlockVector os st 0 512) = true ->
      DetectNTFS os st = Ok false /\ DetectFAT32 os st = Ok false)
  /\ (throws (ReadBlockVector os st 1024 256) = true ->
      DetectEXT4 os st = Ok false)
  /\ (throws (ReadBlockVector os st 0 64) = true ->
      DetectAPFS os st = Ok false)
  /\ (throws (ReadBlockVector os st 1024 512) = true ->
      DetectHFSPlus os st = Ok false)
  /\ (device_size_ st < 512 ->
      DetectNTFS os st = Ok false /\ DetectFAT32 os st = Ok false)
  /\ (device_size_ st < 1280 -> DetectEXT4 os st = Ok false)
  /\ (device_size_ st < 64 -> DetectFilesystem os st = Ok UNKNOWN)
  /\ (DetectNTFS os st = Ok false -> DetectEXT4 os st = Ok false ->
      DetectAPFS os st = Ok false -> DetectFAT32 os st = Ok false ->
      DetectHFSPlus os st = Ok false ->
      DetectFilesystem os st = Ok UNKNOWN).
Proof.
  assert (H512 : throws (ReadBlockVector os st 0 512) = true ->
                 DetectNTFS os st = Ok false /\ DetectFAT32 os st = Ok false).
  { intros H. split; [unfold DetectNTFS | unfold DetectFAT32];
      now apply try_catch_failed_read. }
  assert (H256 : throws (ReadBlockVector os st 1024 256) = true ->
                 DetectEXT4 os st = Ok false).
  { intros H. unfold DetectEXT4. now apply try_catch_failed_read. }
  assert (H64 : throws (ReadBlockVector os st 0 64) = true ->
                DetectAPFS os st = Ok false).
  { intros H. unfold DetectAPFS. now apply try_catch_failed_read. }
  assert (Hhfs : throws (ReadBlockVector os st 1024 512) = true ->
                 DetectHFSPlus os st = Ok false).
  { intros H. unfold DetectHFSPlus. now apply try_catch_failed_read. }
  split; [apply DetectFilesystem_total |].
  split; [apply DetectFilesystem_first_match |].
  repeat (split; [assumption |]).
  split; [intros; apply H512, short_device_read_throws; lia |].
  split; [intros; apply H256, short_device_read_throws; lia |].
  split.
  - intros Hsmall. unfold DetectFilesystem.
    destruct H512 as [-> Hfat];
      [apply short_device_read_throws; lia |].
    rewrite H256, H64, Hfat, Hhfs by (apply short_device_read_throws; lia).
    reflexivity.
  - intros Hn He Ha Hf Hh. unfold DetectFilesystem.
    rewrite Hn, He, Ha, Hf, Hh. reflexivity.
Qed.

(** Witness for C9: a 100-byte device that starts with the APFS magic. The
    NTFS and EXT4 probes cannot be read and count as "no match"; the APFS
    probe still matches. *)
Lemma detection_total_and_graceful_witness :
  is_open_ small_apfs_dev = true
  /\ device_size_ small_apfs_dev = 100
  /\ DetectNTFS small_apfs_os small_apfs_dev = Ok false
  /\ DetectEXT4 small_apfs_os small_apfs_dev = Ok false
  /\ DetectFilesystem small_apfs_os small_apfs_dev = Ok APFS.
Proof.
  destruct (detection_total_and_graceful small_apfs_os small_apfs_dev)
    as (_ & _ & _ & _ & _ & _ & Hntfs & Hext & _).
  split; [vm_compute; reflexivity |].
  split; [vm_compute; reflexivity |].
  split; [apply Hntfs; vm_compute; reflexivity |].
  split; [apply Hext; vm_compute; reflexivity |].
  vm_compute; reflexivity.
Defined.

(** C4 (as amended). The probes run in the order NTFS, EXT4, APFS. A
    device on which the APFS probe matches can never match the NTFS probe
    (byte 3 is ['B'], the NTFS signature needs ['N'] there); it is detected
    as EXT4 when the EXT4 probe matches as well, and as APFS otherwise. *)
Theorem apfs_magic_detection (os : OS) (st : DeviceIO) :
  DetectAPFS os st = Ok true ->
  DetectNTFS os st = Ok false
  /\ (DetectEXT4 os st = Ok true -> DetectFilesystem os st = Ok EXT4)
  /\ (DetectEXT4 os st = Ok false -> DetectFilesystem os st = Ok APFS).
Proof.
  intros Ha. pose proof (DetectAPFS_excludes_NTFS os st Ha) as Hn.
  split; [exact Hn |].
  split; intros He; unfold DetectFilesystem; rewrite Hn, He; simpl;
    [reflexivity | now rewrite Ha].
Qed.

(** Witness for C4: a 1 MiB image with only the APFS magic. *)
Lemma apfs_magic_detection_witness :
  DetectAPFS apfs_os apfs_dev = Ok true
  /\ DetectNTFS apfs_os apfs_dev = Ok false
  /\ DetectFilesystem apfs_os apfs_dev = Ok APFS.
Proof.
  assert (Ha : DetectAPFS apfs_os apfs_dev = Ok true) by (vm_compute; reflexivity).
  destruct (apfs_magic_detection apfs_os apfs_dev Ha) as (Hn & _ & Hapfs).
  split; [exact Ha |]. split; [exact Hn |].
  apply Hapfs. vm_compute; reflexivity.
Defined.

(** Counterexample to C4 as stated: the image carries the APFS container
    magic at offset 0 and the EXT magic at offset 1080, and detection
    returns EXT4, both when called and as recorded by [Open]. *)
Lemma apfs_with_ext_magic_detected_as_ext4 :
  map apfs_ext_image [0; 1; 2; 3] = [Byte.x4e; Byte.x58; Byte.x53; Byte.x42]
  /\ map apfs_ext_image [1080; 1081] = [Byte.x53; Byte.xef]
  /\ DetectAPFS apfs_ext_os apfs_ext_dev = Ok true
  /\ DetectFilesystem apfs_ext_os apfs_ext_dev = Ok EXT4
  /\ detected_fs_ apfs_ext_dev = EXT4
  /\ EXT4 <> APFS.
Proof.
  split_conj; try by_eval.
Qed.

(** ** Claims about ReadBlock *)

Lemma ReadImpl_never_out_of_range os st offset size :
  ReadImpl os st offset size <> Throw ReadOffsetBeyondDeviceSize.
Proof.
  unfold ReadImpl.
  destruct (device_fd_ st <? 0); [discriminate |].
  destruct (dev_seek_set _ _ <? 0); [discriminate |].
  destruct (dev_read_count _ _ _ <? 0); discriminate.
Qed.

Lemma ReadImpl_ok_inv os st offset size n :
  ReadImpl os st offset size = Ok n ->
  0 <= n /\ n = dev_read_count (os_file os (device_fd_ st)) offset size.
Proof.
  unfold ReadImpl.
  destruct (device_fd_ st <? 0); [discriminate |].
  destruct (dev_seek_set _ _ <? 0); [discriminate |].
  destruct (Z.ltb_spec (dev_read_count (os_file os (device_fd_ st)) offset size) 0)
    as [| Hge]; [discriminate |].
  intros Heq. injection Heq as <-. split; [exact Hge | reflexivity].
Qed.

Lemma ReadBlock_in_range os st offset size :
  is_open_ st = true ->
  wrap64 (offset + size) <= device_size_ st ->
  ReadBlock os st offset size false = ReadImpl os st offset size.
Proof.
  intros Hopen Hle. unfold ReadBlock. rewrite Hopen. simpl.
  destruct (Z.gtb_spec (wrap64 (offset + size)) (device_size_ st));
    [lia | reflexivity].
Qed.

Lemma ReadBlock_out_of_range os st offset size :
  is_open_ st = true ->
  wrap64 (offset + size) > device_size_ st ->
  ReadBlock os st offset size false = Throw ReadOffsetBeyondDeviceSize.
Proof.
  intros Hopen Hgt. unfold ReadBlock. rewrite Hopen. simpl.
  destruct (Z.gtb_spec (wrap64 (offset + size)) (device_size_ st));
    [reflexivity | lia].
Qed.

(** C2 (as amended). On an open device of size [s], with a non-null
    buffer and a request whose end [o + l] is representable in 64 bits:
    if [o + l > s] the read fails with "Read offset beyond device size";
    if [o + l <= s] the request is passed to the platform read, and
    [ReadBlock] returns [l] whenever the descriptor is valid, the seek
    succeeds and the platform delivers the full count. *)
Theorem readblock_bounds (os : OS) (st : DeviceIO) (o l : Z) :
  is_open_ st = true -> is_uint64 o -> is_uint64 l -> o + l < 2 ^ 64 ->
  (o + l > device_size_ st ->
   ReadBlock os st o l false = Throw ReadOffsetBeyondDeviceSize)
  /\ (o + l <= device_size_ st ->
      ReadBlock os st o l false = ReadImpl os st o l)
  /\ (o + l <= device_size_ st ->
      0 <= device_fd_ st ->
      0 <= dev_seek_set (os_file os (device_fd_ st)) (to_int64 o) ->
      dev_read_count (os_file os (device_fd_ st)) o l = l ->
      ReadBlock os st o l false = Ok l).
Proof.
  intros Hopen [Ho _] [Hl _] Hsum.
  assert (Hw : wrap64 (o + l) = o + l) by (apply Z.mod_small; lia).
  split; [| split].
  - intros Hgt. apply ReadBlock_out_of_range; [assumption | lia].
  - intros Hle. apply ReadBlock_in_range; [assumption | lia].
  - intros Hle Hfd Hseek Hfull.
    rewrite ReadBlock_in_range by (assumption || lia).
    unfold ReadImpl.
    destruct (Z.ltb_spec (device_fd_ st) 0); [lia |].
    destruct (Z.ltb_spec (dev_seek_set (os_file os (device_fd_ st)) (to_int64 o)) 0);
      [lia |].
    rewrite Hfull. destruct (Z.ltb_spec l 0); [lia | reflexivity].
Qed.

(** Witness for C2: on the 1 MiB image a read of 256 bytes at 1024 returns
    256, and the read of the test [TestErrorHandlingInvalidOffset]
    (512 bytes at size + 1000) is refused. *)
Lemma readblock_bounds_witness :
  ReadBlock ext_os ext_dev 1024 256 false = Ok 256
  /\ ReadBlock ext_os ext_dev (MiB + 1000) 512 false
     = Throw ReadOffsetBeyondDeviceSize.
Proof.
  split.
  - apply (readblock_bounds ext_os ext_dev 1024 256); by_eval.
  - apply (readblock_bounds ext_os ext_dev (MiB + 1000) 512); by_eval.
Defined.

(** Counterexample to C2 as stated. On a 4 GiB regular file the request
    [(0, 2^31)] lies inside the device, yet the call returns [0x7ffff000]
    bytes, not [2^31]: the count reported by the platform is passed on as
    it is. On the 1 MiB regular file the request
    [(MiB + 1, 2^64 - MiB - 1)] ends far beyond the device, yet no
    out-of-range error is raised: the 64-bit sum is 0, the request passes
    the range check and is handed to the platform read. *)
Lemma readblock_out_of_range_not_detected :
  is_open_ big_dev = true
  /\ device_size_ big_dev = 4096 * MiB
  /\ 0 + 2 ^ 31 <= 4096 * MiB
  /\ ReadBlock big_os big_dev 0 (2 ^ 31) false = Ok 0x7ffff000
  /\ is_open_ ext_dev = true
  /\ device_size_ ext_dev = MiB
  /\ (MiB + 1) + (2 ^ 64 - MiB - 1) > MiB
  /\ ReadBlock ext_os ext_dev (MiB + 1) (2 ^ 64 - MiB - 1) false
     <> Throw ReadOffsetBeyondDeviceSize.
Proof.
  do 7 (split; [by_eval |]).
  rewrite ReadBlock_in_range by by_eval. apply ReadImpl_never_out_of_range.
Qed.

(** C10 (as amended). On every open device whose size [s] satisfies
    [1 <= s < 2^64 - 1] there are a 64-bit offset greater than [s] and a
    64-bit size of at least 1 whose sum wraps modulo [2^64] to a value not
    above [s]; for them [ReadBlock] raises no out-of-range error and hands
    the out-of-bounds offset to the platform read. *)
Theorem readblock_wraparound_bypass (os : OS) (st : DeviceIO) :
  is_open_ st = true ->
  1 <= device_size_ st < 2 ^ 64 - 1 ->
  exists offset size,
    is_uint64 offset /\ is_uint64 size
    /\ offset > device_size_ st /\ size >= 1
    /\ offset + size >= 2 ^ 64
    /\ wrap64 (offset + size) <= device_size_ st
    /\ ReadBlock os st offset size false <> Throw ReadOffsetBeyondDeviceSize
    /\ ReadBlock os st offset size false = ReadImpl os st offset size.
Proof.
  intros Hopen Hs.
  exists (device_size_ st + 1), (2 ^ 64 - (device_size_ st + 1)).
  assert (Hw : wrap64 (device_size_ st + 1 + (2 ^ 64 - (device_size_ st + 1))) = 0).
  { replace (device_size_ st + 1 + (2 ^ 64 - (device_size_ st + 1)))
      with (2 ^ 64) by lia. reflexivity. }
  assert (Hrb : ReadBlock os st (device_size_ st + 1)
                  (2 ^ 64 - (device_size_ st + 1)) false
                = ReadImpl os st (device_size_ st + 1)
                    (2 ^ 64 - (device_size_ st + 1))).
  { apply ReadBlock_in_range; [assumption | rewrite Hw; lia]. }
  unfold is_uint64. repeat split; try lia.
  - rewrite Hrb. apply ReadImpl_never_out_of_range.
  - exact Hrb.
Qed.

(** Witness for C10: the 1 MiB image. *)
Lemma readblock_wraparound_bypass_witness :
  exists offset size,
    is_uint64 offset /\ is_uint64 size
    /\ offset > device_size_ ext_dev /\ size >= 1
    /\ offset + size >= 2 ^ 64
    /\ wrap64 (offset + size) <= device_size_ ext_dev
    /\ ReadBlock ext_os ext_dev offset size false
       <> Throw ReadOffsetBeyondDeviceSize
    /\ ReadBlock ext_os ext_dev offset size false
       = ReadImpl ext_os ext_dev offset size.
Proof.
  apply (readblock_wraparound_bypass ext_os ext_dev); by_eval.
Defined.

(** Counterexample to C10 as stated ("every open device of size s >= 1").
    Opening a FIFO succeeds; [BLKGETSIZE64] and [lseek] both fail, so the
    size recorded is [(uint64_t)-1 = 2^64 - 1], and no 64-bit offset is
    greater than it. *)
Lemma no_offset_beyond_max_size :
  fst (Open fifo_os DeviceIO_new "/tmp/fifo") = Ok true
  /\ is_open_ fifo_dev = true
  /\ device_size_ fifo_dev = 2 ^ 64 - 1
  /\ 1 <= device_size_ fifo_dev
  /\ (forall offset, is_uint64 offset -> offset <= device_size_ fifo_dev).
Proof.
  assert (Hsize : device_size_ fifo_dev = 2 ^ 64 - 1) by by_eval.
  split; [by_eval |]. split; [by_eval |]. split; [exact Hsize |].
  split; [rewrite Hsize; lia |].
  intros offset [_ Hlt]. rewrite Hsize. lia.
Qed.

Lemma firstn_exact (A : Type) (a b : list A) :
  firstn (length a) (a ++ b) = a.
Proof.
  rewrite firstn_app, Nat.sub_diag, firstn_all. simpl. apply app_nil_r.
Qed.

(** C7 (as amended). A platform read that reports [n] bytes without an
    error, whatever [n] is compared with the request, is not an error of
    [DeviceIO] either: [ReadBlock] returns [n], the number of bytes actually
    read, and [ReadBlockVector] returns a vector of exactly [n] bytes, the
    first [n] bytes of the requested window when [n] does not exceed the
    request. *)
Theorem short_read_returned_truncated (os : OS) (st : DeviceIO) (o l n : Z) :
  is_open_ st = true ->
  wrap64 (o + l) <= device_size_ st ->
  0 < l <= vector_max_size ->
  os_alloc os l = true ->
  ReadImpl os st o l = Ok n ->
  n = dev_read_count (os_file os (device_fd_ st)) o l
  /\ ReadBlock os st o l false = Ok n
  /\ exists v,
      ReadBlockVector os st o l = Ok v
      /\ length v = Z.to_nat n
      /\ (n <= l -> v = dev_bytes (os_file os (device_fd_ st)) o (Z.to_nat n)).
Proof.
  intros Hopen Hrange [Hl Hmax] Halloc Himpl.
  destruct (ReadImpl_ok_inv _ _ _ _ _ Himpl) as [Hn Hcount].
  assert (Hrb : ReadBlock os st o l false = Ok n)
    by now rewrite ReadBlock_in_range.
  split; [exact Hcount |]. split; [exact Hrb |].
  unfold ReadBlockVector.
  destruct (Z.gtb_spec l vector_max_size); [lia |].
  rewrite Halloc. cbn [negb]. rewrite andb_false_r.
  destruct (Z.eqb_spec l 0); [lia |].
  rewrite Hrb. simpl. eexists. split; [reflexivity |].
  split; [apply length_resize |].
  intros Hnl. unfold resize, buffer_after.
  rewrite Z.min_l by exact Hnl.
  set (a := dev_bytes (os_file os (device_fd_ st)) o (Z.to_nat n)).
  assert (Ha : length a = Z.to_nat n) by apply length_dev_bytes.
  rewrite <- Ha at 1. rewrite firstn_exact.
  rewrite length_app, repeat_length, Ha.
  replace (Z.to_nat n - (Z.to_nat n + (Z.to_nat l - Z.to_nat n)))%nat
    with 0%nat by lia.
  apply app_nil_r.
Qed.

(** Witness for C7: 512 bytes requested from a descriptor that delivers
    100 bytes per call. *)
Lemma short_read_returned_truncated_witness :
  ReadBlock chunked_os chunked_dev 0 512 false = Ok 100
  /\ exists v,
      ReadBlockVector chunked_os chunked_dev 0 512 = Ok v
      /\ length v = Z.to_nat 100
      /\ (100 <= 512 ->
          v = dev_bytes (os_file chunked_os (device_fd_ chunked_dev)) 0
                (Z.to_nat 100)).
Proof.
  apply (short_read_returned_truncated chunked_os chunked_dev 0 512 100);
    by_eval.
Defined.

(** Counterexample to C7 as stated: the platform returns 100 of the 512
    bytes requested and reports no error; [ReadBlock] succeeds with 100 and
    the vector read succeeds with a vector of 100 bytes. The same happens
    on a plain 4 GiB file when [2^31] bytes are requested. *)
Lemma short_read_not_surfaced :
  is_open_ chunked_dev = true
  /\ dev_read_count (os_file chunked_os (device_fd_ chunked_dev)) 0 512 = 100
  /\ ReadBlock chunked_os chunked_dev 0 512 false = Ok 100
  /\ throws (ReadBlockVector chunked_os chunked_dev 0 512) = false
  /\ (exists v, ReadBlockVector chunked_os chunked_dev 0 512 = Ok v
                /\ length v = 100%nat)
  /\ ReadBlock big_os big_dev 0 (2 ^ 31) false = Ok 0x7ffff000.
Proof.
  split; [by_eval |]. split; [by_eval |]. split; [by_eval |].
  split; [by_eval |]. split; [| by_eval].
  destruct (ReadBlockVector chunked_os chunked_dev 0 512) as [v |] eqn:Hv.
  - exists v. split; [reflexivity |].
    apply (f_equal (fun r => match r with Ok x => length x | Throw _ => 0%nat end))
      in Hv.
    rewrite <- Hv. vm_compute. reflexivity.
  - apply (f_equal throws) in Hv. vm_compute in Hv. discriminate.
Qed.

(** ** Claims about Open *)

Lemma Close_open_state os st :
  is_open_ st = true ->
  is_open_ (snd (Close os st)) = false
  /\ device_fd_ (snd (Close os st)) = device_fd_ st
  /\ current_device_path_ (snd (Close os st)) = current_device_path_ st
  /\ device_size_ (snd (Close os st)) = device_size_ st.
Proof. intros H. unfold Close. rewrite H. simpl. repeat split. Qed.

(** C8 (as amended). A call to [Open] on a handle that is already open
    never fails with an "already open" error: it behaves exactly like
    [Close] followed by [Open]. When the platform opens the requested path
    the call succeeds and the handle now refers to that path; when it does
    not, the call throws "Failed to open device" and the handle is left
    closed. *)
Theorem reopen_closes_then_opens (os : OS) (st : DeviceIO) (path : string) :
  is_open_ st = true ->
  Open os st path = Open os (snd (Close os st)) path
  /\ (0 <= os_open os path ->
      fst (Open os st path) = Ok true
      /\ is_open_ (snd (Open os st path)) = true
      /\ current_device_path_ (snd (Open os st path)) = path
      /\ device_fd_ (snd (Open os st path)) = os_open os path)
  /\ (os_open os path < 0 ->
      fst (Open os st path) = Throw (FailedToOpenDevice path)
      /\ is_open_ (snd (Open os st path)) = false).
Proof.
  intros Hopen.
  destruct (Close_open_state os st Hopen) as (Hc & _).
  split; [| split].
  - unfold Open at 2. cbv zeta. rewrite Hc.
    unfold Open. cbv zeta. rewrite Hopen. reflexivity.
  - intros Hfd. unfold Open. rewrite Hopen. cbn [device_fd_].
    destruct (Z.geb_spec (os_open os path) 0); [| lia]. cbn [negb].
    match goal with
    | |- context [DetectFilesystem os ?s] =>
        destruct (DetectFilesystem_total os s) as [fs ->]
    end.
    repeat split.
  - intros Hfd. unfold Open. rewrite Hopen. cbn [device_fd_].
    destruct (Z.geb_spec (os_open os path) 0); [lia |]. cbn [negb fst snd].
    split; [reflexivity |]. cbn [is_open_]. exact Hc.
Qed.

(** Witness for C8: the session on [/dev/sda1] is replaced by one on
    [/dev/sdb1]. *)
Lemma reopen_closes_then_opens_witness :
  fst (Open two_os first_session "/dev/sdb1") = Ok true
  /\ is_open_ (snd (Open two_os first_session "/dev/sdb1")) = true
  /\ current_device_path_ (snd (Open two_os first_session "/dev/sdb1"))
     = "/dev/sdb1"%string
  /\ device_fd_ (snd (Open two_os first_session "/dev/sdb1"))
     = os_open two_os "/dev/sdb1".
Proof.
  apply (reopen_closes_then_opens two_os first_session "/dev/sdb1"); by_eval.
Defined.

(** Counterexample to C8 as stated: with a session open on [/dev/sda1], a
    second [Open], on another path or on the same one, succeeds; after the
    first of these the handle refers to [/dev/sdb1], so the existing
    session was not left unchanged. *)
Lemma second_open_succeeds :
  is_open_ first_session = true
  /\ current_device_path_ first_session = "/dev/sda1"%string
  /\ fst (Open two_os first_session "/dev/sdb1") = Ok true
  /\ current_device_path_ (snd (Open two_os first_session "/dev/sdb1"))
     = "/dev/sdb1"%string
  /\ detected_fs_ (snd (Open two_os first_session "/dev/sdb1")) = NTFS
  /\ detected_fs_ first_session = EXT4
  /\ fst (Open two_os first_session "/dev/sda1") = Ok true.
Proof.
  split_conj; by_eval.
Qed.

(** ** Deletion predicates *)

Lemma lor_shiftl_8 a b :
  0 <= a < 2 ^ 8 -> Z.lor a (Z.shiftl b 8) = a + 2 ^ 8 * b.
Proof.
  intros Ha. rewrite Z.shiftl_mul_pow2 by lia.
  rewrite <- Z.lxor_lor, <- Z.add_nocarry_lxor; try lia.
  all: apply Z.bits_inj'; intros n Hn; rewrite Z.land_spec, Z.bits_0;
    destruct (Z.lt_ge_cases n 8).
  all: try (rewrite Z.mul_pow2_bits_low by lia; apply andb_false_r).
  all: rewrite (Z.bits_above_log2 a n); auto; try lia.
  all: destruct (Z.eq_dec a 0) as [-> |]; [simpl; lia |];
    apply Z.log2_lt_pow2; try lia;
    apply Z.lt_le_trans with (2 ^ 8); try lia; apply Z.pow_le_mono_r; lia.
Qed.

Lemma le_combine_cons h t :
  le_combine (h :: t) = byte.unsigned h + 2 ^ 8 * le_combine t.
Proof. cbn [le_combine]. apply lor_shiftl_8, byte.unsigned_range. Qed.

Lemma slice_2 data off :
  (off + 2 <= length data)%nat ->
  slice data off 2 = [nth off data zero_byte; nth (off + 1) data zero_byte].
Proof.
  intros H. pose proof (length_slice data off 2 H) as Hlen.
  pose proof (nth_slice data off 2 0) as H0.
  pose proof (nth_slice data off 2 1) as H1.
  destruct (slice data off 2) as [| a [| b [| c l]]]; try discriminate.
  simpl in H0, H1. rewrite Nat.add_0_r in H0.
  now rewrite <- H0, <- H1 by lia.
Qed.

Lemma slice_4 data off :
  (off + 4 <= length data)%nat ->
  slice data off 4
  = [nth off data zero_byte; nth (off + 1) data zero_byte;
     nth (off + 2) data zero_byte; nth (off + 3) data zero_byte].
Proof.
  intros H. pose proof (length_slice data off 4 H) as Hlen.
  pose proof (nth_slice data off 4 0) as H0.
  pose proof (nth_slice data off 4 1) as H1.
  pose proof (nth_slice data off 4 2) as H2.
  pose proof (nth_slice data off 4 3) as H3.
  destruct (slice data off 4) as [| a [| b [| c [| d [| e l]]]]];
    try discriminate.
  simpl in H0, H1, H2, H3. rewrite Nat.add_0_r in H0.
  now rewrite <- H0, <- H1, <- H2, <- H3 by lia.
Qed.

(** The overlay reads are the little-endian fields. *)
Lemma read_u16_field data off :
  (off + 2 <= length data)%nat -> read_u16 data off = field_u16 data off.
Proof.
  intros H. unfold read_u16, field_u16, byte_at. rewrite slice_2 by exact H.
  rewrite !le_combine_cons, le_combine_nil. lia.
Qed.

Lemma read_u32_field data off :
  (off + 4 <= length data)%nat -> read_u32 data off = field_u32 data off.
Proof.
  intros H. unfold read_u32, field_u32, byte_at. rewrite slice_4 by exact H.
  rewrite !le_combine_cons, le_combine_nil. lia.
Qed.

Lemma land_1_testbit z : (Z.land z 1 =? 0) = negb (Z.testbit z 0).
Proof.
  change 1 with (Z.ones 1). rewrite Z.land_ones by lia.
  change (2 ^ 1) with 2. rewrite <- Z.bit0_mod.
  destruct (Z.testbit z 0); reflexivity.
Qed.

(** C5. Both deletion predicates give [is_deleted] the same meaning.
    For a buffer of at least 0x18 bytes the EXT parser answers "deleted"
    exactly when the 32-bit little-endian field at offset 0x14 ([i_dtime])
    is non-zero; for a buffer of at least 0x24 bytes the NTFS parser answers
    "deleted" exactly when bit 0 (in use) of the 16-bit little-endian flags
    at offset 0x22 is clear; shorter buffers are "not deleted". *)
Theorem deletion_predicates (data : list byte) :
  ((0x18 <= length data)%nat ->
   (EXT4Parser.IsInodeDeleted data = true <-> field_u32 data 0x14 <> 0))
  /\ ((0x24 <= length data)%nat ->
      (NTFSParser.IsFileDeleted data = true
       <-> Z.testbit (field_u16 data 0x22) 0 = false))
  /\ ((length data < 0x18)%nat -> EXT4Parser.IsInodeDeleted data = false)
  /\ ((length data < 0x24)%nat -> NTFSParser.IsFileDeleted data = false).
Proof.
  split; [| split; [| split]].
  - intros Hlen. unfold EXT4Parser.IsInodeDeleted.
    destruct (Nat.ltb_spec (length data) 0x18); [lia |].
    rewrite read_u32_field by lia.
    destruct (Z.eqb_spec (field_u32 data 0x14) 0) as [-> | Hne]; simpl.
    + split; [discriminate | intros H'; now contradiction H'].
    + split; [intros _; exact Hne | reflexivity].
  - intros Hlen. unfold NTFSParser.IsFileDeleted.
    destruct (Nat.ltb_spec (length data) 0x24); [lia |].
    rewrite read_u16_field by lia. rewrite land_1_testbit.
    destruct (Z.testbit (field_u16 data 0x22) 0); simpl;
      split; congruence.
  - intros Hlen. unfold EXT4Parser.IsInodeDeleted.
    destruct (Nat.ltb_spec (length data) 0x18); [reflexivity | lia].
  - intros Hlen. unfold NTFSParser.IsFileDeleted.
    destruct (Nat.ltb_spec (length data) 0x24); [reflexivity | lia].
Qed.

(** Witness for C5: an inode with a deletion time and a file record that
    is not in use are both classified as deleted; a 16-byte buffer is
    not. *)
Lemma deletion_predicates_witness :
  EXT4Parser.IsInodeDeleted ext_deleted_inode = true
  /\ NTFSParser.IsFileDeleted ntfs_unused_record = true
  /\ EXT4Parser.IsInodeDeleted (repeat zero_byte 16) = false
  /\ NTFSParser.IsFileDeleted (repeat zero_byte 16) = false.
Proof.
  split; [| split; [| split]].
  - apply (deletion_predicates ext_deleted_inode); by_eval.
  - apply (deletion_predicates ntfs_unused_record); by_eval.
  - apply (deletion_predicates (repeat zero_byte 16)); by_eval.
  - apply (deletion_predicates (repeat zero_byte 16)); by_eval.
Defined.

(** ** The parsers *)

Lemma str_empty_rejected fs path :
  root_accepted fs path = true -> str_empty path = false.
Proof.
  destruct path; [| reflexivity]. destruct fs; discriminate.
Qed.

Lemma parse_groups_spec p group_descs entries :
  EXT4Parser.parse_groups p group_descs entries
  = (match group_descs with
     | [] => p
     | _ :: _ =>
         {| EXT4Parser.total_recoverable_files_ := 1;
            EXT4Parser.total_deleted_files_ := 0;
            EXT4Parser.journal_info_ := EXT4Parser.journal_info_ p;
            EXT4Parser.last_parsed_device_ := EXT4Parser.last_parsed_device_ p;
            EXT4Parser.is_initialized_ := EXT4Parser.is_initialized_ p |}
     end,
     entries ++ repeat EXT4Parser.sample_file (length group_descs)).
Proof.
  revert p entries. induction group_descs as [| g rest IH]; intros p entries.
  - simpl. now rewrite app_nil_r.
  - cbn [EXT4Parser.parse_groups EXT4Parser.ParseInodeTable length repeat].
    rewrite IH. rewrite <- app_assoc. destruct rest; reflexivity.
Qed.

(** What [EXT4Parser::Parse] does on an accepted path. *)
Lemma EXT4_Parse_accepted uninit p path entries :
  root_accepted EXT4 path = true ->
  EXT4Parser.blocks_per_group uninit <> 0 ->
  exists p',
    EXT4Parser.Parse uninit p path entries
    = Returns (true, p',
               entries ++ repeat EXT4Parser.sample_file
                            (mock_group_count (EXT4Parser.blocks_per_group uninit)))
    /\ EXT4Parser.GetRecoveryStats p'
       = match mock_group_count (EXT4Parser.blocks_per_group uninit) with
         | O => EXT4Parser.GetRecoveryStats p
         | S _ => (1, 0)
         end.
Proof.
  intros Hacc Hbpg. unfold EXT4Parser.Parse.
  rewrite (str_empty_rejected EXT4 path Hacc).
  unfold EXT4Parser.ReadSuperblock. simpl in Hacc. rewrite Hacc.
  cbn [negb]. unfold EXT4Parser.ParseGroupDescriptors.
  cbn [EXT4Parser.blocks_per_group EXT4Parser.blocks_count].
  destruct (Z.eqb_spec (EXT4Parser.blocks_per_group uninit) 0); [contradiction |].
  cbn [negb]. rewrite parse_groups_spec, repeat_length.
  fold (mock_group_count (EXT4Parser.blocks_per_group uninit)).
  eexists. split; [reflexivity |].
  destruct (mock_group_count (EXT4Parser.blocks_per_group uninit)); reflexivity.
Qed.

Lemma EXT4_Parse_rejected uninit p path entries :
  root_accepted EXT4 path = false ->
  exists p', EXT4Parser.Parse uninit p path entries = Returns (false, p', entries)
             /\ EXT4Parser.GetRecoveryStats p' = EXT4Parser.GetRecoveryStats p.
Proof.
  intros Hrej. unfold EXT4Parser.Parse.
  destruct (str_empty path); [eexists; split; reflexivity |].
  unfold EXT4Parser.ReadSuperblock. simpl in Hrej. rewrite Hrej.
  eexists; split; reflexivity.
Qed.

Lemma NTFS_Parse_spec uninit p path entries :
  exists p',
    NTFSParser.Parse uninit p path entries
    = (root_accepted NTFS path, p',
       if root_accepted NTFS path then entries ++ [NTFSParser.sample_file]
       else entries).
Proof.
  unfold NTFSParser.Parse. destruct path as [| c path'].
  - eexists; reflexivity.
  - cbn [str_empty]. unfold NTFSParser.ReadBootSector.
    cbn [root_accepted].
    destruct (str_contains "NTFS" (String c path') || str_contains "C:" (String c path'));
      eexists; reflexivity.
Qed.

Lemma APFS_Parse_spec uninit p path entries :
  exists p',
    APFSParser.Parse uninit p path entries
    = (root_accepted APFS path, p',
       if root_accepted APFS path then entries ++ [APFSParser.sample_file]
       else entries).
Proof.
  unfold APFSParser.Parse. destruct path as [| c path'].
  - eexists; reflexivity.
  - cbn [str_empty]. unfold APFSParser.ReadContainerSuperblock.
    cbn [root_accepted].
    destruct (str_contains "APFS" (String c path') || str_contains "Data" (String c path'));
      eexists; reflexivity.
Qed.

Lemma count_deleted_filter entries :
  DeviceIOAdapter.count_deleted entries
  = Z.of_nat (length (filter is_deleted entries)).
Proof.
  unfold DeviceIOAdapter.count_deleted.
  assert (H : forall l acc,
             fold_left (fun n entry => if is_deleted entry then n + 1 else n) l acc
             = acc + Z.of_nat (length (filter is_deleted l))).
  { induction l as [| e l IH]; intros acc; simpl; [lia |].
    rewrite IH. destruct (is_deleted e); simpl length; lia. }
  rewrite H. lia.
Qed.

Lemma to_int32_small z : 0 <= z < 2 ^ 31 -> to_int32 z = z.
Proof.
  intros H. unfold to_int32, wrap32. rewrite Z.mod_small by lia.
  destruct (Z.ltb_spec z (2 ^ 31)); [reflexivity | lia].
Qed.

(** ** ParseDevice *)

Section ParseDeviceFacts.

Import DeviceIOAdapter.

Variable os : OS.
Variable u : Uninit.

(** The outcome of [ParseDevice] on an open device, by detected type. *)
Lemma ParseDevice_by_type a entries fs :
  is_open_ (device_io_ a) = true ->
  DetectFilesystem os a = Ok fs ->
  match fs with
  | NTFS | APFS =>
      exists a2,
        ParseDevice os u a entries
        = Ok (Returns
                (let ok := root_accepted fs (current_device_path_ (device_io_ a)) in
                 let entries' := if ok then entries ++ [sample_of fs] else entries in
                 (ok, collect_statistics ok a2 entries', entries')))
        /\ device_io_ a2 = device_io_ a
  | EXT4 =>
      if root_accepted EXT4 (current_device_path_ (device_io_ a)) then
        if EXT4Parser.blocks_per_group (uninit_ext4 u) =? 0
        then ParseDevice os u a entries = Ok DivisionByZero
        else
        exists a2 p',
          ParseDevice os u a entries
          = Ok (Returns
                  (let entries' :=
                     entries ++ repeat (sample_of EXT4)
                       (mock_group_count
                          (EXT4Parser.blocks_per_group (uninit_ext4 u))) in
                   (true, collect_statistics true a2 entries', entries')))
          /\ device_io_ a2 = device_io_ a
          /\ ext4_parser_ a2 = Some p'
          /\ (mock_group_count (EXT4Parser.blocks_per_group (uninit_ext4 u))
              <> O -> EXT4Parser.GetRecoveryStats p' = (1, 0))
      else
        exists a2, ParseDevice os u a entries = Ok (Returns (false, a2, entries))
                   /\ device_io_ a2 = device_io_ a
                   /\ last_total_files_ a2 = last_total_files_ a
                   /\ last_deleted_files_ a2 = last_deleted_files_ a
  | _ => ParseDevice os u a entries = Ok (Returns (false, a, entries))
  end.
Proof.
  intros Hopen Hfs. unfold ParseDevice. rewrite Hopen, Hfs. cbn [negb bind].
  destruct fs; try reflexivity.
  - (* NTFS *)
    cbn [InitializeParser negb]. unfold ParseNTFS. cbn [ntfs_parser_ device_io_].
    destruct (ntfs_parser_ a) as [p0 |].
    all: match goal with
    | |- context [NTFSParser.Parse ?un ?p ?path ?es] =>
        destruct (NTFS_Parse_spec un p path es) as [p' ->]
    end.
    all: eexists; split; reflexivity.
  - (* APFS *)
    cbn [InitializeParser negb]. unfold ParseAPFS. cbn [apfs_parser_ device_io_].
    destruct (apfs_parser_ a) as [p0 |].
    all: match goal with
    | |- context [APFSParser.Parse ?un ?p ?path ?es] =>
        destruct (APFS_Parse_spec un p path es) as [p' ->]
    end.
    all: eexists; split; reflexivity.
  - (* EXT4 *)
    cbn [InitializeParser negb]. unfold ParseEXT4. cbn [ext4_parser_ device_io_].
    destruct (root_accepted EXT4 (current_device_path_ (device_io_ a))) eqn:Hacc.
    + destruct (Z.eqb_spec (EXT4Parser.blocks_per_group (uninit_ext4 u)) 0)
        as [Hz | Hbpg].
      { unfold EXT4Parser.Parse.
        rewrite (str_empty_rejected EXT4 _ Hacc).
        unfold EXT4Parser.ReadSuperblock. simpl in Hacc. rewrite Hacc.
        cbn [negb]. unfold EXT4Parser.ParseGroupDescriptors.
        cbn [EXT4Parser.blocks_per_group]. rewrite Hz.
        destruct (ext4_parser_ a); reflexivity. }
      destruct (ext4_parser_ a) as [p0 |].
      all: match goal with
      | |- context [EXT4Parser.Parse ?un ?p ?path ?es] =>
          destruct (EXT4_Parse_accepted un p path es Hacc Hbpg)
            as (p' & -> & Hstats)
      end.
      all: eexists; exists p'; split; [reflexivity |];
        split; [reflexivity |]; split; [reflexivity |];
        intros Hk; destruct (mock_group_count _); [congruence | exact Hstats].
    + destruct (ext4_parser_ a) as [p0 |].
      all: match goal with
      | |- context [EXT4Parser.Parse ?un ?p ?path ?es] =>
          destruct (EXT4_Parse_rejected un p path es Hacc) as (p' & -> & _)
      end.
      all: eexists; repeat split.
Qed.

End ParseDeviceFacts.

Lemma filter_deleted_samples fs k entries :
  filter is_deleted (entries ++ repeat (sample_of fs) k)
  = filter is_deleted entries.
Proof.
  rewrite filter_app.
  assert (H : filter is_deleted (repeat (sample_of fs) k) = []).
  { induction k as [| k IH]; [reflexivity |]. simpl. rewrite IH.
    destruct fs; reflexivity. }
  rewrite H. apply app_nil_r.
Qed.

Lemma ParseDevice_success_inv os u a entries a' entries' :
  DeviceIOAdapter.ParseDevice os u a entries = Ok (Returns (true, a', entries')) ->
  exists a2 fs k,
    a' = DeviceIOAdapter.collect_statistics true a2 entries'
    /\ entries' = entries ++ repeat (sample_of fs) k.
Proof.
  intros H.
  destruct (is_open_ (DeviceIOAdapter.device_io_ a)) eqn:Hopen;
    [| unfold DeviceIOAdapter.ParseDevice in H; rewrite Hopen in H; discriminate].
  destruct (DeviceIOAdapter.DetectFilesystem os a) as [fs |] eqn:Hfs;
    [| unfold DeviceIOAdapter.ParseDevice in H; rewrite Hopen, Hfs in H;
       discriminate].
  pose proof (ParseDevice_by_type os u a entries fs Hopen Hfs) as Hspec.
  destruct fs; try (rewrite Hspec in H; discriminate).
  - destruct Hspec as (a2 & Hpd & _). rewrite Hpd in H. cbv zeta in H.
    destruct (root_accepted NTFS _); [| discriminate].
    injection H as <- <-. exists a2, NTFS, 1%nat. split; reflexivity.
  - destruct Hspec as (a2 & Hpd & _). rewrite Hpd in H. cbv zeta in H.
    destruct (root_accepted APFS _); [| discriminate].
    injection H as <- <-. exists a2, APFS, 1%nat. split; reflexivity.
  - destruct (root_accepted EXT4 _).
    + destruct (EXT4Parser.blocks_per_group _ =? 0);
        [rewrite Hspec in H; discriminate |].
      destruct Hspec as (a2 & p' & Hpd & _). rewrite Hpd in H. cbv zeta in H.
      injection H as <- <-. exists a2, EXT4. eexists. split; reflexivity.
    + destruct Hspec as (a2 & Hpd & _). rewrite Hpd in H. discriminate.
Qed.

(** C1 (as amended). After every successful [ParseDevice] pass (with
    fewer than [2^31] entries in the vector) the adapter's
    [GetRecoveryStats] is the number of entries in the caller's vector and
    the number of those whose [is_deleted] is set. The entries added by the
    pass are copies of the parser's fixed sample entry, none of them marked
    deleted, so the deleted count is the one of the entries the vector
    already held. Nothing is said about the parser's own counters. *)
Theorem adapter_stats_count_emitted_entries
        (os : OS) (u : DeviceIOAdapter.Uninit) (a a' : DeviceIOAdapter.t)
        (entries entries' : list FileEntry) :
  DeviceIOAdapter.ParseDevice os u a entries = Ok (Returns (true, a', entries')) ->
  Z.of_nat (length entries') < 2 ^ 31 ->
  DeviceIOAdapter.GetRecoveryStats a'
  = (Z.of_nat (length entries'),
     Z.of_nat (length (filter is_deleted entries')))
  /\ (exists fs k, entries' = entries ++ repeat (sample_of fs) k)
  /\ filter is_deleted entries' = filter is_deleted entries.
Proof.
  intros Hpd Hlen.
  destruct (ParseDevice_success_inv _ _ _ _ _ _ Hpd) as (a2 & fs & k & -> & He).
  split; [| split].
  - unfold DeviceIOAdapter.GetRecoveryStats, DeviceIOAdapter.collect_statistics.
    cbn [DeviceIOAdapter.last_total_files_ DeviceIOAdapter.last_deleted_files_].
    rewrite to_int32_small by lia. now rewrite count_deleted_filter.
  - exists fs, k. exact He.
  - rewrite He. apply filter_deleted_samples.
Qed.

(** Witness for C1: the EXT image opened as [/dev/sda1]. *)
Lemma adapter_stats_count_emitted_entries_witness :
  exists a' entries',
    open_and_parse sda_os (uninit_with_bpg 32768) "/dev/sda1"
    = Ok (Returns (true, a', entries'))
    /\ DeviceIOAdapter.GetRecoveryStats a'
       = (Z.of_nat (length entries'),
          Z.of_nat (length (filter is_deleted entries'))).
Proof.
  eexists. eexists. split; [vm_compute; reflexivity |].
  eapply (adapter_stats_count_emitted_entries sda_os (uninit_with_bpg 32768)
            (opened_adapter sda_os "/dev/sda1") _ []).
  - vm_compute. reflexivity.
  - by_eval.
Defined.

(** Counterexample to C1 as stated. (1) The 1 MiB EXT image holds no
    inode table at all (every byte but the magic is zero). One pass over
    it, opened as [/dev/sda1] with [blocks_per_group] left at 32768,
    succeeds; afterwards the adapter reports 8 files and the parser reports
    1, so the two reports cannot both be the number of records on the
    device. (2) The NTFS image holds a record that the parser's own
    [IsFileDeleted] classifies as deleted; the pass over it succeeds and
    both reports give 0 deleted files. *)
Lemma reported_stats_ignore_device_records :
  (exists a' entries',
      open_and_parse sda_os (uninit_with_bpg 32768) "/dev/sda1"
      = Ok (Returns (true, a', entries'))
      /\ DeviceIOAdapter.GetRecoveryStats a' = (8, 0)
      /\ option_map EXT4Parser.GetRecoveryStats (DeviceIOAdapter.ext4_parser_ a')
         = Some (1, 0)
      /\ length entries' = 8%nat)
  /\ NTFSParser.IsFileDeleted
       (dev_bytes (regular_file MiB ntfs_image_deleted) 4096 1024) = true
  /\ (exists a' entries',
         open_and_parse ntfs_deleted_os (uninit_with_bpg 32768) "/mnt/NTFS.img"
         = Ok (Returns (true, a', entries'))
         /\ DeviceIOAdapter.GetRecoveryStats a' = (1, 0)
         /\ option_map NTFSParser.GetRecoveryStats
              (DeviceIOAdapter.ntfs_parser_ a') = Some (1, 0)).
Proof.
  split; [| split].
  - eexists. eexists. split; [vm_compute; reflexivity |]. split_conj; by_eval.
  - by_eval.
  - eexists. eexists. split; [vm_compute; reflexivity |]. split_conj; by_eval.
Qed.




(** ** The all-zero image with the EXT magic *)

Lemma ReadBlockVector_depends os1 st1 os2 st2 offset size :
  os_alloc os1 size = os_alloc os2 size ->
  os_file os1 (device_fd_ st1) = os_file os2 (device_fd_ st2) ->
  (device_fd_ st1 <? 0) = (device_fd_ st2 <? 0) ->
  is_open_ st1 = is_open_ st2 ->
  device_size_ st1 = device_size_ st2 ->
  ReadBlockVector os1 st1 offset size = ReadBlockVector os2 st2 offset size.
Proof.
  intros Halloc Hfile Hfd Hopen Hsize.
  unfold ReadBlockVector, ReadBlock, ReadImpl, buffer_after.
  rewrite Hfile, Hfd, Hopen, Hsize, Halloc. reflexivity.
Qed.

(** Detection depends on platform and state only through the allocator,
    the descriptor's object, the open flag and the recorded size. *)
Lemma DetectFilesystem_depends os1 st1 os2 st2 :
  (forall size, os_alloc os1 size = os_alloc os2 size) ->
  os_file os1 (device_fd_ st1) = os_file os2 (device_fd_ st2) ->
  (device_fd_ st1 <? 0) = (device_fd_ st2 <? 0) ->
  is_open_ st1 = is_open_ st2 ->
  device_size_ st1 = device_size_ st2 ->
  DetectFilesystem os1 st1 = DetectFilesystem os2 st2.
Proof.
  intros Halloc Hfile Hfd Hopen Hsize.
  unfold DetectFilesystem, DetectNTFS, DetectEXT4, DetectAPFS, DetectFAT32,
    DetectHFSPlus.
  now rewrite !(ReadBlockVector_depends os1 st1 os2 st2) by auto.
Qed.

Lemma ext_dev_state :
  ext_dev = {| device_fd_ := 3;
               current_device_path_ := "/tmp/test_device.bin";
               device_size_ := MiB;
               sector_size_ := 512;
               detected_fs_ := EXT4;
               is_open_ := true |}.
Proof. vm_compute. reflexivity. Qed.

Lemma ext_dev_detected : DetectFilesystem ext_os ext_dev = Ok EXT4.
Proof. vm_compute. reflexivity. Qed.

Lemma open_ext_image path :
  DeviceIOAdapter.OpenDevice (ext_image_os path) DeviceIOAdapter.new path
  = (Ok true,
     {| DeviceIOAdapter.device_io_ :=
          {| device_fd_ := 3;
             current_device_path_ := path;
             device_size_ := MiB;
             sector_size_ := 512;
             detected_fs_ := EXT4;
             is_open_ := true |};
        DeviceIOAdapter.ntfs_parser_ := None;
        DeviceIOAdapter.apfs_parser_ := None;
        DeviceIOAdapter.ext4_parser_ := None;
        DeviceIOAdapter.last_total_files_ := 0;
        DeviceIOAdapter.last_deleted_files_ := 0 |}).
Proof.
  unfold DeviceIOAdapter.OpenDevice, Open.
  cbn [DeviceIOAdapter.device_io_ DeviceIOAdapter.new DeviceIO_new is_open_
       ext_image_os single_file_os os_open device_fd_].
  rewrite String.eqb_refl. cbn [Z.geb Z.compare negb].
  match goal with
  | |- context [DetectFilesystem ?os ?st] =>
      rewrite (DetectFilesystem_depends os st ext_os ext_dev)
        by (intros; try rewrite ext_dev_state; reflexivity)
  end.
  rewrite ext_dev_detected. reflexivity.
Qed.

Lemma mock_group_count_le_10 bpg : (mock_group_count bpg <= 10)%nat.
Proof. unfold mock_group_count. lia. Qed.

Lemma count_deleted_samples fs k :
  DeviceIOAdapter.count_deleted (repeat (sample_of fs) k) = 0.
Proof.
  rewrite count_deleted_filter.
  pose proof (filter_deleted_samples fs k []) as H. simpl in H.
  now rewrite H.
Qed.

(** C6 (as amended). The 1 MiB image that is zero except for [0xEF53] at
    offset 1080, opened under any path, is detected as EXT4. The parse that
    follows does not read the image. It reports failure, with no entries
    and statistics (0, 0), when the path contains none of ["ext4"],
    ["sda"], ["nvme"]. Otherwise (with [blocks_per_group] not zero) it
    succeeds and emits one sample entry per walked block group: the adapter
    reports that number of files, none deleted, and the parser reports
    (1, 0) as soon as one group was walked. *)
Theorem ext_magic_image_outcome (path : string) (u : DeviceIOAdapter.Uninit) :
  fst (DeviceIOAdapter.OpenDevice (ext_image_os path) DeviceIOAdapter.new path)
  = Ok true
  /\ DeviceIOAdapter.DetectFilesystem (ext_image_os path)
       (opened_adapter (ext_image_os path) path) = Ok EXT4
  /\ (root_accepted EXT4 path = false ->
      exists a',
        open_and_parse (ext_image_os path) u path = Ok (Returns (false, a', []))
        /\ DeviceIOAdapter.GetRecoveryStats a' = (0, 0))
  /\ (root_accepted EXT4 path = true ->
      EXT4Parser.blocks_per_group (DeviceIOAdapter.uninit_ext4 u) <> 0 ->
      exists a' p',
        open_and_parse (ext_image_os path) u path
        = Ok (Returns
                (true, a',
                 repeat EXT4Parser.sample_file
                   (mock_group_count
                      (EXT4Parser.blocks_per_group (DeviceIOAdapter.uninit_ext4 u)))))
        /\ DeviceIOAdapter.GetRecoveryStats a'
           = (Z.of_nat (mock_group_count
                          (EXT4Parser.blocks_per_group
                             (DeviceIOAdapter.uninit_ext4 u))), 0)
        /\ DeviceIOAdapter.ext4_parser_ a' = Some p'
        /\ (mock_group_count
              (EXT4Parser.blocks_per_group (DeviceIOAdapter.uninit_ext4 u)) <> O ->
            EXT4Parser.GetRecoveryStats p' = (1, 0))).
Proof.
  unfold open_and_parse, opened_adapter. rewrite open_ext_image.
  cbn [fst snd].
  set (a := {| DeviceIOAdapter.device_io_ := _ |}).
  assert (Hopen : is_open_ (DeviceIOAdapter.device_io_ a) = true) by reflexivity.
  assert (Hfs : DeviceIOAdapter.DetectFilesystem (ext_image_os path) a = Ok EXT4).
  { unfold DeviceIOAdapter.DetectFilesystem. rewrite Hopen. cbn [negb].
    rewrite (DetectFilesystem_depends _ _ ext_os ext_dev)
      by (intros; try rewrite ext_dev_state; reflexivity).
    apply ext_dev_detected. }
  pose proof (ParseDevice_by_type (ext_image_os path) u a [] EXT4 Hopen Hfs)
    as Hspec.
  change (current_device_path_ (DeviceIOAdapter.device_io_ a)) with path in Hspec.
  split; [reflexivity |]. split; [exact Hfs |]. split.
  - intros Hrej. rewrite Hrej in Hspec.
    destruct Hspec as (a2 & -> & _ & Ht & Hd).
    exists a2. split; [reflexivity |].
    unfold DeviceIOAdapter.GetRecoveryStats. now rewrite Ht, Hd.
  - intros Hacc Hbpg. rewrite Hacc in Hspec.
    destruct (Z.eqb_spec (EXT4Parser.blocks_per_group
                            (DeviceIOAdapter.uninit_ext4 u)) 0);
      [contradiction |].
    destruct Hspec as (a2 & p' & -> & _ & Hp & Hstats).
    cbv zeta. cbn [app sample_of].
    eexists. exists p'. split; [reflexivity |].
    split; [| split; [exact Hp | exact Hstats]].
    unfold DeviceIOAdapter.GetRecoveryStats, DeviceIOAdapter.collect_statistics.
    cbn [DeviceIOAdapter.last_total_files_ DeviceIOAdapter.last_deleted_files_].
    rewrite repeat_length.
    pose proof (mock_group_count_le_10
                  (EXT4Parser.blocks_per_group (DeviceIOAdapter.uninit_ext4 u))).
    rewrite to_int32_small by lia.
    now rewrite (count_deleted_samples EXT4).
Qed.

(** Witness for C6: the image stored as [/tmp/ext4.img], with
    [blocks_per_group] holding 32768. *)
Lemma ext_magic_image_outcome_witness :
  exists a' p',
    open_and_parse (ext_image_os "/tmp/ext4.img") (uninit_with_bpg 32768)
      "/tmp/ext4.img"
    = Ok (Returns (true, a', repeat EXT4Parser.sample_file (mock_group_count 32768)))
    /\ DeviceIOAdapter.GetRecoveryStats a' = (Z.of_nat (mock_group_count 32768), 0)
    /\ DeviceIOAdapter.ext4_parser_ a' = Some p'
    /\ (mock_group_count 32768 <> O -> EXT4Parser.GetRecoveryStats p' = (1, 0)).
Proof.
  apply (ext_magic_image_outcome "/tmp/ext4.img" (uninit_with_bpg 32768));
    by_eval.
Defined.

(** Counterexample to C6 as stated. The image is detected as EXT4. Stored
    as [/tmp/test_device.bin] (the name used by the I/O tests) its parse
    reports failure; stored as [/tmp/ext4.img], with [blocks_per_group] at
    32768, its parse succeeds with 8 files reported by the adapter and 1 by
    the parser. In neither case does it succeed with a total of 0. *)
Lemma ext_magic_image_never_parses_to_zero :
  device_size_ ext_dev = 1048576
  /\ map ext_magic_image [0; 1079; 1080; 1081; 1082]
     = [Byte.x00; Byte.x00; Byte.x53; Byte.xef; Byte.x00]
  /\ DetectFilesystem ext_os ext_dev = Ok EXT4
  /\ (exists a',
         open_and_parse ext_os (uninit_with_bpg 32768) "/tmp/test_device.bin"
         = Ok (Returns (false, a', [])))
  /\ (exists a' entries',
         open_and_parse ext4_img_os (uninit_with_bpg 32768) "/tmp/ext4.img"
         = Ok (Returns (true, a', entries'))
         /\ DeviceIOAdapter.GetRecoveryStats a' = (8, 0)
         /\ option_map EXT4Parser.GetRecoveryStats
              (DeviceIOAdapter.ext4_parser_ a') = Some (1, 0)).
Proof.
  split; [by_eval |]. split; [by_eval |]. split; [by_eval |]. split.
  - eexists. vm_compute. reflexivity.
  - eexists. eexists. split; [vm_compute; reflexivity |]. split; by_eval.
Qed.

(** ** Further properties of the device layer *)

Lemma Close_closes os st : is_open_ (snd (Close os st)) = false.
Proof.
  unfold Close. destruct (is_open_ st) eqn:H; simpl; [reflexivity | exact H].
Qed.

(** X1. [Close] is idempotent: after [Close] the handle is closed, a
    second [Close] returns [true] and changes nothing, and [Close] on a
    handle that was never opened is a successful no-op. *)
Theorem close_idempotent (os : OS) (st : DeviceIO) :
  is_open_ (snd (Close os st)) = false
  /\ Close os (snd (Close os st)) = (true, snd (Close os st))
  /\ Close os DeviceIO_new = (true, DeviceIO_new).
Proof.
  pose proof (Close_closes os st) as Hc.
  split; [exact Hc |]. split; [| reflexivity].
  unfold Close at 1. now rewrite Hc.
Qed.

(** X2. Every read on a closed handle fails with "Device not open",
    before any other check, and detection on a closed handle answers
    [UNKNOWN]. *)
Theorem read_after_close_fails
        (os : OS) (st : DeviceIO) (offset size : Z) (buffer_null : bool) :
  ReadBlock os (snd (Close os st)) offset size buffer_null = Throw DeviceNotOpen
  /\ ReadBlock os DeviceIO_new offset size buffer_null = Throw DeviceNotOpen
  /\ DetectFilesystem os (snd (Close os st)) = Ok UNKNOWN.
Proof.
  pose proof (Close_closes os st) as Hc.
  assert (Hrb : forall o l b,
             ReadBlock os (snd (Close os st)) o l b = Throw DeviceNotOpen).
  { intros o l b. unfold ReadBlock. now rewrite Hc. }
  assert (Hrbv : forall o l, throws (ReadBlockVector os (snd (Close os st)) o l) = true).
  { intros o l. unfold ReadBlockVector.
    destruct (l >? vector_max_size); [reflexivity |].
    destruct ((0 <? l) && negb (os_alloc os l)); [reflexivity |].
    now rewrite Hrb. }
  split; [apply Hrb |]. split; [reflexivity |].
  unfold DetectFilesystem, DetectNTFS, DetectEXT4, DetectAPFS, DetectFAT32,
    DetectHFSPlus.
  now rewrite !try_catch_failed_read by apply Hrbv.
Qed.

(** X3. The two conversions between [FilesystemType] and its name are
    inverse to each other on the enumeration. *)
Theorem filesystem_type_name_roundtrip (fs_type : FilesystemType) :
  StringToFilesystemType (FilesystemTypeToString fs_type) = fs_type.
Proof. destruct fs_type; reflexivity. Qed.

Lemma land_1_eqb_1 z : (Z.land z 1 =? 1) = Z.testbit z 0.
Proof.
  change (Z.land z 1) with (Z.land z (Z.ones 1)). rewrite Z.land_ones by lia.
  change (2 ^ 1) with 2. rewrite <- Z.bit0_mod.
  destruct (Z.testbit z 0); reflexivity.
Qed.

(** X4. The APFS deletion predicate: for a buffer of at least 8 bytes the
    inode is classified as deleted exactly when bit 0 of the 16-bit
    little-endian flags at offset 0x06 is set; a shorter buffer is "not
    deleted". *)
Theorem apfs_deletion_predicate (data : list byte) :
  ((0x08 <= length data)%nat ->
   (APFSParser.IsInodeDeleted data = true
    <-> Z.testbit (field_u16 data 0x06) 0 = true))
  /\ ((length data < 0x08)%nat -> APFSParser.IsInodeDeleted data = false).
Proof.
  split; intros Hlen; unfold APFSParser.IsInodeDeleted.
  - destruct (Nat.ltb_spec (length data) 0x08); [lia |].
    rewrite read_u16_field by lia. rewrite land_1_eqb_1. reflexivity.
  - destruct (Nat.ltb_spec (length data) 0x08); [reflexivity | lia].
Qed.

(** Witness for X4. *)
Lemma apfs_deletion_predicate_witness :
  APFSParser.IsInodeDeleted apfs_flagged_inode = true
  /\ APFSParser.IsInodeDeleted (repeat zero_byte 4) = false.
Proof.
  split.
  - apply (apfs_deletion_predicate apfs_flagged_inode); by_eval.
  - apply (apfs_deletion_predicate (repeat zero_byte 4)); by_eval.
Defined.

(** ** Further properties of a parse pass *)

(** A second pass of a parser after a successful one. The two passes find
    their own indeterminate root-block objects, [un1] and [un2]. *)
Lemma NTFS_Parse_again un1 un2 p path entries p' entries' :
  NTFSParser.Parse un1 p path entries = (true, p', entries') ->
  entries' = entries ++ [NTFSParser.sample_file]
  /\ forall entries2, NTFSParser.Parse un2 p' path entries2
                      = (true, p', entries2 ++ [NTFSParser.sample_file]).
Proof.
  unfold NTFSParser.Parse. destruct path as [| c path']; [discriminate |].
  cbn [str_empty]. unfold NTFSParser.ReadBootSector.
  destruct (str_contains "NTFS" (String c path') || str_contains "C:" (String c path'));
    [| discriminate].
  cbn. intros H. injection H as <- <-. split; reflexivity.
Qed.

Lemma APFS_Parse_again un1 un2 p path entries p' entries' :
  APFSParser.Parse un1 p path entries = (true, p', entries') ->
  entries' = entries ++ [APFSParser.sample_file]
  /\ forall entries2, APFSParser.Parse un2 p' path entries2
                      = (true, p', entries2 ++ [APFSParser.sample_file]).
Proof.
  unfold APFSParser.Parse. destruct path as [| c path']; [discriminate |].
  cbn [str_empty]. unfold APFSParser.ReadContainerSuperblock.
  destruct (str_contains "APFS" (String c path') || str_contains "Data" (String c path'));
    [| discriminate].
  cbn. intros H. injection H as <- <-. split; reflexivity.
Qed.

Lemma EXT4_Parse_again un1 un2 p path entries p' entries' :
  EXT4Parser.Parse un1 p path entries = Returns (true, p', entries') ->
  entries' = entries ++ repeat EXT4Parser.sample_file
                          (mock_group_count (EXT4Parser.blocks_per_group un1))
  /\ forall entries2,
      if EXT4Parser.blocks_per_group un2 =? 0
      then EXT4Parser.Parse un2 p' path entries2 = DivisionByZero
      else
        (exists p2,
            EXT4Parser.Parse un2 p' path entries2
            = Returns (true, p2,
                       entries2 ++ repeat EXT4Parser.sample_file
                                     (mock_group_count
                                        (EXT4Parser.blocks_per_group un2))))
        /\ (mock_group_count (EXT4Parser.blocks_per_group un2)
            = mock_group_count (EXT4Parser.blocks_per_group un1) ->
            EXT4Parser.Parse un2 p' path entries2
            = Returns (true, p',
                       entries2 ++ repeat EXT4Parser.sample_file
                                     (mock_group_count
                                        (EXT4Parser.blocks_per_group un1)))).
Proof.
  unfold EXT4Parser.Parse. destruct path as [| c path']; [discriminate |].
  cbn [str_empty]. unfold EXT4Parser.ReadSuperblock.
  destruct (str_contains "ext4" (String c path') || str_contains "sda" (String c path')
            || str_contains "nvme" (String c path')); [| discriminate].
  cbn [negb]. unfold EXT4Parser.ParseGroupDescriptors.
  cbn [EXT4Parser.blocks_per_group EXT4Parser.blocks_count].
  destruct (EXT4Parser.blocks_per_group un1 =? 0); [discriminate |].
  cbn [negb]. rewrite !parse_groups_spec, !repeat_length.
  fold (mock_group_count (EXT4Parser.blocks_per_group un1)).
  intros H. injection H as <- <-. split; [reflexivity |]. intros entries2.
  destruct (EXT4Parser.blocks_per_group un2 =? 0); [reflexivity |].
  cbn [negb]. rewrite parse_groups_spec, repeat_length.
  fold (mock_group_count (EXT4Parser.blocks_per_group un2)).
  split; [eexists; reflexivity |].
  intros ->.
  destruct (mock_group_count (EXT4Parser.blocks_per_group un1)); reflexivity.
Qed.

(** X5. A second pass over the same unmodified device, through the same
    adapter and again into an empty vector, after a pass that succeeded.
    Each call of a parser finds its own indeterminate root-block object
    ([u1] in the first pass, [u2] in the second). For an NTFS or APFS
    device the second pass returns the same entries in the same order and
    leaves every counter of the adapter and of the parser as the first pass
    left it. For an EXT4 device this holds when the [blocks_per_group] found
    by the second pass gives the same number of block groups; with another
    non-zero value the second pass succeeds with that value's number of
    sample entries, and with zero it divides by zero. *)
Theorem parse_twice_same_catalog
        (os : OS) (u1 u2 : DeviceIOAdapter.Uninit) (a a' : DeviceIOAdapter.t)
        (entries' : list FileEntry) :
  DeviceIOAdapter.ParseDevice os u1 a [] = Ok (Returns (true, a', entries')) ->
  match DeviceIOAdapter.DetectFilesystem os a with
  | Ok EXT4 =>
      entries'
      = repeat EXT4Parser.sample_file
          (mock_group_count
             (EXT4Parser.blocks_per_group (DeviceIOAdapter.uninit_ext4 u1)))
      /\ if EXT4Parser.blocks_per_group (DeviceIOAdapter.uninit_ext4 u2) =? 0
         then DeviceIOAdapter.ParseDevice os u2 a' [] = Ok DivisionByZero
         else
           (exists a2,
               DeviceIOAdapter.ParseDevice os u2 a' []
               = Ok (Returns
                       (true, a2,
                        repeat EXT4Parser.sample_file
                          (mock_group_count
                             (EXT4Parser.blocks_per_group
                                (DeviceIOAdapter.uninit_ext4 u2))))))
           /\ (mock_group_count
                 (EXT4Parser.blocks_per_group (DeviceIOAdapter.uninit_ext4 u2))
               = mock_group_count
                   (EXT4Parser.blocks_per_group (DeviceIOAdapter.uninit_ext4 u1)) ->
               DeviceIOAdapter.ParseDevice os u2 a' []
               = Ok (Returns (true, a', entries')))
  | _ =>
      DeviceIOAdapter.ParseDevice os u2 a' [] = Ok (Returns (true, a', entries'))
  end.
Proof.
  intros H. unfold DeviceIOAdapter.ParseDevice in H.
  destruct (is_open_ (DeviceIOAdapter.device_io_ a)) eqn:Hopen; [| discriminate].
  cbn [negb] in H.
  destruct (DeviceIOAdapter.DetectFilesystem os a) as [fs |] eqn:Hfs;
    [| discriminate].
  cbn [bind] in H.
  assert (Hdet : forall a2,
             DeviceIOAdapter.device_io_ a2 = DeviceIOAdapter.device_io_ a ->
             DeviceIOAdapter.DetectFilesystem os a2 = Ok fs).
  { intros a2 Hio. unfold DeviceIOAdapter.DetectFilesystem in *.
    now rewrite Hio. }
  destruct fs; try discriminate;
    cbn [DeviceIOAdapter.InitializeParser negb] in H.
  - unfold DeviceIOAdapter.ParseNTFS in H.
    cbn [DeviceIOAdapter.ntfs_parser_ DeviceIOAdapter.device_io_] in H.
    destruct (DeviceIOAdapter.ntfs_parser_ a) as [p0 |].
    all: match type of H with
         | context [NTFSParser.Parse ?un ?p ?path ?es] =>
             destruct (NTFSParser.Parse un p path es) as [[r p'] es'] eqn:Hp
         end.
    all: destruct r; [| discriminate].
    all: destruct (NTFS_Parse_again _ (DeviceIOAdapter.uninit_ntfs u2)
                     _ _ _ _ _ Hp) as [-> Hagain].
    all: injection H as <- <-.
    all: unfold DeviceIOAdapter.ParseDevice.
    all: cbn [DeviceIOAdapter.collect_statistics DeviceIOAdapter.device_io_].
    all: rewrite Hopen, Hdet by reflexivity; cbn [negb bind].
    all: cbn [DeviceIOAdapter.InitializeParser negb DeviceIOAdapter.ntfs_parser_].
    all: unfold DeviceIOAdapter.ParseNTFS.
    all: cbn [DeviceIOAdapter.ntfs_parser_ DeviceIOAdapter.device_io_].
    all: rewrite Hagain; reflexivity.
  - unfold DeviceIOAdapter.ParseAPFS in H.
    cbn [DeviceIOAdapter.apfs_parser_ DeviceIOAdapter.device_io_] in H.
    destruct (DeviceIOAdapter.apfs_parser_ a) as [p0 |].
    all: match type of H with
         | context [APFSParser.Parse ?un ?p ?path ?es] =>
             destruct (APFSParser.Parse un p path es) as [[r p'] es'] eqn:Hp
         end.
    all: destruct r; [| discriminate].
    all: destruct (APFS_Parse_again _ (DeviceIOAdapter.uninit_apfs u2)
                     _ _ _ _ _ Hp) as [-> Hagain].
    all: injection H as <- <-.
    all: unfold DeviceIOAdapter.ParseDevice.
    all: cbn [DeviceIOAdapter.collect_statistics DeviceIOAdapter.device_io_].
    all: rewrite Hopen, Hdet by reflexivity; cbn [negb bind].
    all: cbn [DeviceIOAdapter.InitializeParser negb DeviceIOAdapter.apfs_parser_].
    all: unfold DeviceIOAdapter.ParseAPFS.
    all: cbn [DeviceIOAdapter.apfs_parser_ DeviceIOAdapter.device_io_].
    all: rewrite Hagain; reflexivity.
  - unfold DeviceIOAdapter.ParseEXT4 in H.
    cbn [DeviceIOAdapter.ext4_parser_ DeviceIOAdapter.device_io_] in H.
    destruct (DeviceIOAdapter.ext4_parser_ a) as [p0 |].
    all: match type of H with
         | context [EXT4Parser.Parse ?un ?p ?path ?es] =>
             destruct (EXT4Parser.Parse un p path es) as [[[r p'] es'] |] eqn:Hp
         end; [| discriminate].
    all: destruct r; [| discriminate].
    all: destruct (EXT4_Parse_again _ (DeviceIOAdapter.uninit_ext4 u2)
                     _ _ _ _ _ Hp) as [-> Hagain].
    all: injection H as <- <-.
    all: split; [reflexivity |].
    all: specialize (Hagain []).
    all: unfold DeviceIOAdapter.ParseDevice.
    all: cbn [DeviceIOAdapter.collect_statistics DeviceIOAdapter.device_io_].
    all: rewrite Hopen, Hdet by reflexivity; cbn [negb bind].
    all: cbn [DeviceIOAdapter.InitializeParser negb DeviceIOAdapter.ext4_parser_].
    all: unfold DeviceIOAdapter.ParseEXT4.
    all: cbn [DeviceIOAdapter.ext4_parser_ DeviceIOAdapter.device_io_].
    all: destruct (EXT4Parser.blocks_per_group (DeviceIOAdapter.uninit_ext4 u2)
                   =? 0);
      [now rewrite Hagain |].
    all: destruct Hagain as [[p2 Hp2] Hsame].
    all: split;
      [rewrite Hp2; eexists; reflexivity
      | intros Hk; rewrite (Hsame Hk); reflexivity].
Qed.

(** Witness for X5: the EXT image opened as [/dev/sda1]. The first pass
    finds 32768 blocks per group and emits eight entries; a second pass
    that finds 32768 again repeats it, one that finds 65536 emits four. *)
Lemma parse_twice_same_catalog_witness :
  exists a' entries',
    DeviceIOAdapter.ParseDevice sda_os (uninit_with_bpg 32768)
      (opened_adapter sda_os "/dev/sda1") []
    = Ok (Returns (true, a', entries'))
    /\ length entries' = 8%nat
    /\ DeviceIOAdapter.ParseDevice sda_os (uninit_with_bpg 32768) a' []
       = Ok (Returns (true, a', entries'))
    /\ exists a2,
        DeviceIOAdapter.ParseDevice sda_os (uninit_with_bpg 65536) a' []
        = Ok (Returns (true, a2, repeat EXT4Parser.sample_file 4)).
Proof.
  eexists. eexists.
  assert (Hfs : DeviceIOAdapter.DetectFilesystem sda_os
                  (opened_adapter sda_os "/dev/sda1") = Ok EXT4)
    by (vm_compute; reflexivity).
  split; [vm_compute; reflexivity |]. split; [reflexivity |]. split.
  - pose proof (parse_twice_same_catalog sda_os (uninit_with_bpg 32768)
                  (uninit_with_bpg 32768) (opened_adapter sda_os "/dev/sda1")
                  _ _ ltac:(vm_compute; reflexivity)) as H.
    rewrite Hfs in H. destruct H as [_ H].
    change (EXT4Parser.blocks_per_group
              (DeviceIOAdapter.uninit_ext4 (uninit_with_bpg 32768)) =? 0)
      with false in H.
    apply H. reflexivity.
  - pose proof (parse_twice_same_catalog sda_os (uninit_with_bpg 32768)
                  (uninit_with_bpg 65536) (opened_adapter sda_os "/dev/sda1")
                  _ _ ltac:(vm_compute; reflexivity)) as H.
    rewrite Hfs in H. destruct H as [_ H].
    change (EXT4Parser.blocks_per_group
              (DeviceIOAdapter.uninit_ext4 (uninit_with_bpg 65536)) =? 0)
      with false in H.
    exact (proj1 H).
Defined.

(** X6. A pass that reports failure adds nothing to the caller's vector
    and leaves the adapter's statistics as they were. *)
Theorem failed_parse_adds_no_entries
        (os : OS) (u : DeviceIOAdapter.Uninit) (a a' : DeviceIOAdapter.t)
        (entries entries' : list FileEntry) :
  DeviceIOAdapter.ParseDevice os u a entries = Ok (Returns (false, a', entries')) ->
  entries' = entries
  /\ DeviceIOAdapter.GetRecoveryStats a' = DeviceIOAdapter.GetRecoveryStats a.
Proof.
  intros H. unfold DeviceIOAdapter.ParseDevice in H.
  destruct (is_open_ (DeviceIOAdapter.device_io_ a)) eqn:Hopen;
    [| injection H as <- <-; split; reflexivity].
  cbn [negb] in H.
  destruct (DeviceIOAdapter.DetectFilesystem os a) as [fs |] eqn:Hfs;
    [| discriminate].
  cbn [bind] in H.
  destruct fs; cbn [DeviceIOAdapter.InitializeParser negb] in H;
    try (injection H as <- <-; split; reflexivity).
  - unfold DeviceIOAdapter.ParseNTFS in H.
    cbn [DeviceIOAdapter.ntfs_parser_ DeviceIOAdapter.device_io_] in H.
    destruct (DeviceIOAdapter.ntfs_parser_ a) as [p0 |].
    all: match type of H with
         | context [NTFSParser.Parse ?un ?p ?path ?es] =>
             destruct (NTFS_Parse_spec un p path es) as [p' Hp]
         end; rewrite Hp in H.
    all: destruct (root_accepted NTFS _); [discriminate |].
    all: injection H as <- <-; split; reflexivity.
  - unfold DeviceIOAdapter.ParseAPFS in H.
    cbn [DeviceIOAdapter.apfs_parser_ DeviceIOAdapter.device_io_] in H.
    destruct (DeviceIOAdapter.apfs_parser_ a) as [p0 |].
    all: match type of H with
         | context [APFSParser.Parse ?un ?p ?path ?es] =>
             destruct (APFS_Parse_spec un p path es) as [p' Hp]
         end; rewrite Hp in H.
    all: destruct (root_accepted APFS _); [discriminate |].
    all: injection H as <- <-; split; reflexivity.
  - unfold DeviceIOAdapter.ParseEXT4 in H.
    cbn [DeviceIOAdapter.ext4_parser_ DeviceIOAdapter.device_io_] in H.
    destruct (root_accepted EXT4
                (current_device_path_ (DeviceIOAdapter.device_io_ a))) eqn:Hacc.
    + destruct (DeviceIOAdapter.ext4_parser_ a) as [p0 |].
      all: match type of H with
           | context [EXT4Parser.Parse ?un ?p ?path ?es] =>
               destruct (EXT4Parser.Parse un p path es) as [[[r p'] es'] |] eqn:Hp
           end; [| discriminate].
      all: destruct r; [discriminate |].
      all: exfalso; revert Hp; unfold EXT4Parser.Parse;
        rewrite (str_empty_rejected EXT4 _ Hacc);
        unfold EXT4Parser.ReadSuperblock; simpl in Hacc; rewrite Hacc;
        cbn [negb]; unfold EXT4Parser.ParseGroupDescriptors;
        destruct (_ =? 0); [discriminate |]; cbn [negb];
        rewrite parse_groups_spec; discriminate.
    + destruct (DeviceIOAdapter.ext4_parser_ a) as [p0 |].
      all: match type of H with
           | context [EXT4Parser.Parse ?un ?p ?path ?es] =>
               destruct (EXT4_Parse_rejected un p path es Hacc) as (p' & Hp & _)
           end; rewrite Hp in H.
      all: injection H as <- <-; split; reflexivity.
Qed.

(** Witness for X6: the EXT image under a name the parser rejects. *)
Lemma failed_parse_adds_no_entries_witness :
  exists a',
    DeviceIOAdapter.ParseDevice ext_os (uninit_with_bpg 32768)
      (opened_adapter ext_os "/tmp/test_device.bin") []
    = Ok (Returns (false, a', []))
    /\ DeviceIOAdapter.GetRecoveryStats a'
       = DeviceIOAdapter.GetRecoveryStats
           (opened_adapter ext_os "/tmp/test_device.bin").
Proof.
  eexists. split; [vm_compute; reflexivity |].
  eapply (failed_parse_adds_no_entries ext_os (uninit_with_bpg 32768)
            (opened_adapter ext_os "/tmp/test_device.bin") _ [] []).
  vm_compute. reflexivity.
Defined.

(** ** Open, Close and the device information *)

(** What [Open] returns and leaves behind when the platform opens the
    path: the recorded type is the one that detection yields on the
    resulting state. *)
Lemma Open_success os st path :
  0 <= os_open os path ->
  exists fs,
    Open os st path
    = (Ok true,
       {| device_fd_ := os_open os path;
          current_device_path_ := path;
          device_size_ := recorded_size (os_file os (os_open os path));
          sector_size_ := sector_size_ st;
          detected_fs_ := fs;
          is_open_ := true |})
    /\ DetectFilesystem os
         {| device_fd_ := os_open os path;
            current_device_path_ := path;
            device_size_ := recorded_size (os_file os (os_open os path));
            sector_size_ := sector_size_ st;
            detected_fs_ := fs;
            is_open_ := true |}
       = Ok fs.
Proof.
  intros Hfd. unfold Open. cbv zeta. cbn [device_fd_].
  destruct (Z.geb_spec (os_open os path) 0) as [_ | Hneg]; [| lia]. cbn [negb].
  unfold GetSizeImpl.
  cbn [device_fd_ sector_size_ current_device_path_ device_size_ is_open_].
  destruct (Z.ltb_spec (os_open os path) 0) as [Hneg | _]; [lia |].
  fold (recorded_size (os_file os (os_open os path))).
  assert (Hss : sector_size_ (if is_open_ st then snd (Close os st) else st)
                = sector_size_ st).
  { unfold Close. destruct (is_open_ st); reflexivity. }
  rewrite Hss.
  match goal with
  | |- context [DetectFilesystem os ?s] =>
      destruct (DetectFilesystem_total os s) as [fs Hfs]; rewrite Hfs
  end.
  exists fs. split; [reflexivity |].
  rewrite <- Hfs. apply DetectFilesystem_depends; reflexivity.
Qed.

(** What [Open] throws and leaves behind when the platform refuses the
    path. *)
Lemma Open_failure os st path :
  os_open os path < 0 ->
  Open os st path
  = (Throw (FailedToOpenDevice path),
     {| device_fd_ := os_open os path;
        current_device_path_ := current_device_path_ st;
        device_size_ := device_size_ st;
        sector_size_ := sector_size_ st;
        detected_fs_ := detected_fs_ st;
        is_open_ := false |}).
Proof.
  intros Hfd. unfold Open. cbv zeta. cbn [device_fd_].
  destruct (Z.geb_spec (os_open os path) 0) as [Hge | _]; [lia |]. cbn [negb].
  unfold Close. destruct (is_open_ st) eqn:Hopen; cbn [negb snd];
    cbn [current_device_path_ device_size_ sector_size_ detected_fs_ is_open_];
    rewrite ?Hopen; reflexivity.
Qed.

Lemma name_of_type_roundtrip fs :
  StringToFilesystemType (FilesystemTypeToString fs) = fs.
Proof. destruct fs; reflexivity. Qed.

(** X7. [DeviceIOAdapter::OpenDevice] never throws: it returns [true]
    exactly when the platform's [open] yields a descriptor and [false]
    otherwise; [IsDeviceOpen] afterwards is the returned flag, and the
    statistics of the last parse are kept. After a successful call the type
    that the adapter's [DetectFilesystem] returns, by which [ParseDevice]
    chooses the parser, is the type that [GetDeviceInfo] reports. *)
Theorem adapter_open_reports_platform_open
        (os : OS) (a : DeviceIOAdapter.t) (path : string) :
  fst (DeviceIOAdapter.OpenDevice os a path) = Ok (0 <=? os_open os path)
  /\ DeviceIOAdapter.IsDeviceOpen (snd (DeviceIOAdapter.OpenDevice os a path))
     = (0 <=? os_open os path)
  /\ DeviceIOAdapter.GetRecoveryStats
       (snd (DeviceIOAdapter.OpenDevice os a path))
     = DeviceIOAdapter.GetRecoveryStats a
  /\ (0 <= os_open os path ->
      DeviceIOAdapter.DetectFilesystem os
        (snd (DeviceIOAdapter.OpenDevice os a path))
      = Ok (filesystem_type
              (DeviceIOAdapter.GetDeviceInfo
                 (snd (DeviceIOAdapter.OpenDevice os a path))))).
Proof.
  unfold DeviceIOAdapter.OpenDevice.
  destruct (Z.leb_spec 0 (os_open os path)) as [Hfd | Hfd].
  - destruct (Open_success os (DeviceIOAdapter.device_io_ a) path Hfd)
      as (fs & -> & Hdet).
    split_conj; try reflexivity. intros _.
    unfold DeviceIOAdapter.DetectFilesystem. cbn. exact Hdet.
  - rewrite (Open_failure os (DeviceIOAdapter.device_io_ a) path Hfd).
    split_conj; try reflexivity. lia.
Qed.

(** Witness for X7: the NTFS image opened through a fresh adapter. *)
Lemma adapter_open_reports_platform_open_witness :
  0 <= os_open ntfs_good_os "/mnt/NTFS.img"
  /\ DeviceIOAdapter.DetectFilesystem ntfs_good_os
       (snd (DeviceIOAdapter.OpenDevice ntfs_good_os DeviceIOAdapter.new
               "/mnt/NTFS.img"))
     = Ok (filesystem_type
             (DeviceIOAdapter.GetDeviceInfo
                (snd (DeviceIOAdapter.OpenDevice ntfs_good_os
                        DeviceIOAdapter.new "/mnt/NTFS.img"))))
  /\ fst (DeviceIOAdapter.OpenDevice ntfs_good_os DeviceIOAdapter.new
            "/mnt/NTFS.img")
     = Ok true.
Proof.
  split; [by_eval |]. split; [| by_eval].
  apply (adapter_open_reports_platform_open ntfs_good_os DeviceIOAdapter.new
           "/mnt/NTFS.img").
  by_eval.
Defined.

(** X8. After an [Open] on a path that the platform opens, whatever the
    handle held before: the call returned [true]; [GetDeviceInfo] reports
    that path, the open flag, the size recorded for the descriptor
    ([BLKGETSIZE64], else the end offset found by [lseek], as a [uint64_t])
    and the sector size the handle already had; the reported filesystem
    type is what [DetectFilesystem] returns on the handle now, and the
    reported name is the name of that type and converts back to it. *)
Theorem device_info_after_open (os : OS) (st : DeviceIO) (path : string) :
  0 <= os_open os path ->
  fst (Open os st path) = Ok true
  /\ device_path (GetDeviceInfo (snd (Open os st path))) = path
  /\ is_open (GetDeviceInfo (snd (Open os st path))) = true
  /\ total_bytes (GetDeviceInfo (snd (Open os st path)))
     = recorded_size (os_file os (os_open os path))
  /\ sector_size (GetDeviceInfo (snd (Open os st path))) = GetSectorSize st
  /\ DetectFilesystem os (snd (Open os st path))
     = Ok (filesystem_type (GetDeviceInfo (snd (Open os st path))))
  /\ filesystem_name (GetDeviceInfo (snd (Open os st path)))
     = FilesystemTypeToString
         (filesystem_type (GetDeviceInfo (snd (Open os st path))))
  /\ StringToFilesystemType
       (filesystem_name (GetDeviceInfo (snd (Open os st path))))
     = filesystem_type (GetDeviceInfo (snd (Open os st path))).
Proof.
  intros Hfd. destruct (Open_success os st path Hfd) as (fs & -> & Hdet).
  cbn [fst snd]. unfold GetDeviceInfo, GetSectorSize.
  cbn [device_path is_open total_bytes sector_size filesystem_type
       filesystem_name current_device_path_ device_size_ sector_size_
       detected_fs_ is_open_].
  split_conj; try reflexivity; [exact Hdet | apply name_of_type_roundtrip].
Qed.

(** Witness for X8: the EXT image opened through a fresh handle. *)
Lemma device_info_after_open_witness :
  0 <= os_open ext_os "/tmp/test_device.bin"
  /\ DetectFilesystem ext_os
       (snd (Open ext_os DeviceIO_new "/tmp/test_device.bin"))
     = Ok (filesystem_type
             (GetDeviceInfo
                (snd (Open ext_os DeviceIO_new "/tmp/test_device.bin"))))
  /\ filesystem_type
       (GetDeviceInfo (snd (Open ext_os DeviceIO_new "/tmp/test_device.bin")))
     = EXT4.
Proof.
  split; [by_eval |]. split; [| by_eval].
  apply (device_info_after_open ext_os DeviceIO_new "/tmp/test_device.bin").
  by_eval.
Defined.

(** X9. [Close] and a refused [Open] clear the open flag and nothing
    else that [GetDeviceInfo] reports: the path, size, sector size and
    filesystem type of the device that was open before stay in place. The
    same holds for [CloseDevice] of the adapter. *)
Theorem device_info_survives_close
        (os : OS) (st : DeviceIO) (a : DeviceIOAdapter.t) (path : string) :
  GetDeviceInfo (snd (Close os st)) = closed_info (GetDeviceInfo st)
  /\ (os_open os path < 0 ->
      GetDeviceInfo (snd (Open os st path)) = closed_info (GetDeviceInfo st))
  /\ DeviceIOAdapter.GetDeviceInfo (snd (DeviceIOAdapter.CloseDevice os a))
     = closed_info (DeviceIOAdapter.GetDeviceInfo a).
Proof.
  assert (Hclose : forall s,
             GetDeviceInfo (snd (Close os s)) = closed_info (GetDeviceInfo s)).
  { intros s. unfold Close, GetDeviceInfo, closed_info.
    destruct (is_open_ s) eqn:Hopen; cbn; rewrite ?Hopen; reflexivity. }
  split; [apply Hclose |]. split.
  - intros Hfd. rewrite (Open_failure os st path Hfd). reflexivity.
  - unfold DeviceIOAdapter.CloseDevice, DeviceIOAdapter.GetDeviceInfo.
    pose proof (Hclose (DeviceIOAdapter.device_io_ a)) as H.
    destruct (Close os (DeviceIOAdapter.device_io_ a)) as [r d].
    exact H.
Qed.

(** Witness for X9: with [/dev/sda1] open, an [Open] of a path that does
    not exist leaves the handle closed and still describing [/dev/sda1]. *)
Lemma device_info_survives_close_witness :
  os_open two_os "/dev/none" < 0
  /\ GetDeviceInfo (snd (Open two_os first_session "/dev/none"))
     = closed_info (GetDeviceInfo first_session)
  /\ device_path (closed_info (GetDeviceInfo first_session))
     = "/dev/sda1"%string.
Proof.
  split; [by_eval |]. split; [| by_eval].
  apply (device_info_survives_close two_os first_session DeviceIOAdapter.new
           "/dev/none").
  by_eval.
Defined.

(** X10. A vector read of zero bytes never succeeds: the empty vector
    has no storage, so [ReadBlock] is handed a null pointer and throws
    "Buffer pointer is null" on an open handle ("Device not open" on a
    closed one), whatever the offset. *)
Theorem empty_vector_read_throws (os : OS) (st : DeviceIO) (offset : Z) :
  ReadBlockVector os st offset 0
  = Throw (if is_open_ st then BufferPointerIsNull else DeviceNotOpen).
Proof.
  unfold ReadBlockVector, ReadBlock. cbn.
  destruct (is_open_ st); reflexivity.
Qed.

(** ** The probes and the bytes of the medium *)

(** A window of a successful vector read is the window of the medium. *)
Lemma ReadBlockVector_slice os st offset size v off n :
  ReadBlockVector os st offset size = Ok v ->
  (off + n <= length v)%nat -> Z.of_nat (off + n) <= size ->
  slice v off n
  = dev_bytes (os_file os (device_fd_ st)) (offset + Z.of_nat off) n.
Proof.
  intros Hv Hlen Hsize.
  apply (nth_ext _ _ zero_byte zero_byte).
  - rewrite length_slice, length_dev_bytes by exact Hlen. reflexivity.
  - intros j Hj. rewrite length_slice in Hj by exact Hlen.
    rewrite nth_slice by exact Hj.
    rewrite (ReadBlockVector_nth os st offset size v (off + j) Hv) by lia.
    rewrite nth_dev_bytes by exact Hj. f_equal. lia.
Qed.

(** Comparing two little-endian values of the same width is comparing
    their bytes. *)
Lemma le_combine_eqb (l m : list byte) :
  length l = length m -> (le_combine l =? le_combine m) = bytes_eqb l m.
Proof.
  intros Hlen. unfold bytes_eqb.
  destruct (list_eq_dec Byte.byte_eq_dec l m) as [-> | Hne].
  - apply Z.eqb_refl.
  - apply Z.eqb_neq. intros H. apply Hne. now apply le_combine_inj.
Qed.

Lemma bytes_eqb_true a b : bytes_eqb a b = true <-> a = b.
Proof.
  split; [apply bytes_eqb_eq |]. intros ->. unfold bytes_eqb.
  destruct (list_eq_dec Byte.byte_eq_dec b b); [reflexivity | contradiction].
Qed.

Lemma slice_1 data off :
  (off + 1 <= length data)%nat -> slice data off 1 = [nth off data zero_byte].
Proof.
  intros H. pose proof (length_slice data off 1 H) as Hlen.
  pose proof (nth_slice data off 1 0) as H0.
  destruct (slice data off 1) as [| a [| b l]]; try discriminate.
  simpl in H0. rewrite Nat.add_0_r in H0. now rewrite <- H0 by lia.
Qed.

Lemma unsigned_first_byte data :
  (1 <= length data)%nat ->
  byte.unsigned (nth 0 data zero_byte) = le_combine (slice data 0 1).
Proof.
  intros H. rewrite slice_1 by exact H.
  rewrite le_combine_cons, le_combine_nil. lia.
Qed.

Section ProbeBytes.

Variable os : OS.
Variable st : DeviceIO.

(** A probe of the form "read a window, give up when fewer than [n] bytes
    came back, else test the bytes". *)
Lemma probe_window offset size n (body : list byte -> bool) (exact : bool) :
  (forall v, ReadBlockVector os st offset size = Ok v ->
             (n <= length v)%nat -> body v = exact) ->
  try_catch (v <- ReadBlockVector os st offset size ;;
             if (length v <? n)%nat then Ok false else Ok (body v))
            (fun _ => Ok false)
  = Ok (reads_at_least os st offset size n && exact).
Proof.
  intros H. unfold reads_at_least, try_catch, bind.
  destruct (ReadBlockVector os st offset size) as [v |] eqn:Hv; [| reflexivity].
  destruct (Nat.ltb_spec (length v) n) as [Hlt | Hge];
    destruct (Nat.leb_spec n (length v)); try lia; [reflexivity |].
  simpl. now rewrite (H v).
Qed.

Lemma DetectNTFS_bytes :
  DetectNTFS os st
  = Ok (reads_at_least os st 0 512 512
        && bytes_eqb (dev_bytes (os_file os (device_fd_ st)) 3 8) ntfs_sig).
Proof.
  unfold DetectNTFS.
  apply (probe_window 0 512 512 (fun v => bytes_eqb (slice v 3 8) ntfs_sig)).
  intros v Hv Hlen.
  now rewrite (ReadBlockVector_slice os st 0 512 v 3 8 Hv) by lia.
Qed.

Lemma DetectEXT4_bytes :
  DetectEXT4 os st
  = Ok (reads_at_least os st 1024 256 120
        && bytes_eqb (dev_bytes (os_file os (device_fd_ st)) 1080 2)
                     ext_magic_bytes).
Proof.
  unfold DetectEXT4.
  apply (probe_window 1024 256 120 (fun v => read_u16 v 56 =? 0xEF53)).
  intros v Hv Hlen. unfold read_u16.
  rewrite (ReadBlockVector_slice os st 1024 256 v 56 2 Hv) by lia.
  change 0xEF53 with (le_combine ext_magic_bytes).
  apply le_combine_eqb. now rewrite length_dev_bytes.
Qed.

Lemma DetectAPFS_bytes :
  DetectAPFS os st
  = Ok (reads_at_least os st 0 64 4
        && (bytes_eqb (dev_bytes (os_file os (device_fd_ st)) 0 4) nxsb_bytes
            || bytes_eqb (dev_bytes (os_file os (device_fd_ st)) 0 4)
                         apsb_bytes)).
Proof.
  unfold DetectAPFS.
  apply (probe_window 0 64 4
           (fun v => (read_u32 v 0 =? 0x4253584E) || (read_u32 v 0 =? 0x42535041))).
  intros v Hv Hlen. unfold read_u32.
  rewrite (ReadBlockVector_slice os st 0 64 v 0 4 Hv) by lia.
  change 0x4253584E with (le_combine nxsb_bytes).
  change 0x42535041 with (le_combine apsb_bytes).
  now rewrite !le_combine_eqb by now rewrite length_dev_bytes.
Qed.

Lemma DetectHFSPlus_bytes :
  DetectHFSPlus os st
  = Ok (reads_at_least os st 1024 512 2
        && (bytes_eqb (dev_bytes (os_file os (device_fd_ st)) 1024 2)
                      hfs_plus_bytes
            || bytes_eqb (dev_bytes (os_file os (device_fd_ st)) 1024 2)
                         hfsx_bytes)).
Proof.
  unfold DetectHFSPlus.
  apply (probe_window 1024 512 2
           (fun v => (read_u16 v 0 =? 0x482B) || (read_u16 v 0 =? 0x4858))).
  intros v Hv Hlen. unfold read_u16.
  rewrite (ReadBlockVector_slice os st 1024 512 v 0 2 Hv) by lia.
  change 0x482B with (le_combine hfs_plus_bytes).
  change 0x4858 with (le_combine hfsx_bytes).
  now rewrite !le_combine_eqb by now rewrite length_dev_bytes.
Qed.

Lemma DetectFAT32_bytes :
  DetectFAT32 os st
  = Ok (reads_at_least os st 0 512 512
        && (bytes_eqb (dev_bytes (os_file os (device_fd_ st)) 510 2)
                      boot_trailer_bytes
            && (bytes_eqb (dev_bytes (os_file os (device_fd_ st)) 0 1)
                          [Byte.xeb]
                || bytes_eqb (dev_bytes (os_file os (device_fd_ st)) 0 1)
                             [Byte.xe9]))).
Proof.
  unfold DetectFAT32, reads_at_least, try_catch, bind.
  destruct (ReadBlockVector os st 0 512) as [v |] eqn:Hv; [| reflexivity].
  destruct (Nat.ltb_spec (length v) 512) as [Hlt | Hge];
    destruct (Nat.leb_spec 512 (length v)); try lia; [reflexivity |].
  cbn [andb]. unfold read_u16. rewrite unsigned_first_byte by lia.
  rewrite (ReadBlockVector_slice os st 0 512 v 510 2 Hv) by lia.
  rewrite (ReadBlockVector_slice os st 0 512 v 0 1 Hv) by lia.
  change (0 + Z.of_nat 510) with 510. change (0 + Z.of_nat 0) with 0.
  change 0xAA55 with (le_combine boot_trailer_bytes).
  change 0xEB with (le_combine [Byte.xeb]).
  change 0xE9 with (le_combine [Byte.xe9]).
  rewrite !le_combine_eqb by now rewrite length_dev_bytes.
  destruct (bytes_eqb (dev_bytes (os_file os (device_fd_ st)) 510 2)
                      boot_trailer_bytes); reflexivity.
Qed.

(** A read that returned bytes was made on an open handle. *)
Lemma reads_at_least_open offset size n :
  reads_at_least os st offset size n = true -> is_open_ st = true.
Proof.
  unfold reads_at_least, ReadBlockVector, ReadBlock.
  destruct (size >? vector_max_size); [discriminate |].
  destruct ((0 <? size) && negb (os_alloc os size)); [discriminate |].
  destruct (is_open_ st); [reflexivity | discriminate].
Qed.

End ProbeBytes.

(** X11. Each probe answers [true] exactly when its read returns enough
    bytes (512 of 512 for NTFS and FAT32, 120 of 256 for EXT4, 4 of 64 for
    APFS, 2 of 512 for HFS+) and the medium holds the expected bytes:
    ["NTFS    "] at offset 3; [53 EF] at 1080; ["NXSB"] or ["APSB"] at 0;
    [55 AA] at 510 together with [EB] or [E9] at 0; [2B 48] or [58 48] at
    1024. In every other case, a failed read included, it answers
    [false]. *)
Theorem probes_decide_on_medium_bytes (os : OS) (st : DeviceIO) :
  DetectNTFS os st
  = Ok (reads_at_least os st 0 512 512
        && bytes_eqb (dev_bytes (os_file os (device_fd_ st)) 3 8) ntfs_sig)
  /\ DetectEXT4 os st
     = Ok (reads_at_least os st 1024 256 120
           && bytes_eqb (dev_bytes (os_file os (device_fd_ st)) 1080 2)
                        ext_magic_bytes)
  /\ DetectAPFS os st
     = Ok (reads_at_least os st 0 64 4
           && (bytes_eqb (dev_bytes (os_file os (device_fd_ st)) 0 4) nxsb_bytes
               || bytes_eqb (dev_bytes (os_file os (device_fd_ st)) 0 4)
                            apsb_bytes))
  /\ DetectFAT32 os st
     = Ok (reads_at_least os st 0 512 512
           && (bytes_eqb (dev_bytes (os_file os (device_fd_ st)) 510 2)
                         boot_trailer_bytes
               && (bytes_eqb (dev_bytes (os_file os (device_fd_ st)) 0 1)
                             [Byte.xeb]
                   || bytes_eqb (dev_bytes (os_file os (device_fd_ st)) 0 1)
                                [Byte.xe9])))
  /\ DetectHFSPlus os st
     = Ok (reads_at_least os st 1024 512 2
           && (bytes_eqb (dev_bytes (os_file os (device_fd_ st)) 1024 2)
                         hfs_plus_bytes
               || bytes_eqb (dev_bytes (os_file os (device_fd_ st)) 1024 2)
                            hfsx_bytes)).
Proof.
  split; [apply DetectNTFS_bytes |].
  split; [apply DetectEXT4_bytes |].
  split; [apply DetectAPFS_bytes |].
  split; [apply DetectFAT32_bytes | apply DetectHFSPlus_bytes].
Qed.

(** X12. A type reported by [DetectFilesystem] is backed by the medium:
    if the result is not [UNKNOWN] the handle is open and the bytes that
    identify the reported type are on the medium at the probed offsets. *)
Theorem detected_type_reflects_medium
        (os : OS) (st : DeviceIO) (fs : FilesystemType) :
  DetectFilesystem os st = Ok fs -> fs <> UNKNOWN ->
  is_open_ st = true
  /\ match fs with
     | NTFS => dev_bytes (os_file os (device_fd_ st)) 3 8 = ntfs_sig
     | EXT4 => dev_bytes (os_file os (device_fd_ st)) 1080 2 = ext_magic_bytes
     | APFS =>
         dev_bytes (os_file os (device_fd_ st)) 0 4 = nxsb_bytes
         \/ dev_bytes (os_file os (device_fd_ st)) 0 4 = apsb_bytes
     | FAT32 =>
         dev_bytes (os_file os (device_fd_ st)) 510 2 = boot_trailer_bytes
         /\ (dev_bytes (os_file os (device_fd_ st)) 0 1 = [Byte.xeb]
             \/ dev_bytes (os_file os (device_fd_ st)) 0 1 = [Byte.xe9])
     | HFS_PLUS =>
         dev_bytes (os_file os (device_fd_ st)) 1024 2 = hfs_plus_bytes
         \/ dev_bytes (os_file os (device_fd_ st)) 1024 2 = hfsx_bytes
     | UNKNOWN => True
     end.
Proof.
  intros Hdet Hfs. unfold DetectFilesystem in Hdet.
  rewrite DetectNTFS_bytes, DetectEXT4_bytes, DetectAPFS_bytes,
    DetectFAT32_bytes, DetectHFSPlus_bytes in Hdet.
  cbn [bind] in Hdet.
  repeat match type of Hdet with
         | (if ?c then _ else _) = _ =>
             let H := fresh "Hp" in
             destruct c eqn:H;
             [injection Hdet as <-;
              apply andb_prop in H as [Hread H];
              split; [exact (reads_at_least_open _ _ _ _ _ Hread) |] |]
         end.
  - now apply bytes_eqb_true.
  - now apply bytes_eqb_true.
  - apply orb_prop in Hp1 as [H | H]; apply bytes_eqb_true in H; auto.
  - apply andb_prop in Hp2 as [Ht Hj]. apply bytes_eqb_true in Ht.
    split; [exact Ht |].
    apply orb_prop in Hj as [H | H]; apply bytes_eqb_true in H; auto.
  - apply orb_prop in Hp3 as [H | H]; apply bytes_eqb_true in H; auto.
  - injection Hdet as <-. contradiction.
Qed.

(** Witness for X12: the boot sector with the jump opcode and the [55 AA]
    trailer, and the image with [2B 48] at 1024. *)
Lemma detected_type_reflects_medium_witness :
  (DetectFilesystem fat_os fat_dev = Ok FAT32 /\ FAT32 <> UNKNOWN)
  /\ dev_bytes (os_file fat_os (device_fd_ fat_dev)) 510 2 = boot_trailer_bytes
  /\ (DetectFilesystem hfs_os hfs_dev = Ok HFS_PLUS /\ HFS_PLUS <> UNKNOWN)
  /\ is_open_ hfs_dev = true.
Proof.
  assert (Hf : DetectFilesystem fat_os fat_dev = Ok FAT32)
    by (vm_compute; reflexivity).
  assert (Hh : DetectFilesystem hfs_os hfs_dev = Ok HFS_PLUS)
    by (vm_compute; reflexivity).
  split; [split; [exact Hf | discriminate] |].
  split; [apply (detected_type_reflects_medium fat_os fat_dev FAT32 Hf);
          discriminate |].
  split; [split; [exact Hh | discriminate] |].
  apply (detected_type_reflects_medium hfs_os hfs_dev HFS_PLUS Hh).
  discriminate.
Defined.

(** ** CanHandle and Parse *)

Lemma NTFS_CanHandle un path :
  NTFSParser.CanHandle un path = root_accepted NTFS path.
Proof.
  unfold NTFSParser.CanHandle, NTFSParser.ReadBootSector.
  destruct path as [| c rest]; [reflexivity |]. cbn [str_empty root_accepted].
  destruct (str_contains "NTFS" (String c rest)
            || str_contains "C:" (String c rest)); reflexivity.
Qed.

Lemma APFS_CanHandle un path :
  APFSParser.CanHandle un path = root_accepted APFS path.
Proof.
  unfold APFSParser.CanHandle, APFSParser.ReadContainerSuperblock.
  destruct path as [| c rest]; [reflexivity |]. cbn [str_empty root_accepted].
  destruct (str_contains "APFS" (String c rest)
            || str_contains "Data" (String c rest)); reflexivity.
Qed.

Lemma EXT4_CanHandle un path :
  EXT4Parser.CanHandle un path = root_accepted EXT4 path.
Proof.
  unfold EXT4Parser.CanHandle, EXT4Parser.ReadSuperblock.
  destruct path as [| c rest]; [reflexivity |]. cbn [str_empty root_accepted].
  destruct (str_contains "ext4" (String c rest)
            || str_contains "sda" (String c rest)
            || str_contains "nvme" (String c rest)); reflexivity.
Qed.

(** What [EXT4Parser::Parse] does, by path and by the divisor it finds. *)
Lemma EXT4_Parse_cases un p path entries :
  if root_accepted EXT4 path then
    if EXT4Parser.blocks_per_group un =? 0
    then EXT4Parser.Parse un p path entries = DivisionByZero
    else
      exists p',
        EXT4Parser.Parse un p path entries
        = Returns (true, p',
                   entries ++ repeat EXT4Parser.sample_file
                                (mock_group_count (EXT4Parser.blocks_per_group un)))
        /\ EXT4Parser.GetRecoveryStats p'
           = match mock_group_count (EXT4Parser.blocks_per_group un) with
             | O => EXT4Parser.GetRecoveryStats p
             | S _ => (1, 0)
             end
        /\ EXT4Parser.GetJournalInfo p' = EXT4Parser.ParseJournal
        /\ EXT4Parser.is_initialized_ p' = true
        /\ EXT4Parser.last_parsed_device_ p' = path
  else
    exists p',
      EXT4Parser.Parse un p path entries = Returns (false, p', entries)
      /\ EXT4Parser.GetRecoveryStats p' = EXT4Parser.GetRecoveryStats p
      /\ EXT4Parser.GetJournalInfo p' = EXT4Parser.GetJournalInfo p
      /\ EXT4Parser.is_initialized_ p' = EXT4Parser.is_initialized_ p.
Proof.
  destruct (root_accepted EXT4 path) eqn:Hacc.
  - unfold EXT4Parser.Parse. rewrite (str_empty_rejected EXT4 path Hacc).
    unfold EXT4Parser.ReadSuperblock. simpl in Hacc. rewrite Hacc.
    cbn [negb]. unfold EXT4Parser.ParseGroupDescriptors.
    cbn [EXT4Parser.blocks_per_group EXT4Parser.blocks_count].
    destruct (EXT4Parser.blocks_per_group un =? 0); [reflexivity |].
    cbn [negb]. rewrite parse_groups_spec, repeat_length.
    fold (mock_group_count (EXT4Parser.blocks_per_group un)).
    eexists. split; [reflexivity |].
    unfold EXT4Parser.GetRecoveryStats, EXT4Parser.GetJournalInfo.
    destruct (mock_group_count (EXT4Parser.blocks_per_group un));
      split_conj; reflexivity.
  - unfold EXT4Parser.Parse.
    destruct (str_empty path); [eexists; split_conj; reflexivity |].
    unfold EXT4Parser.ReadSuperblock. simpl in Hacc. rewrite Hacc.
    eexists; split_conj; reflexivity.
Qed.

(** X13. [CanHandle] predicts [Parse]. For the NTFS and the APFS parser
    the flag returned by [Parse] on a path is the answer of [CanHandle] on
    that path, whatever the parser's state and the vector's contents. For
    the EXT4 parser the same holds whenever [Parse] returns; it fails to
    return (division by zero in [ParseGroupDescriptors]) only on a path
    that [CanHandle] accepts, when the [blocks_per_group] member, which is
    never assigned, holds zero. *)
Theorem can_handle_predicts_parse (path : string) (entries : list FileEntry) :
  (forall un un' p,
      fst (fst (NTFSParser.Parse un p path entries))
      = NTFSParser.CanHandle un' path)
  /\ (forall un un' p,
         fst (fst (APFSParser.Parse un p path entries))
         = APFSParser.CanHandle un' path)
  /\ (forall un un' p,
         match EXT4Parser.Parse un p path entries with
         | Returns (r, _, _) => r = EXT4Parser.CanHandle un' path
         | DivisionByZero =>
             EXT4Parser.CanHandle un' path = true
             /\ EXT4Parser.blocks_per_group un = 0
         end).
Proof.
  split; [| split].
  - intros un un' p. rewrite NTFS_CanHandle.
    now destruct (NTFS_Parse_spec un p path entries) as [p' ->].
  - intros un un' p. rewrite APFS_CanHandle.
    now destruct (APFS_Parse_spec un p path entries) as [p' ->].
  - intros un un' p. rewrite EXT4_CanHandle.
    pose proof (EXT4_Parse_cases un p path entries) as H.
    destruct (root_accepted EXT4 path).
    + destruct (Z.eqb_spec (EXT4Parser.blocks_per_group un) 0) as [Hz | Hnz].
      * rewrite H. split; [reflexivity | exact Hz].
      * destruct H as (p' & -> & _). reflexivity.
    + destruct H as (p' & -> & _). reflexivity.
Qed.

(** X14. The parsers' own state after a pass. A successful pass marks the
    parser initialised, records the path, and sets the parser's statistics
    to one recoverable and no deleted file, although the EXT4 parser emits
    one entry per block group walked (up to ten), and none of these when
    it walks no group. It also installs the journal description (EXT4) or
    the snapshot list (APFS). A pass that returns [false] leaves the
    statistics, the initialised flag, the journal description, the snapshot
    list and the caller's vector as they were. *)
Theorem parser_state_after_parse (path : string) (entries : list FileEntry) :
  (forall un p r p' entries',
      NTFSParser.Parse un p path entries = (r, p', entries') ->
      if r
      then NTFSParser.GetRecoveryStats p' = (1, 0)
           /\ NTFSParser.is_initialized_ p' = true
           /\ NTFSParser.last_parsed_device_ p' = path
           /\ entries' = entries ++ [NTFSParser.sample_file]
      else NTFSParser.GetRecoveryStats p' = NTFSParser.GetRecoveryStats p
           /\ NTFSParser.is_initialized_ p' = NTFSParser.is_initialized_ p
           /\ entries' = entries)
  /\ (forall un p r p' entries',
         APFSParser.Parse un p path entries = (r, p', entries') ->
         if r
         then APFSParser.GetRecoveryStats p' = (1, 0)
              /\ APFSParser.is_initialized_ p' = true
              /\ APFSParser.last_parsed_device_ p' = path
              /\ APFSParser.GetAvailableSnapshots p' = APFSParser.ParseSnapshots
              /\ entries' = entries ++ [APFSParser.sample_file]
         else APFSParser.GetRecoveryStats p' = APFSParser.GetRecoveryStats p
              /\ APFSParser.is_initialized_ p' = APFSParser.is_initialized_ p
              /\ APFSParser.GetAvailableSnapshots p'
                 = APFSParser.GetAvailableSnapshots p
              /\ entries' = entries)
  /\ (forall un p r p' entries',
         EXT4Parser.Parse un p path entries = Returns (r, p', entries') ->
         if r
         then EXT4Parser.is_initialized_ p' = true
              /\ EXT4Parser.last_parsed_device_ p' = path
              /\ EXT4Parser.GetJournalInfo p' = EXT4Parser.ParseJournal
              /\ exists k,
                  (k <= 10)%nat
                  /\ entries' = entries ++ repeat EXT4Parser.sample_file k
                  /\ EXT4Parser.GetRecoveryStats p'
                     = match k with
                       | O => EXT4Parser.GetRecoveryStats p
                       | S _ => (1, 0)
                       end
         else EXT4Parser.GetRecoveryStats p' = EXT4Parser.GetRecoveryStats p
              /\ EXT4Parser.is_initialized_ p' = EXT4Parser.is_initialized_ p
              /\ EXT4Parser.GetJournalInfo p' = EXT4Parser.GetJournalInfo p
              /\ entries' = entries).
Proof.
  split; [| split].
  - intros un p r p' entries'. unfold NTFSParser.Parse.
    destruct (str_empty path) eqn:Hempty.
    { intros H. injection H as <- <- <-. split_conj; reflexivity. }
    unfold NTFSParser.ReadBootSector, NTFSParser.ParseMFT.
    destruct (str_contains "NTFS" path || str_contains "C:" path);
      cbn [negb]; intros H; injection H as <- <- <-; split_conj; reflexivity.
  - intros un p r p' entries'. unfold APFSParser.Parse.
    destruct (str_empty path) eqn:Hempty.
    { intros H. injection H as <- <- <-. split_conj; reflexivity. }
    unfold APFSParser.ReadContainerSuperblock, APFSParser.ParseVolumeSuperblock,
      APFSParser.ParseVolumeBTree.
    destruct (str_contains "APFS" path || str_contains "Data" path);
      cbn [negb]; intros H; injection H as <- <- <-; split_conj; reflexivity.
  - intros un p r p' entries' HP.
    pose proof (EXT4_Parse_cases un p path entries) as H.
    destruct (root_accepted EXT4 path).
    + destruct (EXT4Parser.blocks_per_group un =? 0); [congruence |].
      destruct H as (q & Hq & Hstats & Hj & Hi & Hl).
      rewrite Hq in HP. injection HP as <- <- <-.
      split; [exact Hi |]. split; [exact Hl |]. split; [exact Hj |].
      exists (mock_group_count (EXT4Parser.blocks_per_group un)).
      split; [apply mock_group_count_le_10 |]. split; [reflexivity | exact Hstats].
    + destruct H as (q & Hq & Hstats & Hj & Hi).
      rewrite Hq in HP. injection HP as <- <- <-.
      split_conj; auto.
Qed.

(** Witness for X14: the EXT4 parser on [/dev/sda1] with 32768 blocks per
    group walks eight groups, emits eight entries and reports one file. *)
Lemma parser_state_after_parse_witness :
  exists p' entries',
    EXT4Parser.Parse (DeviceIOAdapter.uninit_ext4 (uninit_with_bpg 32768))
      EXT4Parser.new "/dev/sda1" []
    = Returns (true, p', entries')
    /\ length entries' = 8%nat
    /\ EXT4Parser.is_initialized_ p' = true
    /\ EXT4Parser.GetJournalInfo p' = EXT4Parser.ParseJournal.
Proof.
  eexists. eexists. split; [vm_compute; reflexivity |].
  split; [reflexivity |].
  destruct (parser_state_after_parse "/dev/sda1" []) as (_ & _ & H).
  specialize (H (DeviceIOAdapter.uninit_ext4 (uninit_with_bpg 32768))
                EXT4Parser.new true _ _ ltac:(vm_compute; reflexivity)).
  cbv beta iota in H. destruct H as (Hi & _ & Hj & _).
  split; [exact Hi | exact Hj].
Defined.

(** ** The adapter around a closed device *)

(** X15. Through an adapter whose device is closed nothing is detected
    or parsed: after [CloseDevice] (and on a fresh adapter) [IsDeviceOpen]
    is [false], [DetectFilesystem] returns [UNKNOWN], and [ParseDevice]
    returns [false] leaving the adapter and the caller's vector untouched.
    [CloseDevice] keeps the statistics of the last parse and the parser
    objects. *)
Theorem closed_adapter_parses_nothing
        (os : OS) (u : DeviceIOAdapter.Uninit) (a : DeviceIOAdapter.t)
        (entries : list FileEntry) :
  DeviceIOAdapter.IsDeviceOpen (snd (DeviceIOAdapter.CloseDevice os a)) = false
  /\ DeviceIOAdapter.DetectFilesystem os (snd (DeviceIOAdapter.CloseDevice os a))
     = Ok UNKNOWN
  /\ DeviceIOAdapter.ParseDevice os u (snd (DeviceIOAdapter.CloseDevice os a))
       entries
     = Ok (Returns (false, snd (DeviceIOAdapter.CloseDevice os a), entries))
  /\ DeviceIOAdapter.GetRecoveryStats (snd (DeviceIOAdapter.CloseDevice os a))
     = DeviceIOAdapter.GetRecoveryStats a
  /\ DeviceIOAdapter.ntfs_parser_ (snd (DeviceIOAdapter.CloseDevice os a))
     = DeviceIOAdapter.ntfs_parser_ a
  /\ DeviceIOAdapter.apfs_parser_ (snd (DeviceIOAdapter.CloseDevice os a))
     = DeviceIOAdapter.apfs_parser_ a
  /\ DeviceIOAdapter.ext4_parser_ (snd (DeviceIOAdapter.CloseDevice os a))
     = DeviceIOAdapter.ext4_parser_ a
  /\ DeviceIOAdapter.ParseDevice os u DeviceIOAdapter.new entries
     = Ok (Returns (false, DeviceIOAdapter.new, entries)).
Proof.
  assert (Hclosed : is_open_ (DeviceIOAdapter.device_io_
                                (snd (DeviceIOAdapter.CloseDevice os a)))
                    = false).
  { unfold DeviceIOAdapter.CloseDevice.
    pose proof (Close_closes os (DeviceIOAdapter.device_io_ a)) as H.
    destruct (Close os (DeviceIOAdapter.device_io_ a)) as [r d]. exact H. }
  split; [exact Hclosed |].
  split; [unfold DeviceIOAdapter.DetectFilesystem; now rewrite Hclosed |].
  split; [unfold DeviceIOAdapter.ParseDevice; now rewrite Hclosed |].
  unfold DeviceIOAdapter.CloseDevice.
  destruct (Close os (DeviceIOAdapter.device_io_ a)) as [r d].
  split_conj; reflexivity.
Qed.

(** X16. On an open device whose detected type is [fs], and with a
    non-zero [blocks_per_group], [ParseDevice] returns [true] exactly when
    [fs] is NTFS, APFS or EXT4 and the device's path contains one of the
    name fragments that the parser of that type looks for (["NTFS"],
    ["C:"]; ["APFS"], ["Data"]; ["ext4"], ["sda"], ["nvme"]). A FAT32 or
    HFS+ device is detected but never parsed. On success the vector grows
    by copies of the parser's sample entry; otherwise it is unchanged. *)
Theorem parse_device_outcome_by_name
        (os : OS) (u : DeviceIOAdapter.Uninit) (a : DeviceIOAdapter.t)
        (entries : list FileEntry) (fs : FilesystemType) :
  DeviceIOAdapter.IsDeviceOpen a = true ->
  DeviceIOAdapter.DetectFilesystem os a = Ok fs ->
  EXT4Parser.blocks_per_group (DeviceIOAdapter.uninit_ext4 u) <> 0 ->
  exists a' k,
    DeviceIOAdapter.ParseDevice os u a entries
    = Ok (Returns
            (root_accepted fs (device_path (DeviceIOAdapter.GetDeviceInfo a)),
             a',
             if root_accepted fs (device_path (DeviceIOAdapter.GetDeviceInfo a))
             then entries ++ repeat (sample_of fs) k
             else entries))
    /\ DeviceIOAdapter.GetDeviceIO a' = DeviceIOAdapter.GetDeviceIO a.
Proof.
  intros Hopen Hfs Hbpg.
  pose proof (ParseDevice_by_type os u a entries fs Hopen Hfs) as H.
  unfold DeviceIOAdapter.GetDeviceInfo, GetDeviceInfo, DeviceIOAdapter.GetDeviceIO.
  cbn [device_path].
  destruct fs.
  - rewrite H. exists a, 0%nat. split; reflexivity.
  - destruct H as (a2 & -> & Hio). cbv zeta.
    destruct (root_accepted NTFS _); eexists; exists 1%nat;
      (split; [reflexivity | exact Hio]).
  - destruct H as (a2 & -> & Hio). cbv zeta.
    destruct (root_accepted APFS _); eexists; exists 1%nat;
      (split; [reflexivity | exact Hio]).
  - destruct (root_accepted EXT4 _).
    + destruct (Z.eqb_spec (EXT4Parser.blocks_per_group
                              (DeviceIOAdapter.uninit_ext4 u)) 0);
        [contradiction |].
      destruct H as (a2 & p' & -> & Hio & _). cbv zeta.
      eexists. eexists. split; [reflexivity | exact Hio].
    + destruct H as (a2 & -> & Hio & _).
      eexists. exists 0%nat. split; [reflexivity | exact Hio].
  - rewrite H. exists a, 0%nat. split; reflexivity.
  - rewrite H. exists a, 0%nat. split; reflexivity.
Qed.

(** Witness for X16: the FAT32 boot sector is detected and not parsed. *)
Lemma parse_device_outcome_by_name_witness :
  DeviceIOAdapter.IsDeviceOpen (opened_adapter fat_os "/dev/sdc1") = true
  /\ DeviceIOAdapter.DetectFilesystem fat_os (opened_adapter fat_os "/dev/sdc1")
     = Ok FAT32
  /\ EXT4Parser.blocks_per_group
       (DeviceIOAdapter.uninit_ext4 (uninit_with_bpg 32768)) <> 0
  /\ exists a' k,
      DeviceIOAdapter.ParseDevice fat_os (uninit_with_bpg 32768)
        (opened_adapter fat_os "/dev/sdc1") []
      = Ok (Returns
              (root_accepted FAT32
                 (device_path
                    (DeviceIOAdapter.GetDeviceInfo
                       (opened_adapter fat_os "/dev/sdc1"))),
               a',
               if root_accepted FAT32
                    (device_path
                       (DeviceIOAdapter.GetDeviceInfo
                          (opened_adapter fat_os "/dev/sdc1")))
               then [] ++ repeat (sample_of FAT32) k
               else []))
      /\ DeviceIOAdapter.GetDeviceIO a'
         = DeviceIOAdapter.GetDeviceIO (opened_adapter fat_os "/dev/sdc1").
Proof.
  assert (Ho : DeviceIOAdapter.IsDeviceOpen (opened_adapter fat_os "/dev/sdc1")
               = true) by (vm_compute; reflexivity).
  assert (Hd : DeviceIOAdapter.DetectFilesystem fat_os
                 (opened_adapter fat_os "/dev/sdc1") = Ok FAT32)
    by (vm_compute; reflexivity).
  assert (Hb : EXT4Parser.blocks_per_group
                 (DeviceIOAdapter.uninit_ext4 (uninit_with_bpg 32768)) <> 0)
    by (vm_compute; discriminate).
  split; [exact Ho |]. split; [exact Hd |]. split; [exact Hb |].
  exact (parse_device_outcome_by_name fat_os (uninit_with_bpg 32768)
           (opened_adapter fat_os "/dev/sdc1") [] FAT32 Ho Hd Hb).
Defined.

(** ** The recovery engine *)

Lemma engine_call_counters e c :
  RecoveryEngine.progress_ e = 0 ->
  RecoveryEngine.recovered_files_ e = 0 ->
  RecoveryEngine.progress_ (snd (engine_call e c)) = 0
  /\ RecoveryEngine.recovered_files_ (snd (engine_call e c)) = 0.
Proof.
  intros Hp Hr. destruct c as [path |]; cbn [engine_call];
    unfold RecoveryEngine.StartScan, RecoveryEngine.StopScan;
    destruct (RecoveryEngine.is_scanning_ e); cbn; auto.
Qed.

(** X17. The engine never reports progress: whatever sequence of
    [StartScan] and [StopScan] calls a client issues on a fresh engine,
    [GetProgress] and [GetRecoveredFileCount] return 0 afterwards. *)
Theorem engine_counters_stay_zero (calls : list EngineCall) :
  RecoveryEngine.GetProgress (run_calls RecoveryEngine.new calls) = 0
  /\ RecoveryEngine.GetRecoveredFileCount (run_calls RecoveryEngine.new calls)
     = 0.
Proof.
  unfold RecoveryEngine.GetProgress, RecoveryEngine.GetRecoveredFileCount.
  assert (H : forall e,
             RecoveryEngine.progress_ e = 0 ->
             RecoveryEngine.recovered_files_ e = 0 ->
             RecoveryEngine.progress_ (run_calls e calls) = 0
             /\ RecoveryEngine.recovered_files_ (run_calls e calls) = 0).
  { induction calls as [| c rest IH]; intros e Hp Hr; [now split |].
    cbn [run_calls].
    destruct (engine_call_counters e c Hp Hr) as [Hp' Hr']. now apply IH. }
  now apply H.
Qed.

(** What a sequence of calls keeps, for an engine in any state. *)
Lemma accepted_calls_invariant calls : forall e,
  alternates (negb (RecoveryEngine.is_scanning_ e)) (accepted_calls e calls)
  = true
  /\ RecoveryEngine.is_scanning_ (run_calls e calls)
     = ends_with_start (RecoveryEngine.is_scanning_ e) (accepted_calls e calls)
  /\ RecoveryEngine.current_device_ (run_calls e calls)
     = last_started (RecoveryEngine.current_device_ e) (accepted_calls e calls).
Proof.
  induction calls as [| c rest IH]; intros e; [now split_conj |].
  cbn [run_calls accepted_calls].
  destruct c as [path |]; cbn [engine_call];
    unfold RecoveryEngine.StartScan, RecoveryEngine.StopScan;
    destruct (RecoveryEngine.is_scanning_ e) eqn:Hs; cbn [negb fst snd].
  - specialize (IH e). rewrite Hs in IH. exact IH.
  - match goal with
    | |- context [accepted_calls ?e1 rest] => specialize (IH e1)
    end.
    cbn [RecoveryEngine.is_scanning_ RecoveryEngine.current_device_ negb] in IH.
    cbn [alternates ends_with_start last_started andb]. exact IH.
  - match goal with
    | |- context [accepted_calls ?e1 rest] => specialize (IH e1)
    end.
    cbn [RecoveryEngine.is_scanning_ RecoveryEngine.current_device_ negb] in IH.
    cbn [alternates ends_with_start last_started andb negb]. exact IH.
  - specialize (IH e). rewrite Hs in IH. exact IH.
Qed.

(** X18. On a fresh engine, whatever the client calls: the calls that
    return [true] alternate, a [StartScan] first, so a [StartScan] during a
    scan and a [StopScan] without one are refused; the engine is scanning
    afterwards exactly when the last accepted call was a [StartScan]; and
    the current device is the path of the last accepted [StartScan] (it is
    kept by [StopScan] and not touched by a refused [StartScan]). *)
Theorem engine_accepted_calls_alternate (calls : list EngineCall) :
  alternates true (accepted_calls RecoveryEngine.new calls) = true
  /\ RecoveryEngine.is_scanning_ (run_calls RecoveryEngine.new calls)
     = ends_with_start false (accepted_calls RecoveryEngine.new calls)
  /\ RecoveryEngine.current_device_ (run_calls RecoveryEngine.new calls)
     = last_started EmptyString (accepted_calls RecoveryEngine.new calls).
Proof. exact (accepted_calls_invariant calls RecoveryEngine.new). Qed.

(** ** Reads after Open *)

(** X19. Reads go to the device opened last. After an [Open] that the
    platform grants, whatever the handle referred to before, every vector
    read that succeeds was for a non-empty window whose end (computed in 64
    bits) does not exceed the size recorded for the new descriptor, and
    each byte returned from inside the window is the byte of the new
    descriptor's medium at that position. *)
Theorem reads_follow_last_open
        (os : OS) (st : DeviceIO) (path : string) (offset size : Z)
        (v : list byte) :
  0 <= os_open os path ->
  ReadBlockVector os (snd (Open os st path)) offset size = Ok v ->
  size <> 0
  /\ wrap64 (offset + size) <= recorded_size (os_file os (os_open os path))
  /\ forall i, (i < length v)%nat -> Z.of_nat i < size ->
               nth i v zero_byte
               = dev_byte (os_file os (os_open os path)) (offset + Z.of_nat i).
Proof.
  intros Hfd Hv. destruct (Open_success os st path Hfd) as (fs & Hopen & _).
  rewrite Hopen in Hv. cbn [snd] in Hv.
  split; [| split].
  - destruct (ReadBlockVector_inv _ _ _ _ _ Hv) as (n & Hrb & _).
    unfold ReadBlock in Hrb. cbn [is_open_ negb] in Hrb.
    destruct (Z.eqb_spec size 0); [discriminate | assumption].
  - destruct (ReadBlockVector_inv _ _ _ _ _ Hv) as (n & Hrb & _).
    unfold ReadBlock in Hrb. cbn [is_open_ negb device_size_] in Hrb.
    destruct (size =? 0); [discriminate |].
    destruct (Z.gtb_spec (wrap64 (offset + size))
                (recorded_size (os_file os (os_open os path))));
      [discriminate | assumption].
  - intros i Hi Hsize.
    now rewrite (ReadBlockVector_nth _ _ _ _ _ i Hv Hi Hsize).
Qed.

(** Witness for X19: with [/dev/sda1] open, [/dev/sdb1] is opened and its
    boot sector read; byte 3 is the ['N'] of the NTFS signature. *)
Lemma reads_follow_last_open_witness :
  exists v,
    0 <= os_open two_os "/dev/sdb1"
    /\ ReadBlockVector two_os (snd (Open two_os first_session "/dev/sdb1")) 0 512
       = Ok v
    /\ nth 3 v zero_byte
       = dev_byte (os_file two_os (os_open two_os "/dev/sdb1")) (0 + Z.of_nat 3)
    /\ dev_byte (os_file two_os (os_open two_os "/dev/sdb1")) (0 + Z.of_nat 3)
       = Byte.x4e.
Proof.
  eexists.
  assert (Hfd : 0 <= os_open two_os "/dev/sdb1") by by_eval.
  split; [exact Hfd |].
  assert (Hv : ReadBlockVector two_os
                 (snd (Open two_os first_session "/dev/sdb1")) 0 512
               = Ok (dev_bytes (os_file two_os 4) 0 512))
    by (vm_compute; reflexivity).
  split; [exact Hv |]. split; [| by_eval].
  apply (reads_follow_last_open two_os first_session "/dev/sdb1" 0 512 _ Hfd Hv).
  - rewrite length_dev_bytes. lia.
  - lia.
Defined.

(** ** The number of block groups *)

(** X20. [ParseGroupDescriptors] with a [blocks_per_group] between 1 and
    [2^32 - 1] and fewer than [2^31] blocks returns [true] with at most ten
    descriptors, all zero-filled. As long as the 32-bit sum [blocks_count +
    blocks_per_group - 1] does not wrap, fewer than ten descriptors means
    exactly as many groups as cover the blocks. When the sum wraps there is
    no descriptor at all, although there are blocks. *)
Theorem group_descriptor_count (sb : EXT4Parser.EXT4Superblock) :
  0 < EXT4Parser.blocks_per_group sb < 2 ^ 32 ->
  0 <= EXT4Parser.blocks_count sb < 2 ^ 31 ->
  exists descs,
    EXT4Parser.ParseGroupDescriptors sb = Returns (true, descs)
    /\ descs = repeat EXT4Parser.zero_desc (length descs)
    /\ (length descs <= 10)%nat
    /\ (EXT4Parser.blocks_count sb + EXT4Parser.blocks_per_group sb - 1 < 2 ^ 32 ->
        (length descs < 10)%nat ->
        EXT4Parser.blocks_count sb
        <= Z.of_nat (length descs) * EXT4Parser.blocks_per_group sb
        < EXT4Parser.blocks_count sb + EXT4Parser.blocks_per_group sb)
    /\ (2 ^ 32 <= EXT4Parser.blocks_count sb + EXT4Parser.blocks_per_group sb - 1 ->
        descs = []).
Proof.
  intros Hbpg Hbc. unfold EXT4Parser.ParseGroupDescriptors.
  set (bpg := EXT4Parser.blocks_per_group sb) in *.
  set (bc := EXT4Parser.blocks_count sb) in *.
  destruct (Z.eqb_spec bpg 0); [lia |].
  eexists. split; [reflexivity |].
  rewrite repeat_length.
  split; [reflexivity |]. split; [lia |].
  split.
  - intros Hnowrap Hlt.
    unfold wrap32 in *. rewrite Z.mod_small in * by lia.
    assert (Hq0 : 0 <= (bc + bpg - 1) / bpg) by (apply Z.div_pos; lia).
    assert (Hlo : bpg * ((bc + bpg - 1) / bpg) <= bc + bpg - 1)
      by (apply Z.mul_div_le; lia).
    assert (Hhi : bc + bpg - 1 < bpg * Z.succ ((bc + bpg - 1) / bpg))
      by (apply Z.mul_succ_div_gt; lia).
    assert (Hq : (bc + bpg - 1) / bpg < 2 ^ 31) by nia.
    rewrite to_int32_small in * by lia.
    assert (Hmin : Z.min ((bc + bpg - 1) / bpg) 10 = (bc + bpg - 1) / bpg) by lia.
    rewrite Hmin, Z2Nat.id by lia. nia.
  - intros Hwrap.
    assert (Hmod : wrap32 (bc + bpg - 1) = bc + bpg - 1 - 2 ^ 32).
    { unfold wrap32. symmetry.
      apply (Z.mod_unique _ _ 1); lia. }
    rewrite Hmod, Z.div_small by lia. reflexivity.
Qed.

(** Witness for X20: the superblock that [ReadSuperblock] fills on
    [/dev/sda1], first with 32768 blocks per group (eight groups cover the
    262144 blocks), then with [2^32 - 1] (the sum wraps, no group). *)
Lemma group_descriptor_count_witness :
  (0 < 32768 < 2 ^ 32 /\ 0 <= 262144 < 2 ^ 31)
  /\ (exists descs,
         EXT4Parser.ParseGroupDescriptors
           (snd (EXT4Parser.ReadSuperblock "/dev/sda1"
                   (DeviceIOAdapter.uninit_ext4 (uninit_with_bpg 32768))))
         = Returns (true, descs)
         /\ length descs = 8%nat)
  /\ EXT4Parser.ParseGroupDescriptors
       (snd (EXT4Parser.ReadSuperblock "/dev/sda1"
               (DeviceIOAdapter.uninit_ext4 (uninit_with_bpg (2 ^ 32 - 1)))))
     = Returns (true, []).
Proof.
  split; [lia |]. split.
  - destruct (group_descriptor_count
                (snd (EXT4Parser.ReadSuperblock "/dev/sda1"
                        (DeviceIOAdapter.uninit_ext4 (uninit_with_bpg 32768)))))
      as (descs & Hd & _); [vm_compute; split; congruence
                           | vm_compute; split; congruence |].
    exists descs. split; [exact Hd |].
    vm_compute in Hd. injection Hd as <-. reflexivity.
  - destruct (group_descriptor_count
                (snd (EXT4Parser.ReadSuperblock "/dev/sda1"
                        (DeviceIOAdapter.uninit_ext4
                           (uninit_with_bpg (2 ^ 32 - 1))))))
      as (descs & Hd & _ & _ & _ & Hw); [vm_compute; split; congruence
                                        | vm_compute; split; congruence |].
    rewrite Hd, Hw; [reflexivity |]. vm_compute. congruence.
Defined.

(** ** The device wizard and the parsers *)

(** X21. What the wizard announces for a path, against the code behind
    it. The announced name is always one of the names of
    [DeviceIO::FilesystemTypeToString], and never the one of NTFS. Every
    path that contains ["sda"] or ["nvme"] is announced as ext4 and
    accepted by [EXT4Parser::CanHandle]; a path announced as ext4 that the
    parser rejects contains ["sdb"]. *)
Theorem wizard_announcement_and_parser
        (path : string) (un : EXT4Parser.EXT4Superblock) :
  FilesystemTypeToString
    (StringToFilesystemType (DeviceWizard.DetectFileSystem path))
  = DeviceWizard.DetectFileSystem path
  /\ StringToFilesystemType (DeviceWizard.DetectFileSystem path) <> NTFS
  /\ (str_contains "sda" path || str_contains "nvme" path = true ->
      DeviceWizard.DetectFileSystem path = "ext4"%string
      /\ EXT4Parser.CanHandle un path = true)
  /\ (DeviceWizard.DetectFileSystem path = "ext4"%string ->
      EXT4Parser.CanHandle un path = false ->
      str_contains "sdb" path = true).
Proof.
  rewrite EXT4_CanHandle. cbn [root_accepted].
  unfold DeviceWizard.DetectFileSystem.
  destruct (str_contains "sda" path), (str_contains "sdb" path),
    (str_contains "nvme" path), (str_contains "Disk0" path),
    (str_contains "ext4" path); cbn.
  all: split_conj; try reflexivity; try discriminate; try tauto.
  all: try (intros; congruence).
Qed.

(** Witness for X21: [/dev/sdb1], the third device the wizard lists. *)
Lemma wizard_announcement_and_parser_witness :
  DeviceWizard.DetectFileSystem "/dev/sdb1" = "ext4"%string
  /\ EXT4Parser.CanHandle
       (DeviceIOAdapter.uninit_ext4 (uninit_with_bpg 32768)) "/dev/sdb1"
     = false
  /\ str_contains "sdb" "/dev/sdb1" = true.
Proof.
  assert (Hw : DeviceWizard.DetectFileSystem "/dev/sdb1" = "ext4"%string)
    by reflexivity.
  assert (Hc : EXT4Parser.CanHandle
                 (DeviceIOAdapter.uninit_ext4 (uninit_with_bpg 32768))
                 "/dev/sdb1" = false) by reflexivity.
  split; [exact Hw |]. split; [exact Hc |].
  exact (proj2 (proj2 (proj2
           (wizard_announcement_and_parser "/dev/sdb1"
              (DeviceIOAdapter.uninit_ext4 (uninit_with_bpg 32768)))))
           Hw Hc).
Defined.

(** ** Handles reached through Open and Close *)

(** One call keeps: an open handle has a valid descriptor and the size
    recorded for it, and the sector size is the constructor's. *)
Lemma device_call_invariant os st c :
  (is_open_ st = true ->
   0 <= device_fd_ st
   /\ device_size_ st = recorded_size (os_file os (device_fd_ st))) ->
  sector_size_ st = 512 ->
  (is_open_ (device_call os st c) = true ->
   0 <= device_fd_ (device_call os st c)
   /\ device_size_ (device_call os st c)
      = recorded_size (os_file os (device_fd_ (device_call os st c))))
  /\ sector_size_ (device_call os st c) = 512.
Proof.
  intros Hinv Hsec. destruct c as [path |]; cbn [device_call].
  - destruct (Z.le_gt_cases 0 (os_open os path)) as [Hfd | Hfd].
    + destruct (Open_success os st path Hfd) as (fs & -> & _).
      cbn. split; [intros _; split; [exact Hfd | reflexivity] | exact Hsec].
    + rewrite (Open_failure os st path) by lia.
      cbn. split; [discriminate | exact Hsec].
  - unfold Close. destruct (is_open_ st) eqn:Hopen; cbn.
    + split; [discriminate | exact Hsec].
    + split; [rewrite Hopen; discriminate | exact Hsec].
Qed.

Lemma run_device_calls_invariant os calls : forall st,
  (is_open_ st = true ->
   0 <= device_fd_ st
   /\ device_size_ st = recorded_size (os_file os (device_fd_ st))) ->
  sector_size_ st = 512 ->
  (is_open_ (run_device_calls os st calls) = true ->
   0 <= device_fd_ (run_device_calls os st calls)
   /\ device_size_ (run_device_calls os st calls)
      = recorded_size (os_file os (device_fd_ (run_device_calls os st calls))))
  /\ sector_size_ (run_device_calls os st calls) = 512.
Proof.
  induction calls as [| c rest IH]; intros st Hinv Hsec; cbn [run_device_calls].
  - split; assumption.
  - destruct (device_call_invariant os st c Hinv Hsec) as [Hinv' Hsec'].
    now apply IH.
Qed.

(** X22. Whatever sequence of [Open] and [Close] calls a client issues
    on a fresh handle, on any platform and with failed opens in between:
    while the handle is open its descriptor is valid and [GetDeviceSize] is
    the size recorded for that descriptor; [GetSectorSize] is 512, no call
    ever changes it; and no [ReadBlock] fails with "Device file descriptor
    invalid", the check in [ReadImpl] is never the one that fires. *)
Theorem reachable_handle_invariants (os : OS) (calls : list DeviceCall) :
  (IsOpen (run_device_calls os DeviceIO_new calls) = true ->
   0 <= device_fd_ (run_device_calls os DeviceIO_new calls)
   /\ GetDeviceSize (run_device_calls os DeviceIO_new calls)
      = recorded_size
          (os_file os (device_fd_ (run_device_calls os DeviceIO_new calls))))
  /\ GetSectorSize (run_device_calls os DeviceIO_new calls) = 512
  /\ forall offset size buffer_null,
      ReadBlock os (run_device_calls os DeviceIO_new calls) offset size
        buffer_null
      <> Throw DeviceFdInvalid.
Proof.
  destruct (run_device_calls_invariant os calls DeviceIO_new)
    as [Hinv Hsec]; [discriminate | reflexivity |].
  unfold IsOpen, GetDeviceSize, GetSectorSize.
  split; [exact Hinv |]. split; [exact Hsec |].
  intros offset size buffer_null. unfold ReadBlock, ReadImpl.
  destruct (is_open_ (run_device_calls os DeviceIO_new calls)) eqn:Hopen;
    cbn [negb]; [| discriminate].
  destruct buffer_null; [discriminate |].
  destruct (wrap64 (offset + size) >? _); [discriminate |].
  destruct (Hinv eq_refl) as [Hfd _].
  destruct (Z.ltb_spec (device_fd_ (run_device_calls os DeviceIO_new calls)) 0);
    [lia |].
  destruct (dev_seek_set _ _ <? 0); [discriminate |].
  destruct (dev_read_count _ _ _ <? 0); discriminate.
Qed.

(** Witness for X22: open [/dev/sda1], fail to open a missing path,
    open [/dev/sdb1]. *)
Lemma reachable_handle_invariants_witness :
  IsOpen (run_device_calls two_os DeviceIO_new
            [CallOpen "/dev/sda1"; CallOpen "/dev/none"; CallOpen "/dev/sdb1"])
  = true
  /\ 0 <= device_fd_
            (run_device_calls two_os DeviceIO_new
               [CallOpen "/dev/sda1"; CallOpen "/dev/none"; CallOpen "/dev/sdb1"])
  /\ GetDeviceSize
       (run_device_calls two_os DeviceIO_new
          [CallOpen "/dev/sda1"; CallOpen "/dev/none"; CallOpen "/dev/sdb1"])
     = MiB.
Proof.
  assert (Ho : IsOpen (run_device_calls two_os DeviceIO_new
                         [CallOpen "/dev/sda1"; CallOpen "/dev/none";
                          CallOpen "/dev/sdb1"]) = true)
    by (vm_compute; reflexivity).
  split; [exact Ho |].
  split; [| vm_compute; reflexivity].
  apply (proj1 (reachable_handle_invariants two_os
                  [CallOpen "/dev/sda1"; CallOpen "/dev/none";
                   CallOpen "/dev/sdb1"]) Ho).
Defined.

(** ** Record parsers and deletion marks *)

(** X23. The record parsers against the deletion predicates of the same
    classes. [EXT4Parser::ParseInode], [NTFSParser::ParseFileRecord] and
    [APFSParser::ParseInode] reject a buffer of fewer than 48 bytes and
    leave the caller's entry alone; a longer buffer is accepted and the
    entry is filled without looking at the bytes: size 0, not a directory,
    not deleted, timestamps kept. So for an accepted record whose on-disk
    mark says deleted ([i_dtime] non-zero; NTFS in-use bit clear; APFS flag
    bit set) the class's predicate answers [true] while the parsed entry
    says [false]. *)
Theorem record_parsers_and_deletion_marks
        (data : list byte) (entry : FileEntry) :
  ((length data < 0x30)%nat ->
   EXT4Parser.ParseInode data entry = (false, entry)
   /\ NTFSParser.ParseFileRecord data entry = (false, entry)
   /\ APFSParser.ParseInode data entry = (false, entry))
  /\ ((0x30 <= length data)%nat ->
      (fst (EXT4Parser.ParseInode data entry) = true
       /\ fst (NTFSParser.ParseFileRecord data entry) = true
       /\ fst (APFSParser.ParseInode data entry) = true)
      /\ (is_deleted (snd (EXT4Parser.ParseInode data entry)) = false
          /\ is_deleted (snd (NTFSParser.ParseFileRecord data entry)) = false
          /\ is_deleted (snd (APFSParser.ParseInode data entry)) = false)
      /\ (modification_time (snd (EXT4Parser.ParseInode data entry))
          = modification_time entry
          /\ modification_time (snd (NTFSParser.ParseFileRecord data entry))
             = modification_time entry
          /\ modification_time (snd (APFSParser.ParseInode data entry))
             = modification_time entry)
      /\ (field_u32 data 0x14 <> 0 -> EXT4Parser.IsInodeDeleted data = true)
      /\ (Z.testbit (field_u16 data 0x22) 0 = false ->
          NTFSParser.IsFileDeleted data = true)
      /\ (Z.testbit (field_u16 data 0x06) 0 = true ->
          APFSParser.IsInodeDeleted data = true)).
Proof.
  unfold EXT4Parser.ParseInode, NTFSParser.ParseFileRecord,
    APFSParser.ParseInode.
  split; intros Hlen.
  - destruct (Nat.ltb_spec (length data) 0x30); [| lia]. split_conj; reflexivity.
  - destruct (Nat.ltb_spec (length data) 0x30); [lia |].
    split; [split_conj; reflexivity |].
    split; [split_conj; reflexivity |].
    split; [split_conj; reflexivity |].
    split; [| split].
    + intros Hd. unfold EXT4Parser.IsInodeDeleted.
      destruct (Nat.ltb_spec (length data) 0x18); [lia |].
      rewrite read_u32_field by lia.
      apply negb_true_iff, Z.eqb_neq. exact Hd.
    + intros Hbit. unfold NTFSParser.IsFileDeleted.
      destruct (Nat.ltb_spec (length data) 0x24); [lia |].
      rewrite read_u16_field by lia.
      change 0x0001 with 1. rewrite land_1_testbit, Hbit. reflexivity.
    + intros Hbit. unfold APFSParser.IsInodeDeleted.
      destruct (Nat.ltb_spec (length data) 0x08); [lia |].
      rewrite read_u16_field by lia.
      change 0x0001 with 1. rewrite land_1_eqb_1. exact Hbit.
Qed.

(** Witness for X23: the EXT inode with [i_dtime = 0x2a00]. *)
Lemma record_parsers_and_deletion_marks_witness :
  (0x30 <= length ext_deleted_inode)%nat
  /\ field_u32 ext_deleted_inode 0x14 <> 0
  /\ EXT4Parser.IsInodeDeleted ext_deleted_inode = true
  /\ is_deleted (snd (EXT4Parser.ParseInode ext_deleted_inode
                        EXT4Parser.sample_file))
     = false.
Proof.
  assert (Hlen : (0x30 <= length ext_deleted_inode)%nat)
    by (vm_compute; repeat constructor).
  assert (Hd : field_u32 ext_deleted_inode 0x14 <> 0)
    by (vm_compute; discriminate).
  destruct (proj2 (record_parsers_and_deletion_marks ext_deleted_inode
                     EXT4Parser.sample_file) Hlen)
    as (_ & (Hnot & _) & _ & Hpred & _).
  split; [exact Hlen |]. split; [exact Hd |].
  split; [exact (Hpred Hd) | exact Hnot].
Defined.

(** ** The descriptor table under Open and Close *)

Lemma held_after_app held t1 t2 :
  held_after held (t1 ++ t2) = held_after (held_after held t1) t2.
Proof. apply fold_left_app. Qed.

Lemma held_history_app t1 : forall held t2,
  held_history held (t1 ++ t2)
  = held_history held t1 ++ held_history (held_after held t1) t2.
Proof.
  induction t1 as [| c rest IH]; intros held t2; [reflexivity |].
  cbn [app held_history]. now rewrite IH.
Qed.

(** One call of the client, started with the table holding exactly the
    descriptor of an open handle and nothing for a closed one: the table
    never holds more than one descriptor, and the same relation between
    handle and table holds afterwards. *)
Lemma device_call_table os st c held :
  held = (if is_open_ st then [device_fd_ st] else []) ->
  (is_open_ st = true -> 0 <= device_fd_ st) ->
  Forall (fun t => (length t <= 1)%nat)
         (held_history held (device_call_syscalls os st c))
  /\ held_after held (device_call_syscalls os st c)
     = (if is_open_ (device_call os st c)
        then [device_fd_ (device_call os st c)] else [])
  /\ (is_open_ (device_call os st c) = true ->
      0 <= device_fd_ (device_call os st c)).
Proof.
  intros Hheld Hfd. subst held.
  destruct c as [path |]; cbn [device_call device_call_syscalls].
  - (* Open *)
    assert (Hfirst : held_after (if is_open_ st then [device_fd_ st] else [])
                       (if is_open_ st then Close_calls st else []) = []
                     /\ Forall (fun t => (length t <= 1)%nat)
                          (held_history
                             (if is_open_ st then [device_fd_ st] else [])
                             (if is_open_ st then Close_calls st else []))).
    { unfold Close_calls, CloseImpl_calls.
      destruct (is_open_ st) eqn:Hopen; [| split; [reflexivity | constructor]].
      cbn [negb]. destruct (Z.geb_spec (device_fd_ st) 0) as [_ | Hneg];
        [| specialize (Hfd eq_refl); lia].
      cbn [held_after fold_left held_history table_step release].
      rewrite Z.eqb_refl. split; [reflexivity |].
      constructor; [cbn; lia | constructor]. }
    destruct Hfirst as [Hafter Hhist].
    unfold Open_calls. rewrite held_history_app, held_after_app, Hafter.
    cbn [held_history held_after fold_left table_step].
    split; [| split].
    + apply Forall_app. split; [exact Hhist |].
      constructor; [| constructor].
      destruct (os_open os path >=? 0); cbn; lia.
    + destruct (Z.geb_spec (os_open os path) 0) as [Hge | Hlt].
      * destruct (Open_success os st path) as (fs & -> & _); [lia |].
        reflexivity.
      * rewrite (Open_failure os st path) by lia. reflexivity.
    + destruct (Z.le_gt_cases 0 (os_open os path)) as [Hge | Hlt].
      * destruct (Open_success os st path Hge) as (fs & -> & _).
        intros _. exact Hge.
      * rewrite (Open_failure os st path) by lia. discriminate.
  - (* Close *)
    unfold Close_calls, CloseImpl_calls, Close.
    destruct (is_open_ st) eqn:Hopen; cbn [negb snd is_open_].
    + destruct (Z.geb_spec (device_fd_ st) 0) as [_ | Hneg];
        [| specialize (Hfd eq_refl); lia].
      cbn [held_after fold_left held_history table_step release].
      rewrite Z.eqb_refl.
      split; [constructor; [cbn; lia | constructor] |].
      split; [reflexivity | discriminate].
    + rewrite Hopen. split; [constructor |].
      split; [reflexivity | discriminate].
Qed.

Lemma run_device_calls_table os calls : forall st held,
  held = (if is_open_ st then [device_fd_ st] else []) ->
  (is_open_ st = true -> 0 <= device_fd_ st) ->
  Forall (fun t => (length t <= 1)%nat)
         (held_history held (run_device_syscalls os st calls))
  /\ held_after held (run_device_syscalls os st calls)
     = (if is_open_ (run_device_calls os st calls)
        then [device_fd_ (run_device_calls os st calls)] else []).
Proof.
  induction calls as [| c rest IH]; intros st held Hheld Hfd;
    cbn [run_device_syscalls run_device_calls].
  - split; [constructor | exact Hheld].
  - destruct (device_call_table os st c held Hheld Hfd) as (Hhist & Hafter & Hfd').
    destruct (IH (device_call os st c) _ Hafter Hfd') as [Hhist' Hafter'].
    rewrite held_history_app, held_after_app.
    split; [apply Forall_app; split; assumption | exact Hafter'].
Qed.

(** X24. A [DeviceIO] object never holds two descriptors. Whatever
    sequence of [Open] and [Close] calls a client issues on a fresh handle,
    on any platform and with refused opens in between, after each [open]
    and [close] that the object issues the process holds at most one
    descriptor obtained through it; at the end it holds exactly the
    descriptor of the handle when the handle is open and none when it is
    closed: a reopen closes the previous descriptor before it opens the
    next. *)
Theorem handle_holds_at_most_one_descriptor
        (os : OS) (calls : list DeviceCall) :
  Forall (fun held => (length held <= 1)%nat)
         (held_history [] (run_device_syscalls os DeviceIO_new calls))
  /\ held_after [] (run_device_syscalls os DeviceIO_new calls)
     = (if IsOpen (run_device_calls os DeviceIO_new calls)
        then [device_fd_ (run_device_calls os DeviceIO_new calls)]
        else []).
Proof.
  apply run_device_calls_table; [reflexivity | discriminate].
Qed.
